(** * BiliMall-Tracker: the ingestion, pagination and caching engine of shiji.py

    A shallow embedding of the parts of [src/shiji.py] that feed the listing
    cache and the lowest-price history: [WorkerThread] (the paginated fetch
    and the normalisation of feed items) and the data side of
    [ProductMonitor] (cache update, price alerts, the three JSON stores).

    Conventions of the embedding.
    - A decoded JSON document is a [json] value; a Python [dict] with string
      keys is a [gmap string json], [None] is [JNull].
    - A Python [float] is the rational it denotes ([Q]); not-a-number and the
      infinities are outside the model. The division [n / 100] rounds to the
      nearest double as Python does, and raises [OverflowError] out of range.
    - A Python exception is a [Raise e] result; every [try ... except
      Exception] of the source is a [match] on the result.
    - Qt widgets are reduced to the data they hold (a card keeps its texts
      and its link); styles and layouts are not modelled, sizes only as far
      as a Qt method refuses them.
    - A string is the UTF-8 text of a Python [str]; a [str] with a lone
      surrogate has none, and [json.dump] fails on it: that is one of the
      write faults of [ProductMonitor.fault].
    - The worker thread and the window run one after the other: a signal
      emitted by [run] is delivered when [run] has returned. *)

From Stdlib Require Import Ascii String QArith.
From stdpp Require Import gmap strings list fin_maps pretty.

Set Warnings "-register-all".

(** ** Decoded JSON and the Python operations the program applies to it *)

Inductive json : Type :=
  | JNull
  | JBool (b : bool)
  | JInt (z : Z)
  | JFloat (q : Q)
  | JStr (s : string)
  | JArr (l : list json)
  | JObj (m : gmap string json).

Inductive exn : Type :=
  | AttributeError
  | IndexError
  | KeyError
  | OverflowError
  | TypeError
  | ValueError.

Inductive result (A : Type) : Type :=
  | Ok (a : A)
  | Raise (e : exn).

Arguments Ok {A} a.
Arguments Raise {A} e.

#[global] Instance result_ret : MRet result := λ A, Ok.

#[global] Instance result_bind : MBind result :=
  λ A B f r, match r with Ok a => f a | Raise e => Raise e end.

#[global] Instance result_fmap : FMap result :=
  λ A B f r, match r with Ok a => Ok (f a) | Raise e => Raise e end.

Definition is_ok {A} (r : result A) : bool :=
  match r with Ok _ => true | Raise _ => false end.

Definition Qltb (x y : Q) : bool := (Qnum x * QDen y <? Qnum y * QDen x)%Z.
Definition Qleb (x y : Q) : bool := (Qnum x * QDen y <=? Qnum y * QDen x)%Z.

(** *** Floats

    The integer nearest to a rational, ties to even. *)
Definition round_half_even (q : Q) : Z :=
  let n := Qnum q in
  let d := Zpos (Qden q) in
  let f := (n / d)%Z in
  let r := (n mod d)%Z in
  if (2 * r <? d)%Z then f
  else if (d <? 2 * r)%Z then (f + 1)%Z
  else if Z.even f then f else (f + 1)%Z.

(** [f"{x:.2f}"] read back as a number: [x] rounded to hundredths, ties to
    even. *)
Definition two_decimals (q : Q) : Q := (round_half_even (q * 100) # 100)%Q.

(** [2 ** k] for an exponent of either sign. *)
Definition pow2 (k : Z) : Q :=
  if (0 <=? k)%Z then inject_Z (2 ^ k) else (1 # Z.to_pos (2 ^ (- k)))%Q.

(** The exponent [e] with [2 ** e <= q < 2 ** (e + 1)], for a positive
    [q]. *)
Definition binade (q : Q) : Z :=
  let e := (Z.log2 (Qnum q) - Z.log2 (Zpos (Qden q)))%Z in
  if Qleb (pow2 e) q then e else (e - 1)%Z.

(** The double nearest to a rational, ties to even: 53 significant bits,
    exponents from -1022, smaller numbers in steps of [2 ** -1074]. [None]
    when the nearest double would be [2 ** 1024] or more. A rational that
    is a double is given back as it is written. *)
Definition round_double (q : Q) : option Q :=
  if Qeq_bool q 0 then Some q
  else
    let a := if Qltb q 0 then (- q)%Q else q in
    let ulp := pow2 (Z.max (binade a) (-1022) - 52) in
    let r := (inject_Z (round_half_even (a / ulp)) * ulp)%Q in
    if Qleb (pow2 1024) r then None
    else
      let r' := if Qltb q 0 then (- r)%Q else r in
      Some (if Qeq_bool r' q then q else r').

Arguments round_double : simpl never.

(** The number a value stands for in arithmetic and comparisons: [int],
    [float] and [bool] (a subclass of [int]); nothing else is a number. *)
Definition as_number (v : json) : option Q :=
  match v with
  | JInt z => Some (inject_Z z)
  | JFloat q => Some q
  | JBool b => Some (inject_Z (if b then 1 else 0))
  | _ => None
  end.

(** [bool(v)], the test of [if v:] and of [not v]. *)
Definition truthy (v : json) : bool :=
  match v with
  | JNull => false
  | JBool b => b
  | JInt z => negb (z =? 0)%Z
  | JFloat q => negb (Qeq_bool q 0)
  | JStr s => negb (String.eqb s "")
  | JArr l => match l with [] => false | _ => true end
  | JObj m => match map_to_list m with [] => false | _ => true end
  end.

(** [v.get(k, d)]: only a dict has [get]. *)
Definition dict_get (v : json) (k : string) (d : json) : result json :=
  match v with
  | JObj m => Ok (default d (m !! k))
  | _ => Raise AttributeError
  end.

(** [v[k]] for a string [k]. *)
Definition subscript (v : json) (k : string) : result json :=
  match v with
  | JObj m => match m !! k with Some x => Ok x | None => Raise KeyError end
  | _ => Raise TypeError
  end.

(** [v[0]]: the first element of a list, the first character of a string;
    a dict decoded from JSON has no key [0]. *)
Definition subscript0 (v : json) : result json :=
  match v with
  | JArr (x :: _) => Ok x
  | JArr [] => Raise IndexError
  | JStr (String c _) => Ok (JStr (String c ""))
  | JStr EmptyString => Raise IndexError
  | JObj _ => Raise KeyError
  | _ => Raise TypeError
  end.

Fixpoint substring_of (s t : string) : bool :=
  if String.prefix s t then true
  else match t with
       | EmptyString => false
       | String _ t' => substring_of s t'
       end.

(** [k in v] for a string [k]: a key of a dict, a substring of a string, an
    element of a list. *)
Definition contains (k : string) (v : json) : result bool :=
  match v with
  | JObj m => Ok (bool_decide (is_Some (m !! k)))
  | JStr s => Ok (substring_of k s)
  | JArr l =>
      Ok (existsb (λ x, match x with JStr s => String.eqb k s | _ => false end) l)
  | _ => Raise TypeError
  end.

(** [v[k] = x]: strings and lists refuse a string index. *)
Definition set_item (v : json) (k : string) (x : json) : result json :=
  match v with
  | JObj m => Ok (JObj (<[k := x]> m))
  | _ => Raise TypeError
  end.

(** [v / 100]: true division, correctly rounded; of an [int] too large
    for a float it raises. (A float divided by 100 stays in range.) *)
Definition div100 (v : json) : result Q :=
  match as_number v with
  | Some q =>
      match round_double (q / 100) with
      | Some r => Ok r
      | None => Raise OverflowError
      end
  | None => Raise TypeError
  end.

(** The number [f"{v:.2f}"] shows: an [int] is converted to a float first;
    a string refuses the format code, [None], lists and dicts the format
    string. *)
Definition format_2f (v : json) : result Q :=
  match v with
  | JStr _ => Raise ValueError
  | JInt z =>
      match round_double (inject_Z z) with
      | Some r => Ok (two_decimals r)
      | None => Raise OverflowError
      end
  | _ =>
      match as_number v with
      | Some q => Ok (two_decimals q)
      | None => Raise TypeError
      end
  end.

(** An argument of a Qt method that takes a C [int] ([setFixedSize],
    [setValue]): an [int] (a [bool] is one) that fits in 32 bits. PyQt5
    refuses everything else; a float too, which Python has no longer
    converted for it since version 3.10. *)
Definition qt_int (v : json) : result Z :=
  match v with
  | JInt z =>
      if ((-2147483648 <=? z) && (z <=? 2147483647))%Z then Ok z
      else Raise OverflowError
  | JBool b => Ok (if b then 1 else 0)%Z
  | _ => Raise TypeError
  end.

(** An argument of a Qt method that takes a string ([setText]). *)
Definition qt_str (v : json) : result string :=
  match v with
  | JStr s => Ok s
  | _ => Raise TypeError
  end.

(** [p < v] and [p <= v] for a float [p]. *)
Definition float_lt (p : Q) (v : json) : result bool :=
  match as_number v with
  | Some q => Ok (Qltb p q)
  | None => Raise TypeError
  end.

Definition float_le (p : Q) (v : json) : result bool :=
  match as_number v with
  | Some q => Ok (Qleb p q)
  | None => Raise TypeError
  end.

(** [v <= 0] for the integer literal. *)
Definition le_zero (v : json) : result bool :=
  match as_number v with
  | Some q => Ok (Qleb q 0)
  | None => Raise TypeError
  end.

(** [v != 0]. *)
Definition ne_zero (v : json) : bool :=
  match as_number v with
  | Some q => negb (Qeq_bool q 0)
  | None => true
  end.

(** [for item in v]: the elements of a list, the keys of a dict, the
    characters of a string (bytes here; every one is a string, which is all
    that the loop body can see of it). *)
Definition iterate (v : json) : result (list json) :=
  match v with
  | JArr l => Ok l
  | JObj m => Ok (JStr <$> (map_to_list m).*1)
  | JStr s => Ok ((λ c, JStr (String c "")) <$> String.list_ascii_of_string s)
  | _ => Raise TypeError
  end.

Fixpoint replace_space (s : string) : string :=
  match s with
  | EmptyString => EmptyString
  | String c s' =>
      String (if Ascii.eqb c " "%char then "_"%char else c) (replace_space s')
  end.

(** The dict built for each feed item by [process_response]. *)
Record product : Type := {
  p_id : string;
  p_name : string;
  p_price : Q;
  p_image : string;
  p_detail_url : string;
}.

(** Taken as given: two built-ins, the text [str] gives for a float, a list
    or a dict, and [str.strip]; and the user in front of the price alert,
    [view_all products] being whether the button "查看全部" is pressed in
    the alert that lists [products]. *)
Class PyBuiltins : Type := {
  repr_other : json → string;
  strip : string → string;
  view_all : list product → bool;
}.

(** [str(v)], also what an f-string puts for [{v}]. *)
Definition py_str `{!PyBuiltins} (v : json) : string :=
  match v with
  | JStr s => s
  | JInt z => pretty z
  | JBool b => if b then "True" else "False"
  | JNull => "None"
  | _ => repr_other v
  end.

(** [v.strip()]: only a string has it. *)
Definition str_strip `{!PyBuiltins} (v : json) : result string :=
  match v with
  | JStr s => Ok (strip s)
  | _ => Raise AttributeError
  end.

(** ** The records the program builds *)

Definition items_url (pid : string) : string :=
  "https://mall.bilibili.com/neul-next/index.html?itemsId=" +:+ pid.

Definition product_json (p : product) : json :=
  JObj (<["id" := JStr (p_id p)]>
       (<["name" := JStr (p_name p)]>
       (<["price" := JFloat (p_price p)]>
       (<["image" := JStr (p_image p)]>
       (<["detail_url" := JStr (p_detail_url p)]> ∅))))).

(** The dict stored in [min_price_products] under the product's name. *)
Definition min_price_record (p : product) (t : Q) : json :=
  JObj (<["id" := JStr (p_id p)]>
       (<["name" := JStr (p_name p)]>
       (<["price" := JFloat (p_price p)]>
       (<["image" := JStr (p_image p)]>
       (<["url" := JStr (p_detail_url p)]>
       (<["timestamp" := JFloat t]> ∅)))))).

(** The price a stored record carries, as the comparison reads it. *)
Definition stored_price (r : json) : result Q :=
  v ← subscript r "price";
  match as_number v with Some q => Ok q | None => Raise TypeError end.

(** ** WorkerThread *)

Module WorkerThread.

Record worker : Type := {
  next_id : json;
  is_refresh : bool;
  auto_load_more : bool;
  auto_load_pages : Z;
}.

(** [WorkerThread.__init__]. *)
Definition init : worker :=
  {| next_id := JNull; is_refresh := false;
     auto_load_more := false; auto_load_pages := 3 |}.

Inductive error_message : Type :=
  | request_failed (status_code : Z)
  | network_error
  | processing_failed.

Inductive signal : Type :=
  | update_signal (products : list product)
  | error_signal (msg : error_message)
  | auto_load_signal.

(** The POST request of [run]: the Cookie header and the [nextId] of the
    body; the reply of [requests.post]. *)
Record request : Type := {
  req_cookie : json;
  req_next_id : json;
}.

Inductive response : Type :=
  | no_response
  | http (status_code : Z) (body : option json).

(** What one execution of [run] leaves behind. *)
Record outcome : Type := {
  out_worker : worker;
  out_index : gmap string json;
  out_ticks : nat;
  out_signals : list signal;
  out_requests : list request;
}.

(** [refresh_data]. *)
Definition refresh_data (w : worker) : worker :=
  {| next_id := next_id w; is_refresh := true;
     auto_load_more := true; auto_load_pages := 3 |}.

Section with_builtins.
Context `{!PyBuiltins}.

(** The body of the loop of [process_response] up to the product dict. *)
Definition normalize (item : json) : result product :=
  c ← dict_get item "c2cItemsId" (JStr "");
  let product_id := py_str c in
  dl ← dict_get item "detailDtoList" (JArr [JObj ∅]);
  detail ← subscript0 dl;
  n ← dict_get detail "name" (JStr "未知商品");
  name ← str_strip n;
  pr ← dict_get item "price" (JInt 0);
  price ← div100 pr;
  img ← dict_get detail "img" (JStr "");
  Ok {| p_id := product_id;
        p_name := name;
        p_price := price;
        p_image := "https:" +:+ py_str img;
        p_detail_url := items_url product_id |}.

End with_builtins.

(** The update of the lowest-price record in [process_response]:
    [if name not in min_price_products or price < min_price_products[name]['price']].
    [clock k] is what the [k]-th call of [time.time()] returns. *)
Definition update_min_price (clock : nat → Q) (p : product)
    (st : gmap string json * nat) : result (gmap string json * nat) :=
  let '(idx, ticks) := st in
  lower ← match idx !! p_name p with
          | None => Ok true
          | Some r => old ← subscript r "price"; float_lt (p_price p) old
          end;
  Ok (if lower : bool
      then (<[p_name p := min_price_record p (clock ticks)]> idx, S ticks)
      else (idx, ticks)).

Section with_builtins.
Context `{!PyBuiltins}.

(** One turn of the loop, with its [try ... except Exception]: a product is
    appended only when nothing raised. *)
Definition process_item (clock : nat → Q) (item : json)
    (st : gmap string json * nat) : option product * (gmap string json * nat) :=
  match (p ← normalize item; st' ← update_min_price clock p st; Ok (p, st')) with
  | Ok (p, st') => (Some p, st')
  | Raise _ => (None, st)
  end.

Fixpoint process_items (clock : nat → Q) (items : list json)
    (st : gmap string json * nat) : list product * (gmap string json * nat) :=
  match items with
  | [] => ([], st)
  | item :: rest =>
      let '(o, st1) := process_item clock item st in
      let '(ps, st2) := process_items clock rest st1 in
      (match o with Some p => p :: ps | None => ps end, st2)
  end.

(** The items the loop of [process_response] runs over. *)
Definition response_items (data : json) : result (list json) :=
  code ← dict_get data "code" JNull;
  if ne_zero code then Raise ValueError
  else
    d ← dict_get data "data" (JObj ∅);
    its ← dict_get d "data" (JArr []);
    iterate its.

(** [process_response]: the products, the index and clock afterwards, and
    the signals emitted. *)
Definition process_response (clock : nat → Q) (data : json)
    (st : gmap string json * nat)
    : list product * (gmap string json * nat) * list signal :=
  match response_items data with
  | Ok items => (process_items clock items st, [])
  | Raise _ => ([], st, [error_signal processing_failed])
  end.

(** [run]: one fetch. [cookies] and [idx] are [parent.cookies] and
    [parent.min_price_products]; [post] is the marketplace. *)
Definition run (post : request → response) (clock : nat → Q)
    (cookies : json) (idx : gmap string json) (ticks : nat) (w : worker)
    : outcome :=
  let failed w' st sigs reqs :=
    {| out_worker := w'; out_index := st.1; out_ticks := st.2;
       out_signals := sigs ++ [error_signal network_error];
       out_requests := reqs |} in
  match dict_get cookies "cookie" (JStr "") with
  | Raise _ => failed w (idx, ticks) [] []
  | Ok cookie =>
    let w1 :=
      if is_refresh w
      then {| next_id := JNull; is_refresh := false;
              auto_load_more := auto_load_more w;
              auto_load_pages := auto_load_pages w |}
      else w in
    let req := {| req_cookie := cookie; req_next_id := next_id w1 |} in
    match post req with
    | no_response => failed w1 (idx, ticks) [] [req]
    | http status_code body =>
      if bool_decide (status_code = 200%Z) then
        match body with
        | None => failed w1 (idx, ticks) [] [req]
        | Some data =>
          match dict_get data "code" JNull with
          | Raise _ => failed w1 (idx, ticks) [] [req]
          | Ok _ =>
            let '(products, st, sigs) :=
              process_response clock data (idx, ticks) in
            match (d ← dict_get data "data" (JObj ∅); dict_get d "nextId" JNull) with
            | Raise _ => failed w1 st sigs [req]
            | Ok nid =>
              if truthy nid then
                let continue :=
                  auto_load_more w1 && bool_decide (auto_load_pages w1 > 1)%Z in
                {| out_worker :=
                     {| next_id := nid; is_refresh := is_refresh w1;
                        auto_load_more := auto_load_more w1;
                        auto_load_pages :=
                          if continue then (auto_load_pages w1 - 1)%Z
                          else auto_load_pages w1 |};
                   out_index := st.1; out_ticks := st.2;
                   out_signals :=
                     sigs ++ (if continue then [auto_load_signal] else [])
                          ++ [update_signal products];
                   out_requests := [req] |}
              else
                {| out_worker :=
                     {| next_id := next_id w1; is_refresh := is_refresh w1;
                        auto_load_more := false;
                        auto_load_pages := auto_load_pages w1 |};
                   out_index := st.1; out_ticks := st.2;
                   out_signals := sigs ++ [update_signal products];
                   out_requests := [req] |}
            end
          end
        end
      else
        {| out_worker := w1; out_index := idx; out_ticks := ticks;
           out_signals := [error_signal (request_failed status_code)];
           out_requests := [req] |}
    end
  end.

End with_builtins.

End WorkerThread.

(** ** ProductMonitor *)

Module ProductMonitor.

(** A product card ([QFrame]) by what it holds: its object name, the texts
    of its "name" and "price" labels (the price label shows two decimals;
    [card_price] is the number it shows), the image it was asked to load,
    the link it opens, and whether it carries the style and the label of a
    just refreshed product. *)
Record card : Type := {
  card_object_name : string;
  card_name : string;
  card_price : Q;
  card_image : option json;
  card_view_url : json;
  card_fresh : bool;
}.

Record settings : Type := {
  columns_count : json;
  sidebar_columns_count : json;
  api_cooldown : json;
  card_width : json;
  card_height : json;
  price_alert_threshold : json;
  price_alert_enabled : json;
}.

Record monitor : Type := {
  product_cache : gmap string card;
  min_price_products : gmap string json;
  conf : settings;
  cookies : json;
  refresh_interval : Z;
  remaining_time : Z;
  is_paused : bool;
  last_refresh_count : nat;
  total_products_count : nat;
  last_refresh_ids : gset string;
  refresh_btn : bool;
  load_more_btn : bool;
}.

(** A file of the working directory: [garbled] is a file that [open] or
    [json.load] rejects (unreadable, cut short, not JSON); no entry in the
    map is no file. *)
Inductive file : Type :=
  | garbled
  | stored (doc : json).

(** What a method asks of the outside. *)
Inductive effect : Type :=
  | write_file (path : string) (doc : json)
  | show_price_alert (products : list product)
  | show_error (msg : WorkerThread.error_message)
  | single_shot (msec : json).

Definition default_settings : settings :=
  {| columns_count := JInt 8; sidebar_columns_count := JInt 3;
     api_cooldown := JInt 2000; card_width := JInt 150;
     card_height := JInt 180; price_alert_threshold := JInt 0;
     price_alert_enabled := JBool false |}.

Definition set_buttons (st : monitor) (b : bool) : monitor :=
  {| product_cache := product_cache st;
     min_price_products := min_price_products st;
     conf := conf st; cookies := cookies st;
     refresh_interval := refresh_interval st;
     remaining_time := remaining_time st; is_paused := is_paused st;
     last_refresh_count := last_refresh_count st;
     total_products_count := total_products_count st;
     last_refresh_ids := last_refresh_ids st;
     refresh_btn := b; load_more_btn := b |}.

Definition set_index (st : monitor) (idx : gmap string json) : monitor :=
  {| product_cache := product_cache st;
     min_price_products := idx;
     conf := conf st; cookies := cookies st;
     refresh_interval := refresh_interval st;
     remaining_time := remaining_time st; is_paused := is_paused st;
     last_refresh_count := last_refresh_count st;
     total_products_count := total_products_count st;
     last_refresh_ids := last_refresh_ids st;
     refresh_btn := refresh_btn st; load_more_btn := load_more_btn st |}.

Definition set_schedule (st : monitor) (interval remaining : Z) (paused : bool)
    : monitor :=
  {| product_cache := product_cache st;
     min_price_products := min_price_products st;
     conf := conf st; cookies := cookies st;
     refresh_interval := interval;
     remaining_time := remaining; is_paused := paused;
     last_refresh_count := last_refresh_count st;
     total_products_count := total_products_count st;
     last_refresh_ids := last_refresh_ids st;
     refresh_btn := refresh_btn st; load_more_btn := load_more_btn st |}.

Definition mark (fresh : bool) (c : card) : card :=
  {| card_object_name := card_object_name c; card_name := card_name c;
     card_price := card_price c; card_image := card_image c;
     card_view_url := card_view_url c; card_fresh := fresh |}.

(** [check_price_alerts]: the list [alert_products]; [show_price_alert] is
    called with it when it is not empty. *)
Fixpoint alert_products (threshold : json) (products : list product)
    : result (list product) :=
  match products with
  | [] => Ok []
  | p :: rest =>
      b ← float_le (p_price p) threshold;
      l ← alert_products threshold rest;
      Ok (if b : bool then p :: l else l)
  end.

Definition check_price_alerts (c : settings) (products : list product)
    : result (list product) :=
  if negb (truthy (price_alert_enabled c)) then Ok []
  else
    nonpos ← le_zero (price_alert_threshold c);
    if nonpos : bool then Ok []
    else alert_products (price_alert_threshold c) products.

(** [save_min_price_products], [save_settings], [save_product_cache]: the
    document each one dumps. *)
Definition save_min_price_products (st : monitor) : effect :=
  write_file "min_price_history.json" (JObj (min_price_products st)).

Definition save_settings (st : monitor) : effect :=
  write_file "settings.json"
    (JObj (<["columns_count" := columns_count (conf st)]>
          (<["sidebar_columns_count" := sidebar_columns_count (conf st)]>
          (<["api_cooldown" := api_cooldown (conf st)]>
          (<["card_width" := card_width (conf st)]>
          (<["card_height" := card_height (conf st)]>
          (<["price_alert_threshold" := price_alert_threshold (conf st)]>
          (<["price_alert_enabled" := price_alert_enabled (conf st)]> ∅)))))))).

Definition cache_entry (pid : string) (c : card) : json :=
  JObj (<["id" := JStr pid]>
       (<["name" := JStr (card_name c)]>
       (<["price" := JFloat (card_price c)]>
       (<["image" := JStr ""]>
       (<["detail_url" := JStr (items_url pid)]> ∅))))).

Definition save_product_cache (st : monitor) : effect :=
  write_file "product_cache.json"
    (JObj (map_imap (λ pid c, Some (cache_entry pid c)) (product_cache st))).

(** [closeEvent]. *)
Definition closeEvent (st : monitor) : list effect :=
  [save_min_price_products st; save_product_cache st; save_settings st].

(** [with open(path, 'w') as f: json.dump(doc, f)] inside [try ... except
    Exception]: [open] may fail before it touches the file; once it has
    succeeded the file is empty, and it holds the whole document only when
    the block has been left. [json.dump] fails when the disk does, and
    when a string of the document cannot be encoded (a lone surrogate in a
    name): the file is then left cut short. *)
Inductive fault : Type :=
  | no_fault
  | open_fails
  | write_fails.

Definition write_json (ft : fault) (path : string) (doc : json)
    (d : gmap string file) : gmap string file :=
  match ft with
  | no_fault => <[path := stored doc]> d
  | open_fails => d
  | write_fails => <[path := garbled]> d
  end.

(** The contents of the directory while a write runs: before [open], after
    [open], after the block. *)
Definition during_write (path : string) (doc : json) (d : gmap string file)
    : list (gmap string file) :=
  [d; <[path := garbled]> d; <[path := stored doc]> d].

Definition perform (ft : fault) (e : effect) (d : gmap string file)
    : gmap string file :=
  match e with
  | write_file path doc => write_json ft path doc d
  | _ => d
  end.

(** [load_settings]: what the [try] block makes of the decoded file, and
    the whole method. *)
Definition read_settings (doc : json) : result settings :=
  a ← dict_get doc "columns_count" (JInt 8);
  b ← dict_get doc "sidebar_columns_count" (JInt 3);
  c ← dict_get doc "api_cooldown" (JInt 2000);
  w ← dict_get doc "card_width" (JInt 150);
  h ← dict_get doc "card_height" (JInt 180);
  t ← dict_get doc "price_alert_threshold" (JInt 0);
  e ← dict_get doc "price_alert_enabled" (JBool false);
  Ok {| columns_count := a; sidebar_columns_count := b; api_cooldown := c;
        card_width := w; card_height := h; price_alert_threshold := t;
        price_alert_enabled := e |}.

Definition load_settings (f : option file) (s : settings) : settings :=
  match f with
  | None => s
  | Some garbled => s
  | Some (stored doc) =>
      match read_settings doc with Ok s' => s' | Raise _ => s end
  end.

(** [data.items()]. *)
Definition items (doc : json) : result (gmap string json) :=
  match doc with
  | JObj m => Ok m
  | _ => Raise AttributeError
  end.

(** The first exception of a loop over the entries of a dict. *)
Definition first_raise {A} (f : string → json → result A)
    (m : gmap string json) : option exn :=
  head (omap (λ kv, match f kv.1 kv.2 with Raise e => Some e | Ok _ => None end)
             (map_to_list m)).

Definition for_items {A} (f : string → json → result A)
    (m : gmap string json) : result (gmap string A) :=
  match first_raise f m with
  | Some e => Raise e
  | None =>
      Ok (map_imap (λ k v, match f k v with Ok a => Some a | Raise _ => None end) m)
  end.

(** The entry [load_min_price_products] keeps for a record: an [id] is
    added when the record has none. *)
Definition ensure_id (name : string) (product : json) : result json :=
  has ← contains "id" product;
  if has : bool then Ok product
  else set_item product "id" (JStr (replace_space name)).

(** [load_min_price_products]: what the [try] block makes of the decoded
    file, and the whole method. *)
Definition read_min_price_products (doc : json) : result (gmap string json) :=
  data ← items doc;
  for_items ensure_id data.

Definition load_min_price_products (f : option file) (idx : gmap string json)
    : gmap string json :=
  match f with
  | None => idx
  | Some garbled => ∅
  | Some (stored doc) =>
      match read_min_price_products doc with
      | Ok idx' => idx'
      | Raise _ => ∅
      end
  end.

Section with_builtins.
Context `{!PyBuiltins}.

(** The two calls of [setFixedSize] in [add_product_card], for the card
    ([self.card_width], [self.card_height]) and for its image
    ([self.card_width - 10], [int(self.card_height * 0.55)]). *)
Definition fixed_sizes (c : settings) : result unit :=
  w ← qt_int (card_width c);
  h ← qt_int (card_height c);
  _ ← qt_int (JInt (w - 10));
  Ok ().

(** [add_product_card]; [c] holds the card sizes of the window. *)
Definition add_product_card (c : settings) (product : json) (is_new : bool)
    : result card :=
  pid ← subscript product "id";
  _ ← fixed_sizes c;
  has_image ← contains "image" product;
  img ← (if has_image : bool
         then v ← subscript product "image";
              Ok (if truthy v then Some v else None)
         else Ok None);
  n ← subscript product "name";
  name ← match n with JStr s => Ok s | _ => Raise TypeError end;
  pr ← subscript product "price";
  price ← format_2f pr;
  has_url ← contains "detail_url" product;
  url ← (if has_url : bool then subscript product "detail_url"
         else Ok (JStr (items_url (py_str pid))));
  Ok {| card_object_name := "product_" +:+ py_str pid;
        card_name := name; card_price := price; card_image := img;
        card_view_url := url; card_fresh := is_new |}.

(** [load_product_cache]: what the [try] block makes of the decoded file,
    and the whole method. *)
Definition read_product_cache (c : settings) (doc : json)
    : result (gmap string card) :=
  cache_data ← items doc;
  for_items (λ _ data, add_product_card c data false) cache_data.

Definition load_product_cache (c : settings) (f : option file)
    (cache : gmap string card) : gmap string card :=
  match f with
  | None => cache
  | Some garbled => ∅
  | Some (stored doc) =>
      match read_product_cache c doc with
      | Ok cards => cards ∪ cache
      | Raise _ => ∅
      end
  end.

(** [self.cooldown_spinner.setValue(self.api_cooldown // 1000)]: the floor
    division of a float is a float, which [setValue] refuses. *)
Definition cooldown_seconds (v : json) : result Z :=
  match v with
  | JInt z => qt_int (JInt (z / 1000))
  | JBool _ => Ok 0%Z
  | _ => Raise TypeError
  end.

(** [init_ui], as far as it reads the attributes set before it: the cookie
    goes into a line edit, the cooldown and the column count into spin
    boxes; the countdown starts from the interval. (The layout it ends
    with finds the count of the cards already set.) *)
Definition init_ui (st : monitor) : result monitor :=
  cookie ← dict_get (cookies st) "cookie" (JStr "");
  _ ← qt_str cookie;
  _ ← cooldown_seconds (api_cooldown (conf st));
  _ ← qt_int (columns_count (conf st));
  Ok (set_schedule st (refresh_interval st) (refresh_interval st)
                   (is_paused st)).

(** [ProductMonitor.__init__]: the defaults, the settings, the cache (its
    cards made with the sizes just loaded), [init_ui], and last the index.
    The cookies come from [load_cookies]. An exception of [init_ui] is
    caught nowhere: the window is not built. *)
Definition init (cookie_jar : json) (d : gmap string file) : result monitor :=
  let s := load_settings (d !! "settings.json") default_settings in
  let cache := load_product_cache s (d !! "product_cache.json") ∅ in
  st ← init_ui
         {| product_cache := cache;
            min_price_products := ∅;
            conf := s; cookies := cookie_jar;
            refresh_interval := 5; remaining_time := 0; is_paused := false;
            last_refresh_count := 0; total_products_count := size cache;
            last_refresh_ids := ∅;
            refresh_btn := true; load_more_btn := true |};
  Ok (set_index st
        (load_min_price_products (d !! "min_price_history.json")
                                 (min_price_products st))).

(** The loop of [update_products] over the batch: a new id gets a card, a
    known id has its card restyled and labelled as just refreshed. *)
Definition upsert (s : settings) (cache : gmap string card) (p : product)
    : result (gmap string card * bool) :=
  match cache !! p_id p with
  | None =>
      c ← add_product_card s (product_json p) true;
      Ok (<[p_id p := c]> cache, true)
  | Some old_card => Ok (<[p_id p := mark true old_card]> cache, false)
  end.

Fixpoint upsert_all (s : settings) (cache : gmap string card)
    (new_products_count : nat) (products : list product)
    : gmap string card * nat * option exn :=
  match products with
  | [] => (cache, new_products_count, None)
  | p :: rest =>
      match upsert s cache p with
      | Ok (cache', is_new) =>
          upsert_all s cache'
            (if is_new : bool then S new_products_count else new_products_count)
            rest
      | Raise e => (cache, new_products_count, Some e)
      end
  end.

(** The cards of the previous batch lose their mark. *)
Definition unmark (ids : gset string) (cache : gmap string card)
    : gmap string card :=
  map_imap (λ pid c, Some (if bool_decide (pid ∈ ids) then mark false c else c))
           cache.

(** [show_all_alert_products]: [QTableWidget] has no [Stretch], and the
    method raises before its dialog is shown. *)
Definition show_all_alert_products (products : list product) : result unit :=
  Raise AttributeError.

(** What follows the message box of [show_price_alert]: the list of all
    the products, if the user asks for it. *)
Definition after_alert (products : list product) : result unit :=
  match products with
  | [] => Ok ()
  | _ :: _ =>
      if view_all products then show_all_alert_products products else Ok ()
  end.

(** [update_products]. An exception of the [try] block, at the alert or
    at a new card, ends the method with what was done until then. *)
Definition update_products (st : monitor) (products : list product)
    : monitor * list effect :=
  match products with
  | [] => (set_buttons st true, [])
  | _ :: _ =>
      match check_price_alerts (conf st) products with
      | Raise _ => (set_buttons st true, [])
      | Ok alerts =>
        let shown :=
          match alerts with [] => [] | _ :: _ => [show_price_alert alerts] end in
        match after_alert alerts with
        | Raise _ => (set_buttons st true, shown)
        | Ok _ =>
          let ids : gset string := list_to_set (p_id <$> products) in
          let '(cache, _, raised) :=
            upsert_all (conf st)
                       (unmark (last_refresh_ids st) (product_cache st)) 0
                       products in
          let st' done :=
            {| product_cache := cache;
               min_price_products := min_price_products st;
               conf := conf st; cookies := cookies st;
               refresh_interval := refresh_interval st;
               remaining_time := remaining_time st;
               is_paused := is_paused st;
               last_refresh_count := length products;
               total_products_count :=
                 if done : bool then size cache else total_products_count st;
               last_refresh_ids := ids;
               refresh_btn := true; load_more_btn := true |} in
          match raised with
          | Some _ => (st' false, shown)
          | None =>
              (st' true,
               shown
               ++ (if truthy (JObj (min_price_products st))
                   then [save_min_price_products (st' true)] else [])
               ++ [save_product_cache (st' true)])
          end
        end
      end
  end.

(** The window, its worker thread, and the number of calls of
    [time.time()] so far. *)
Record app : Type := {
  window : monitor;
  worker_thread : WorkerThread.worker;
  ticks : nat;
}.

(** [handle_error] and [auto_load_more], the slots of [error_signal] and
    [auto_load_signal]. *)
Definition handle_error (msg : WorkerThread.error_message) : list effect :=
  [show_error msg].

Definition auto_load_more (st : monitor) : list effect :=
  [single_shot (api_cooldown (conf st))].

Definition deliver (st : monitor) (s : WorkerThread.signal)
    : monitor * list effect :=
  match s with
  | WorkerThread.update_signal products => update_products st products
  | WorkerThread.error_signal msg => (st, handle_error msg)
  | WorkerThread.auto_load_signal => (st, auto_load_more st)
  end.

Fixpoint deliver_all (st : monitor) (sigs : list WorkerThread.signal)
    : monitor * list effect :=
  match sigs with
  | [] => (st, [])
  | s :: rest =>
      let '(st1, e1) := deliver st s in
      let '(st2, e2) := deliver_all st1 rest in
      (st2, e1 ++ e2)
  end.

(** [worker_thread.start()]: one execution of [run], then the slots of the
    signals it emitted, in order. *)
Definition start (post : WorkerThread.request → WorkerThread.response)
    (clock : nat → Q) (a : app)
    : app * list WorkerThread.request * list effect :=
  let o := WorkerThread.run post clock (cookies (window a))
             (min_price_products (window a)) (ticks a) (worker_thread a) in
  let '(st, effs) :=
    deliver_all (set_index (window a) (WorkerThread.out_index o))
                (WorkerThread.out_signals o) in
  ({| window := st; worker_thread := WorkerThread.out_worker o;
      ticks := WorkerThread.out_ticks o |},
   WorkerThread.out_requests o, effs).

Inductive event : Type :=
  | fetched (r : WorkerThread.request)
  | did (e : effect)
  | out_of_fuel.

Definition is_single_shot (e : effect) : bool :=
  match e with single_shot _ => true | _ => false end.

(** A start and the starts that follow from it: each [single_shot] timer
    set by [auto_load_more] fires and starts the thread again. *)
Fixpoint start_and_wait (fuel : nat)
    (post : WorkerThread.request → WorkerThread.response)
    (clock : nat → Q) (a : app) : app * list event :=
  match fuel with
  | O => (a, [out_of_fuel])
  | S fuel' =>
      let '(a1, reqs, effs) := start post clock a in
      let here := (fetched <$> reqs) ++ (did <$> effs) in
      if existsb is_single_shot effs then
        let '(a2, later) := start_and_wait fuel' post clock a1 in
        (a2, here ++ later)
      else (a1, here)
  end.

(** [refresh_data] up to the start of the thread; [from_timer] is
    [self.sender() == self.timer]. [None]: the call returns at once. *)
Definition refresh_data (from_timer : bool) (a : app) : option app :=
  if is_paused (window a) && from_timer then None
  else
    let st := window a in
    Some {| window :=
              {| product_cache := product_cache st;
                 min_price_products := min_price_products st;
                 conf := conf st; cookies := cookies st;
                 refresh_interval := refresh_interval st;
                 remaining_time := refresh_interval st;
                 is_paused := is_paused st;
                 last_refresh_count := last_refresh_count st;
                 total_products_count := total_products_count st;
                 last_refresh_ids := last_refresh_ids st;
                 refresh_btn := false; load_more_btn := false |};
            worker_thread := WorkerThread.refresh_data (worker_thread a);
            ticks := ticks a |}.

(** [load_more_data] up to the start of the thread. *)
Definition load_more_data (a : app) : app :=
  let st := window a in
  let w := worker_thread a in
  {| window :=
       {| product_cache := product_cache st;
          min_price_products := min_price_products st;
          conf := conf st; cookies := cookies st;
          refresh_interval := refresh_interval st;
          remaining_time := remaining_time st;
          is_paused := is_paused st;
          last_refresh_count := last_refresh_count st;
          total_products_count := total_products_count st;
          last_refresh_ids := last_refresh_ids st;
          refresh_btn := refresh_btn st; load_more_btn := false |};
     worker_thread :=
       {| WorkerThread.next_id := WorkerThread.next_id w;
          WorkerThread.is_refresh := WorkerThread.is_refresh w;
          WorkerThread.auto_load_more := false;
          WorkerThread.auto_load_pages := WorkerThread.auto_load_pages w |};
     ticks := ticks a |}.

(** A refresh: [refresh_data], the start, and what follows from it. *)
Definition refresh_cycle (fuel : nat)
    (post : WorkerThread.request → WorkerThread.response)
    (clock : nat → Q) (from_timer : bool) (a : app) : app * list event :=
  match refresh_data from_timer a with
  | None => (a, [])
  | Some a' => start_and_wait fuel post clock a'
  end.

End with_builtins.

(** *** The countdown, the pause and the interval

    [timer_active] is [self.timer.isActive()]; the label of the countdown
    is not modelled. *)

(** [update_countdown], the slot of the one-second timer. *)
Definition update_countdown (timer_active : bool) (st : monitor) : monitor :=
  if negb (is_paused st) && timer_active then
    let r := (remaining_time st - 1)%Z in
    set_schedule st (refresh_interval st)
      (if (r <? 0)%Z then refresh_interval st else r) (is_paused st)
  else st.

(** [toggle_pause]: the window and whether the refresh timer runs. *)
Definition toggle_pause (st : monitor) : monitor * bool :=
  if negb (is_paused st)
  then (set_schedule st (refresh_interval st) (remaining_time st) true, false)
  else (set_schedule st (refresh_interval st) (refresh_interval st) false, true).

(** [update_refresh_interval]: the timer is started again in every case. *)
Definition update_refresh_interval (value : Z) (st : monitor) : monitor * bool :=
  (set_schedule st value value (is_paused st), true).

(** *** Settings changed from the window *)

Definition set_conf (st : monitor) (c : settings) : monitor :=
  {| product_cache := product_cache st;
     min_price_products := min_price_products st;
     conf := c; cookies := cookies st;
     refresh_interval := refresh_interval st;
     remaining_time := remaining_time st; is_paused := is_paused st;
     last_refresh_count := last_refresh_count st;
     total_products_count := total_products_count st;
     last_refresh_ids := last_refresh_ids st;
     refresh_btn := refresh_btn st; load_more_btn := load_more_btn st |}.

(** [update_columns]: the new count is saved at once; the layout that
    follows counts the cards of the cache. *)
Definition update_columns (value : Z) (st : monitor) : monitor * list effect :=
  let c := conf st in
  let st' :=
    set_conf st
      {| columns_count := JInt value;
         sidebar_columns_count := sidebar_columns_count c;
         api_cooldown := api_cooldown c; card_width := card_width c;
         card_height := card_height c;
         price_alert_threshold := price_alert_threshold c;
         price_alert_enabled := price_alert_enabled c |} in
  ({| product_cache := product_cache st';
      min_price_products := min_price_products st';
      conf := conf st'; cookies := cookies st';
      refresh_interval := refresh_interval st';
      remaining_time := remaining_time st'; is_paused := is_paused st';
      last_refresh_count := last_refresh_count st';
      total_products_count := size (product_cache st');
      last_refresh_ids := last_refresh_ids st';
      refresh_btn := refresh_btn st'; load_more_btn := load_more_btn st' |},
   [save_settings st']).

(** [update_cooldown]: seconds from the spin box, milliseconds in the
    settings, saved at once. (The copy kept in the worker is read
    nowhere.) *)
Definition update_cooldown (value : Z) (st : monitor) : monitor * list effect :=
  let c := conf st in
  let st' :=
    set_conf st
      {| columns_count := columns_count c;
         sidebar_columns_count := sidebar_columns_count c;
         api_cooldown := JInt (value * 1000); card_width := card_width c;
         card_height := card_height c;
         price_alert_threshold := price_alert_threshold c;
         price_alert_enabled := price_alert_enabled c |} in
  (st', [save_settings st']).

(** [toggle_price_alert]. [answer] is what [QInputDialog.getDouble] returns,
    the value and whether it was accepted; the dialog is opened with the
    current threshold, which has to be a number. *)
Definition toggle_price_alert (answer : Q * bool) (st : monitor)
    : monitor * option exn :=
  let c := conf st in
  let with_alert threshold enabled :=
    set_conf st
      {| columns_count := columns_count c;
         sidebar_columns_count := sidebar_columns_count c;
         api_cooldown := api_cooldown c; card_width := card_width c;
         card_height := card_height c;
         price_alert_threshold := threshold;
         price_alert_enabled := JBool enabled |} in
  if negb (truthy (price_alert_enabled c)) then
    match as_number (price_alert_threshold c) with
    | None => (with_alert (price_alert_threshold c) true, Some TypeError)
    | Some _ =>
        if answer.2
        then (with_alert (JFloat answer.1) true, None)
        else (with_alert (price_alert_threshold c) false, None)
    end
  else (with_alert (price_alert_threshold c) false, None).

(** *** Clearing *)

(** [clear_min_price_history]; [yes] is the answer to the question. *)
Definition clear_min_price_history (yes : bool) (st : monitor)
    : monitor * list effect :=
  if yes
  then let st' := set_index st ∅ in (st', [save_min_price_products st'])
  else (st, []).

(** [clear_product_history]: nothing is written. *)
Definition clear_product_history (yes : bool) (st : monitor) : monitor :=
  if yes then
    {| product_cache := ∅;
       min_price_products := min_price_products st;
       conf := conf st; cookies := cookies st;
       refresh_interval := refresh_interval st;
       remaining_time := remaining_time st; is_paused := is_paused st;
       last_refresh_count := last_refresh_count st;
       total_products_count := 0;
       last_refresh_ids := last_refresh_ids st;
       refresh_btn := refresh_btn st; load_more_btn := load_more_btn st |}
  else st.

(** *** The grid *)

(** One loop of [refresh_layout_with_recent_first]: each widget is put at
    [(row, col)], then [col] moves on and wraps when it reaches the column
    count. The comparison raises when the count is not a number; what was
    placed stays placed. *)
Fixpoint place (columns : json) (widgets : list card) (row col : Z)
    : list (card * (Z * Z)) * (Z * Z) * option exn :=
  match widgets with
  | [] => ([], (row, col), None)
  | w :: rest =>
      match as_number columns with
      | None => ([(w, (row, col))], (row, (col + 1)%Z), Some TypeError)
      | Some c =>
          let '(row', col') :=
            if Qleb c (inject_Z (col + 1)) then ((row + 1)%Z, 0%Z)
            else (row, (col + 1)%Z) in
          let '(placed, pos, raised) := place columns rest row' col' in
          ((w, (row, col)) :: placed, pos, raised)
      end
  end.

(** [refresh_layout_with_recent_first]: [cards] is
    [self.product_cache.items()], in the order of the dict. The grid, and
    whether the method went through. *)
Definition refresh_layout_with_recent_first (cards : list (string * card))
    (recent_ids : gset string) (columns : json)
    : list (card * (Z * Z)) * bool :=
  let recent_widgets :=
    snd <$> List.filter (λ kv, bool_decide (kv.1 ∈ recent_ids)) cards in
  let other_widgets :=
    snd <$> List.filter (λ kv, negb (bool_decide (kv.1 ∈ recent_ids))) cards in
  let '(g1, (row, col), raised) := place columns recent_widgets 0 0 in
  match raised with
  | Some _ => (g1, false)
  | None =>
      let '(g2, _, raised') := place columns other_widgets row col in
      (g1 ++ g2, match raised' with None => true | Some _ => false end)
  end.

(** *** The cookie *)

(** What [open] and [json.load] make of [cookies.json]. *)
Inductive read_outcome : Type :=
  | file_not_found
  | json_decode_error
  | other_error (e : exn)
  | decoded (doc : json).

(** [load_cookies]: only the two named exceptions are caught. *)
Definition load_cookies (r : read_outcome) : result json :=
  match r with
  | file_not_found | json_decode_error => Ok (JObj ∅)
  | other_error e => Raise e
  | decoded doc => Ok doc
  end.

(** [save_cookie]: the document written; the cookies in use stay as they
    are. *)
Definition save_cookie (cookie_value : string) : effect :=
  write_file "cookies.json" (JObj {[ "cookie" := JStr cookie_value ]}).

End ProductMonitor.

(** ** Vocabulary of the statements *)

(** A run of observations on the lowest-price index: the index part of the
    loop of [process_response], one product after the other. *)
Fixpoint consider_all (clock : nat → Q) (obs : list product)
    (st : gmap string json * nat) : result (gmap string json * nat) :=
  match obs with
  | [] => Ok st
  | p :: rest =>
      st' ← WorkerThread.update_min_price clock p st;
      consider_all clock rest st'
  end.

(** The price the index holds for a name. *)
Definition price_at (idx : gmap string json) (name : string) : option Q :=
  match idx !! name with
  | Some r => match stored_price r with Ok q => Some q | Raise _ => None end
  | None => None
  end.

(** Every record of the index carries a number as its price; so do all the
    records the program itself stores. *)
Definition index_wf (idx : gmap string json) : Prop :=
  map_Forall (λ _ r, ∃ q, stored_price r = Ok q) idx.

(** The prices a run of observations brings for a name, and the price known
    for it before. *)
Definition observed (name : string) (obs : list product) : list Q :=
  p_price <$> filter (λ p, p_name p = name) obs.

Definition known (idx : gmap string json) (name : string) : list Q :=
  match price_at idx name with Some q => [q] | None => [] end.

(** [q] is a least element of [l]. *)
Definition least (q : Q) (l : list Q) : Prop :=
  q ∈ l ∧ ∀ x, x ∈ l → (q <= x)%Q.

(** The rule of the index: a price replaces the known one when none is known
    or when it is strictly lower. *)
Definition replaces (idx : gmap string json) (p : product) : bool :=
  match price_at idx (p_name p) with
  | None => true
  | Some q => Qltb (p_price p) q
  end.

(** The price known for a name summarises a list of prices: it is a least
    element of the list, and none is known only for the empty list. *)
Definition summarises (o : option Q) (l : list Q) : Prop :=
  match o with
  | Some q => least q l
  | None => l = []
  end.

(** Two known prices are the same number, or none is known on either
    side. *)
Definition same_price (a b : option Q) : Prop :=
  match a, b with
  | Some x, Some y => (x == y)%Q
  | None, None => True
  | _, _ => False
  end.

(** A product dict with a price given in hundredths. *)
Definition sample (pid name : string) (hundredths : Z) : product :=
  {| p_id := pid; p_name := name; p_price := (inject_Z hundredths / 100)%Q;
     p_image := "https:"; p_detail_url := items_url pid |}.

(** The card [add_product_card] makes of a product dict of
    [process_response]. *)
Definition card_of (p : product) (is_new : bool) : ProductMonitor.card :=
  {| ProductMonitor.card_object_name := "product_" +:+ p_id p;
     ProductMonitor.card_name := p_name p;
     ProductMonitor.card_price := two_decimals (p_price p);
     ProductMonitor.card_image :=
       if truthy (JStr (p_image p)) then Some (JStr (p_image p)) else None;
     ProductMonitor.card_view_url := JStr (p_detail_url p);
     ProductMonitor.card_fresh := is_new |}.

(** The product an item normalises to, if it does. *)
Definition normalized `{!PyBuiltins} (item : json) : option product :=
  match WorkerThread.normalize item with Ok p => Some p | Raise _ => None end.

(** Inversion of a chain of binds that ended in [Ok]. *)
Ltac bind_inv H :=
  repeat match type of H with
  | mbind _ ?r = Ok _ =>
      let x := fresh "x" in
      let E := fresh "E" in
      destruct r as [x|] eqn:E; simpl in H; [|discriminate H]
  end.

(** The request [run] sends for a worker: a refresh sends no [nextId]. *)
Definition request_of (cookie : json) (w : WorkerThread.worker)
    : WorkerThread.request :=
  {| WorkerThread.req_cookie := cookie;
     WorkerThread.req_next_id :=
       if WorkerThread.is_refresh w then JNull else WorkerThread.next_id w |}.

(** The fetch of worker [w] succeeds: the cookies are a dict, the reply has
    status 200 and a JSON object [data] as its body, and [nid] is
    [data.get('data', {}).get('nextId')]. *)
Definition fetch_returns (post : WorkerThread.request → WorkerThread.response)
    (cookie_jar : json) (w : WorkerThread.worker) (data nid : json) : Prop :=
  ∃ cookie,
    dict_get cookie_jar "cookie" (JStr "") = Ok cookie ∧
    post (request_of cookie w) = WorkerThread.http 200 (Some data) ∧
    is_ok (dict_get data "code" JNull) = true ∧
    (d ← dict_get data "data" (JObj ∅); dict_get d "nextId" JNull) = Ok nid.

(** The requests of a trace, in order. *)
Definition fetches (trace : list ProductMonitor.event)
    : list WorkerThread.request :=
  omap (λ ev, match ev with ProductMonitor.fetched r => Some r | _ => None end)
       trace.

(** Python's built-ins for inputs whose names carry no outer whitespace and
    whose ids and image paths are strings or integers, and a user who closes
    every price alert. *)
Definition plain_builtins : PyBuiltins :=
  {| repr_other := λ _, ""; strip := λ s, s; view_all := λ _, false |}.

Definition feed_item (cid : Z) (name : string) (price : Z) : json :=
  JObj (<["c2cItemsId" := JInt cid]>
       (<["price" := JInt price]>
       (<["detailDtoList" :=
            JArr [JObj (<["name" := JStr name]>
                       (<["img" := JStr "//i0.hdslb.com/a.jpg"]> ∅))]]> ∅))).

Definition page (batch : list json) (next : json) : json :=
  JObj (<["code" := JInt 0]>
       (<["message" := JStr "SUCCESS"]>
       (<["data" := JObj (<["data" := JArr batch]> (<["nextId" := next]> ∅))]>
        ∅))).

(** A marketplace of two pages: the first page names "t1" as the next one,
    the page "t1" names none. *)
Definition two_pages (r : WorkerThread.request) : WorkerThread.response :=
  match WorkerThread.req_next_id r with
  | JNull =>
      WorkerThread.http 200
        (Some (page [feed_item 1 "A" 1000; feed_item 2 "A" 800] (JStr "t1")))
  | JStr s =>
      if String.eqb s "t1"
      then WorkerThread.http 200 (Some (page [feed_item 3 "B" 499] JNull))
      else WorkerThread.no_response
  | _ => WorkerThread.no_response
  end.

(** The window as [__init__] leaves it in an empty directory, with an
    empty cookie jar. *)
Definition fresh_window : ProductMonitor.monitor :=
  {| ProductMonitor.product_cache := ∅;
     ProductMonitor.min_price_products := ∅;
     ProductMonitor.conf := ProductMonitor.default_settings;
     ProductMonitor.cookies := JObj ∅;
     ProductMonitor.refresh_interval := 5;
     ProductMonitor.remaining_time := 5;
     ProductMonitor.is_paused := false;
     ProductMonitor.last_refresh_count := 0;
     ProductMonitor.total_products_count := 0;
     ProductMonitor.last_refresh_ids := ∅;
     ProductMonitor.refresh_btn := true;
     ProductMonitor.load_more_btn := true |}.

(** The application as it starts in an empty directory. *)
Definition fresh_app : ProductMonitor.app :=
  {| ProductMonitor.window := fresh_window;
     ProductMonitor.worker_thread := WorkerThread.init;
     ProductMonitor.ticks := 0 |}.

(** The fetches and the timers of a trace, in order. *)
Definition schedule (trace : list ProductMonitor.event)
    : list (WorkerThread.request + json) :=
  omap (λ ev, match ev with
              | ProductMonitor.fetched r => Some (inl r)
              | ProductMonitor.did (ProductMonitor.single_shot msec) =>
                  Some (inr msec)
              | _ => None
              end) trace.


(** The writes of a save, each under its own fault. *)
Fixpoint perform_all (faults : list ProductMonitor.fault)
    (effects : list ProductMonitor.effect)
    (d : gmap string ProductMonitor.file) : gmap string ProductMonitor.file :=
  match effects, faults with
  | e :: rest, ft :: faults' =>
      perform_all faults' rest (ProductMonitor.perform ft e d)
  | e :: rest, [] =>
      perform_all [] rest (ProductMonitor.perform ProductMonitor.no_fault e d)
  | [], _ => d
  end.

(** [closeEvent] in directory [d] when each of its three writes goes
    through: no fault of the disk, and no string that cannot be encoded. *)
Definition save (st : ProductMonitor.monitor)
    (d : gmap string ProductMonitor.file) : gmap string ProductMonitor.file :=
  perform_all [] (ProductMonitor.closeEvent st) d.

(** The card [load_product_cache] makes of a saved card. *)
Definition reloaded (pid : string) (c : ProductMonitor.card)
    : ProductMonitor.card :=
  {| ProductMonitor.card_object_name := "product_" +:+ pid;
     ProductMonitor.card_name := ProductMonitor.card_name c;
     ProductMonitor.card_price :=
       two_decimals (ProductMonitor.card_price c);
     ProductMonitor.card_image := None;
     ProductMonitor.card_view_url := JStr (items_url pid);
     ProductMonitor.card_fresh := false |}.

(** A cache as the program builds it: the card under an id is named after
    the id, links to the page of the id and shows a price of two
    decimals. *)
Definition cache_wf (cache : gmap string ProductMonitor.card) : Prop :=
  map_Forall (λ pid c,
    ProductMonitor.card_object_name c = "product_" +:+ pid ∧
    ProductMonitor.card_view_url c = JStr (items_url pid) ∧
    two_decimals (ProductMonitor.card_price c)
    = ProductMonitor.card_price c) cache.

(** Every record of the index has an [id], as all the records the program
    stores or loads have. *)
Definition has_ids (idx : gmap string json) : Prop :=
  map_Forall (λ _ r, contains "id" r = Ok true) idx.

(** A card as it comes back from the cache file when the program built it:
    the image and the mark are gone. *)
Definition faded (c : ProductMonitor.card) : ProductMonitor.card :=
  {| ProductMonitor.card_object_name := ProductMonitor.card_object_name c;
     ProductMonitor.card_name := ProductMonitor.card_name c;
     ProductMonitor.card_price := ProductMonitor.card_price c;
     ProductMonitor.card_image := None;
     ProductMonitor.card_view_url := ProductMonitor.card_view_url c;
     ProductMonitor.card_fresh := false |}.

(** The window after a refresh in the marketplace of two pages. *)
Definition after_refresh : ProductMonitor.monitor :=
  ProductMonitor.window
    (@ProductMonitor.refresh_cycle plain_builtins 2 two_pages (λ _, 0%Q) false
       fresh_app).1.

(** A window with one card and one record, as a batch of one product
    leaves them. *)
Definition sample_window : ProductMonitor.monitor :=
  let p := sample "1" "A" 1000 in
  {| ProductMonitor.product_cache := {[ "1" := card_of p true ]};
     ProductMonitor.min_price_products := {[ "A" := min_price_record p 0 ]};
     ProductMonitor.conf := ProductMonitor.default_settings;
     ProductMonitor.cookies := JObj ∅;
     ProductMonitor.refresh_interval := 5;
     ProductMonitor.remaining_time := 0;
     ProductMonitor.is_paused := false;
     ProductMonitor.last_refresh_count := 1;
     ProductMonitor.total_products_count := 1;
     ProductMonitor.last_refresh_ids := {[ "1" ]};
     ProductMonitor.refresh_btn := true;
     ProductMonitor.load_more_btn := true |}.

(** A feed item whose [detailDtoList] is empty: [[0]] raises. *)
Definition bad_item : json :=
  JObj (<["c2cItemsId" := JInt 9]> (<["detailDtoList" := JArr []]> ∅)).

(** A feed item without [price]. *)
Definition unpriced : gmap string json :=
  <["c2cItemsId" := JInt 7]>
  (<["detailDtoList" := JArr [JObj (<["name" := JStr "C"]> ∅)]]> ∅).

(** The application between the two fetches of a refresh in the marketplace
    of two pages. *)
Definition second_fetch : ProductMonitor.app :=
  {| ProductMonitor.window := fresh_window;
     ProductMonitor.worker_thread :=
       {| WorkerThread.next_id := JStr "t1"; WorkerThread.is_refresh := false;
          WorkerThread.auto_load_more := true;
          WorkerThread.auto_load_pages := 2 |};
     ProductMonitor.ticks := 0 |}.

(** The application when a refresh has been asked for and the thread is
    about to start. *)
Definition first_fetch : ProductMonitor.app :=
  {| ProductMonitor.window := fresh_window;
     ProductMonitor.worker_thread := WorkerThread.refresh_data WorkerThread.init;
     ProductMonitor.ticks := 0 |}.

(** The fetch of worker [w] fails: no reply, a status other than 200, or a
    body that is not JSON. *)
Definition fetch_fails (post : WorkerThread.request → WorkerThread.response)
    (cookie : json) (w : WorkerThread.worker)
    (msg : WorkerThread.error_message) : Prop :=
  (post (request_of cookie w) = WorkerThread.no_response ∧
   msg = WorkerThread.network_error) ∨
  (post (request_of cookie w) = WorkerThread.http 200 None ∧
   msg = WorkerThread.network_error) ∨
  (∃ s b, post (request_of cookie w) = WorkerThread.http s b ∧ s ≠ 200%Z ∧
          msg = WorkerThread.request_failed s).

(** The worker as [run] leaves it when nothing but the refresh flag is
    touched. *)
Definition refresh_done (w : WorkerThread.worker) : WorkerThread.worker :=
  if WorkerThread.is_refresh w
  then {| WorkerThread.next_id := JNull; WorkerThread.is_refresh := false;
          WorkerThread.auto_load_more := WorkerThread.auto_load_more w;
          WorkerThread.auto_load_pages := WorkerThread.auto_load_pages w |}
  else w.

Definition is_auto_load (s : WorkerThread.signal) : bool :=
  match s with WorkerThread.auto_load_signal => true | _ => false end.

Definition is_write (e : ProductMonitor.effect) : bool :=
  match e with ProductMonitor.write_file _ _ => true | _ => false end.

(** The fetches a worker may still chain: its page count in automatic
    loading, one otherwise. *)
Definition budget (w : WorkerThread.worker) : nat :=
  Nat.max 1 (if WorkerThread.auto_load_more w
             then Z.to_nat (WorkerThread.auto_load_pages w) else 0).

(** Only cards of the latest batch carry the mark of a just refreshed
    product. *)
Definition marks_ok (st : ProductMonitor.monitor) : Prop :=
  ∀ pid c, ProductMonitor.product_cache st !! pid = Some c →
           ProductMonitor.card_fresh c = true →
           pid ∈ ProductMonitor.last_refresh_ids st.

(** Two cards show the same product: everything but the mark agrees. *)
Definition same_content (c c' : ProductMonitor.card) : Prop :=
  ProductMonitor.card_object_name c' = ProductMonitor.card_object_name c ∧
  ProductMonitor.card_name c' = ProductMonitor.card_name c ∧
  ProductMonitor.card_price c' = ProductMonitor.card_price c ∧
  ProductMonitor.card_image c' = ProductMonitor.card_image c ∧
  ProductMonitor.card_view_url c' = ProductMonitor.card_view_url c.

(** The cards of the cache in the order of the grid: those of the latest
    batch, then the others, each group in the order of the dict. *)
Definition recent_first (cards : list (string * ProductMonitor.card))
    (recent_ids : gset string) : list ProductMonitor.card :=
  (snd <$> List.filter (λ kv, bool_decide (kv.1 ∈ recent_ids)) cards)
  ++ (snd <$> List.filter (λ kv, negb (bool_decide (kv.1 ∈ recent_ids))) cards).

(** The application around a window, for the calls that come from the
    window's timer and buttons. *)
Definition app_of (st : ProductMonitor.monitor) (w : WorkerThread.worker)
    : ProductMonitor.app :=
  {| ProductMonitor.window := st; ProductMonitor.worker_thread := w;
     ProductMonitor.ticks := 0 |}.

(** A feed item the loop of [process_response] makes a product of: a dict
    whose [detailDtoList], if it has one, is a list that starts with a
    dict; the name in that dict, if any, is a string; the [price], if any,
    is a number whose hundredth is in the range of a float. *)
Definition well_formed (item : json) : bool :=
  match item with
  | JObj m =>
      match default (JArr [JObj ∅]) (m !! "detailDtoList") with
      | JArr (JObj detail :: _) =>
          match default (JStr "未知商品") (detail !! "name") with
          | JStr _ => is_ok (div100 (default (JInt 0) (m !! "price")))
          | _ => false
          end
      | _ => false
      end
  | _ => false
  end.

(** ** Lemmas on the Python operations *)

Lemma Qltb_lt x y : Qltb x y = true ↔ (x < y)%Q.
Proof. unfold Qltb, Qlt. apply Z.ltb_lt. Qed.

Lemma Qleb_le x y : Qleb x y = true ↔ (x <= y)%Q.
Proof. unfold Qleb, Qle. apply Z.leb_le. Qed.

Lemma Qltb_ge x y : Qltb x y = false ↔ (y <= x)%Q.
Proof. unfold Qltb, Qle. apply Z.ltb_ge. Qed.

Lemma stored_price_record p t :
  stored_price (min_price_record p t) = Ok (p_price p).
Proof. reflexivity. Qed.

Lemma index_wf_empty : index_wf ∅.
Proof. apply map_Forall_empty. Qed.

Lemma index_wf_insert idx p t :
  index_wf idx → index_wf (<[p_name p := min_price_record p t]> idx).
Proof.
  intros Hwf. apply map_Forall_insert_2; [|done].
  exists (p_price p). apply stored_price_record.
Qed.

Lemma price_at_wf idx name :
  index_wf idx → price_at idx name = None → idx !! name = None.
Proof.
  intros Hwf. unfold price_at. destruct (idx !! name) as [r|] eqn:E; [|done].
  destruct (Hwf _ _ E) as [q ->]. done.
Qed.

Lemma price_at_insert idx p t :
  price_at (<[p_name p := min_price_record p t]> idx) (p_name p)
  = Some (p_price p).
Proof. unfold price_at. by rewrite lookup_insert_eq. Qed.

Lemma price_at_insert_ne idx p t name :
  p_name p ≠ name →
  price_at (<[p_name p := min_price_record p t]> idx) name = price_at idx name.
Proof. intros. unfold price_at. by rewrite lookup_insert_ne. Qed.

(** One observation on a well-formed index does not raise, and follows the
    rule. *)
Lemma update_min_price_wf clock p idx ticks :
  index_wf idx →
  WorkerThread.update_min_price clock p (idx, ticks)
  = Ok (if replaces idx p
        then (<[p_name p := min_price_record p (clock ticks)]> idx, S ticks)
        else (idx, ticks)).
Proof.
  intros Hwf. unfold WorkerThread.update_min_price, replaces, price_at.
  destruct (idx !! p_name p) as [r|] eqn:E; [|done].
  destruct (Hwf _ _ E) as [q Hq]. rewrite Hq.
  unfold stored_price in Hq.
  destruct (subscript r "price") as [v|e] eqn:Ev; [|done]. simpl in *.
  unfold float_lt. destruct (as_number v) as [q'|]; [|done].
  by injection Hq as ->.
Qed.

Lemma update_min_price_keeps_wf clock p idx ticks st :
  index_wf idx →
  WorkerThread.update_min_price clock p (idx, ticks) = Ok st →
  index_wf st.1.
Proof.
  intros Hwf. rewrite update_min_price_wf by done.
  intros [= <-]. destruct (replaces idx p); simpl; [|done].
  by apply index_wf_insert.
Qed.

(** ** The lowest-price index *)

Lemma least_singleton q : least q [q].
Proof.
  split; [apply list_elem_of_singleton; done|].
  intros x ->%list_elem_of_singleton. apply Qle_refl.
Qed.

Lemma least_absorb q m K x R :
  m ∈ K ++ [x] →
  (∀ y, y ∈ K ++ [x] → (m <= y)%Q) →
  least q (m :: R) →
  least q (K ++ x :: R).
Proof.
  intros Hm Hle [Hin Hq]. split.
  - apply elem_of_cons in Hin as [->|Hin].
    + apply elem_of_app in Hm as [Hm|Hm%list_elem_of_singleton].
      * apply elem_of_app. by left.
      * subst. apply elem_of_app. right. by left.
    + apply elem_of_app. right. by right.
  - intros y Hy.
    assert (Hqm : (q <= m)%Q) by (apply Hq; by left).
    apply elem_of_app in Hy as [Hy|Hy].
    + eapply Qle_trans; [exact Hqm|]. apply Hle, elem_of_app. by left.
    + apply elem_of_cons in Hy as [->|Hy].
      * eapply Qle_trans; [exact Hqm|]. apply Hle, elem_of_app. right.
        by apply list_elem_of_singleton.
      * apply Hq. by right.
Qed.

Lemma observed_cons_eq p rest :
  observed (p_name p) (p :: rest) = p_price p :: observed (p_name p) rest.
Proof. unfold observed. by rewrite filter_cons_True. Qed.

Lemma observed_cons_ne name p rest :
  p_name p ≠ name → observed name (p :: rest) = observed name rest.
Proof. intros. unfold observed. by rewrite filter_cons_False. Qed.

(** What one observation does to the price known for a name. *)
Lemma known_after_update clock p idx ticks name :
  index_wf idx →
  ∃ st, WorkerThread.update_min_price clock p (idx, ticks) = Ok st ∧
        index_wf st.1 ∧
        (p_name p ≠ name → known st.1 name = known idx name) ∧
        (p_name p = name →
         ∃ m, known st.1 name = [m] ∧ m ∈ known idx name ++ [p_price p] ∧
              ∀ y, y ∈ known idx name ++ [p_price p] → (m <= y)%Q).
Proof.
  intros Hwf. eexists. split; [by apply update_min_price_wf|].
  split; [eapply update_min_price_keeps_wf; [done|by apply update_min_price_wf]|].
  unfold replaces, known.
  destruct (price_at idx (p_name p)) as [q0|] eqn:E0; simpl.
  - destruct (Qltb (p_price p) q0) eqn:Hlt; simpl.
    + split; [intros; by rewrite price_at_insert_ne|].
      intros <-. rewrite price_at_insert, E0. exists (p_price p).
      split; [done|]. split; [set_solver|].
      intros y Hy. apply elem_of_cons in Hy as [->|Hy%list_elem_of_singleton].
      * apply Qlt_le_weak. by apply Qltb_lt.
      * subst. apply Qle_refl.
    + split; [done|]. intros <-. rewrite E0. exists q0.
      split; [done|]. split; [set_solver|].
      intros y Hy. apply elem_of_cons in Hy as [->|Hy%list_elem_of_singleton].
      * apply Qle_refl.
      * subst. by apply Qltb_ge.
  - split; [intros; by rewrite price_at_insert_ne|].
    intros <-. rewrite price_at_insert, E0. exists (p_price p).
    split; [done|]. split; [set_solver|].
    intros y ->%list_elem_of_singleton. apply Qle_refl.
Qed.

(** A run of observations on a well-formed index does not raise, and leaves
    for every name a least element of the prices known and observed. *)
Lemma consider_all_summary clock obs : ∀ idx ticks,
  index_wf idx →
  ∃ st, consider_all clock obs (idx, ticks) = Ok st ∧ index_wf st.1 ∧
        ∀ name, summarises (price_at st.1 name)
                           (known idx name ++ observed name obs).
Proof.
  induction obs as [|p rest IH]; intros idx ticks Hwf.
  - exists (idx, ticks). split; [done|]. split; [done|]. intros name.
    unfold observed. simpl. rewrite app_nil_r. unfold known, summarises.
    destruct (price_at idx name); [apply least_singleton|done].
  - destruct (known_after_update clock p idx ticks (p_name p) Hwf)
      as ([idx1 t1] & Hst & Hwf1 & _ & _).
    destruct (IH idx1 t1 Hwf1) as (st & Hrun & Hwf' & Hsum).
    exists st. split; [cbn [consider_all]; rewrite Hst; exact Hrun|].
    split; [done|].
    intros name. specialize (Hsum name).
    destruct (known_after_update clock p idx ticks name Hwf)
      as (st1 & Hst' & _ & Hne & Heq).
    rewrite Hst in Hst'. injection Hst' as <-. simpl in *.
    destruct (decide (p_name p = name)) as [Hn|Hn].
    + destruct (Heq Hn) as (m & Hk & Hm & Hle). rewrite Hk in Hsum.
      subst name. rewrite observed_cons_eq.
      destruct (price_at st.1 (p_name p)) as [q|]; simpl in *; [|done].
      by eapply least_absorb.
    + rewrite observed_cons_ne by done. by rewrite <- (Hne Hn).
Qed.

Lemma least_unique q1 q2 l1 l2 :
  l1 ≡ₚ l2 → least q1 l1 → least q2 l2 → (q1 == q2)%Q.
Proof.
  intros Hp [Hin1 Hle1] [Hin2 Hle2]. apply Qle_antisym.
  - apply Hle1. by rewrite Hp.
  - apply Hle2. by rewrite <- Hp.
Qed.

Lemma observed_perm name obs1 obs2 :
  obs1 ≡ₚ obs2 → observed name obs1 ≡ₚ observed name obs2.
Proof. intros Hp. unfold observed. by rewrite Hp. Qed.

Lemma replaces_iff idx p :
  index_wf idx →
  replaces idx p = true ↔
  idx !! p_name p = None ∨
  ∃ q, price_at idx (p_name p) = Some q ∧ (p_price p < q)%Q.
Proof.
  intros Hwf. unfold replaces.
  destruct (price_at idx (p_name p)) as [q|] eqn:E.
  - rewrite Qltb_lt. split.
    + intros Hlt. right. by exists q.
    + intros [Hnone|(q' & [= <-] & Hlt)]; [|done].
      unfold price_at in E. by rewrite Hnone in E.
  - split; [|done]. intros _. left. by apply price_at_wf.
Qed.

(** C1. On an index whose records carry numeric prices (every record the
    program stores does), for every run of observations: each observation
    overwrites the record of its name exactly when no record exists for the
    name or its price is strictly lower than the stored one; afterwards the
    price stored for every name is a least element of the prices known and
    observed for that name (so it is the minimum of all prices observed);
    it is never higher than the price stored before; and any other arrival
    order of the same observations leaves the same price. *)
Theorem min_price_index_holds_minimum (clock : nat → Q)
    (idx : gmap string json) (ticks : nat) (obs : list product) :
  index_wf idx →
  (∀ p, WorkerThread.update_min_price clock p (idx, ticks)
        = Ok (if replaces idx p
              then (<[p_name p := min_price_record p (clock ticks)]> idx,
                    S ticks)
              else (idx, ticks))) ∧
  (∀ p, replaces idx p = true ↔
        idx !! p_name p = None ∨
        ∃ q, price_at idx (p_name p) = Some q ∧ (p_price p < q)%Q) ∧
  ∃ st, consider_all clock obs (idx, ticks) = Ok st ∧
    (∀ name, match price_at st.1 name with
             | Some q => least q (known idx name ++ observed name obs)
             | None => known idx name ++ observed name obs = []
             end) ∧
    (∀ name q0, price_at idx name = Some q0 →
                ∃ q1, price_at st.1 name = Some q1 ∧ (q1 <= q0)%Q) ∧
    (∀ obs', obs ≡ₚ obs' →
             ∃ st', consider_all clock obs' (idx, ticks) = Ok st' ∧
                    ∀ name, same_price (price_at st.1 name)
                                       (price_at st'.1 name)).
Proof.
  intros Hwf. split; [intros p; by apply update_min_price_wf|].
  split; [intros p; by apply replaces_iff|].
  destruct (consider_all_summary clock obs idx ticks Hwf) as (st & Hrun & _ & Hsum).
  exists st. split; [done|]. split; [exact Hsum|]. split.
  - intros name q0 Hq0. specialize (Hsum name). unfold summarises in Hsum.
    unfold known in Hsum. rewrite Hq0 in Hsum.
    destruct (price_at st.1 name) as [q1|]; [|done].
    exists q1. split; [done|]. apply Hsum. by left.
  - intros obs' Hperm.
    destruct (consider_all_summary clock obs' idx ticks Hwf)
      as (st' & Hrun' & _ & Hsum').
    exists st'. split; [done|]. intros name.
    specialize (Hsum name). specialize (Hsum' name).
    unfold summarises, same_price in *.
    assert (Hp : known idx name ++ observed name obs
                 ≡ₚ known idx name ++ observed name obs')
      by (by rewrite (observed_perm name _ _ Hperm)).
    destruct (price_at st.1 name) as [q|], (price_at st'.1 name) as [q'|].
    + by eapply least_unique.
    + rewrite Hsum' in Hp. apply Permutation_nil_r in Hp.
      destruct Hsum as [Hin _]. rewrite Hp in Hin. by apply elem_of_nil in Hin.
    + rewrite Hsum in Hp. symmetry in Hp. apply Permutation_nil_r in Hp.
      destruct Hsum' as [Hin _]. rewrite Hp in Hin. by apply elem_of_nil in Hin.
    + done.
Qed.

Lemma min_price_index_holds_minimum_witness :
  index_wf ∅ ∧
  ∃ st, consider_all (λ _, 0%Q) [sample "1" "A" 1000; sample "2" "A" 800] (∅, O)
        = Ok st ∧
        ∀ name q0, price_at (∅ : gmap string json) name = Some q0 →
                   ∃ q1, price_at st.1 name = Some q1 ∧ (q1 <= q0)%Q.
Proof.
  split; [apply index_wf_empty|].
  destruct (min_price_index_holds_minimum (λ _, 0%Q) ∅ O
              [sample "1" "A" 1000; sample "2" "A" 800] index_wf_empty)
    as (_ & _ & st & Hrun & _ & Hmono & _).
  exists st. split; [exact Hrun|exact Hmono].
Defined.

(** ** The product cache *)

Lemma add_product_card_product `{!PyBuiltins} s p is_new :
  ProductMonitor.fixed_sizes s = Ok () →
  ProductMonitor.add_product_card s (product_json p) is_new
  = Ok (card_of p is_new).
Proof.
  intros Hs. unfold ProductMonitor.add_product_card.
  cbn [product_json subscript]. rewrite lookup_insert_eq. cbn [mbind result_bind].
  rewrite Hs. reflexivity.
Qed.

Lemma add_product_card_sizes `{!PyBuiltins} s p is_new e :
  ProductMonitor.fixed_sizes s = Raise e →
  ProductMonitor.add_product_card s (product_json p) is_new = Raise e.
Proof.
  intros Hs. unfold ProductMonitor.add_product_card.
  cbn [product_json subscript]. rewrite lookup_insert_eq. cbn [mbind result_bind].
  by rewrite Hs.
Qed.

Lemma upsert_new `{!PyBuiltins} s (cache : gmap string ProductMonitor.card) p :
  ProductMonitor.fixed_sizes s = Ok () →
  cache !! p_id p = None →
  ProductMonitor.upsert s cache p = Ok (<[p_id p := card_of p true]> cache, true).
Proof.
  intros Hs Hc. unfold ProductMonitor.upsert.
  by rewrite Hc, (add_product_card_product _ _ _ Hs).
Qed.


Lemma upsert_known `{!PyBuiltins} s (cache : gmap string ProductMonitor.card) p old :
  cache !! p_id p = Some old →
  ProductMonitor.upsert s cache p
  = Ok (<[p_id p := ProductMonitor.mark true old]> cache, false).
Proof. intros Hc. unfold ProductMonitor.upsert. by rewrite Hc. Qed.


(** With card sizes that [setFixedSize] takes, the loop over a batch never
    raises; the cache grows by the number of products counted as new. *)
Lemma upsert_all_size `{!PyBuiltins} s products :
  ProductMonitor.fixed_sizes s = Ok () →
  ∀ (cache : gmap string ProductMonitor.card) n,
  ∃ cache' k, ProductMonitor.upsert_all s cache n products = (cache', n + k, None)
              ∧ size cache' = size cache + k.
Proof.
  intros Hs. induction products as [|p rest IH]; intros cache n.
  - exists cache, 0. simpl. split; [by rewrite Nat.add_0_r|lia].
  - cbn [ProductMonitor.upsert_all].
    destruct (cache !! p_id p) as [old|] eqn:E.
    + rewrite (upsert_known _ _ _ _ E).
      destruct (IH (<[p_id p := ProductMonitor.mark true old]> cache) n)
        as (cache' & k & Hrun & Hsize).
      exists cache', k. split; [done|].
      rewrite Hsize. by rewrite map_size_insert_Some.
    + rewrite (upsert_new _ _ _ Hs E).
      destruct (IH (<[p_id p := card_of p true]> cache) (S n))
        as (cache' & k & Hrun & Hsize).
      exists cache', (S k). split; [rewrite Hrun; f_equal; f_equal; lia|].
      rewrite Hsize, map_size_insert_None by done. lia.
Qed.




(** The batch of two records of one name: two cards, and the lower price
    in the index. *)
Example two_records_one_name :
  let r := @WorkerThread.process_items plain_builtins (λ _, 0%Q)
             [feed_item 1 "A" 1000; feed_item 2 "A" 800] (∅, 0) in
  let st := (@ProductMonitor.update_products plain_builtins fresh_window r.1).1 in
  size (ProductMonitor.product_cache st) = 2 ∧
  price_at r.2.1 "A" = Some (inject_Z 800 / 100)%Q.
Proof. split; vm_compute; reflexivity. Qed.

(** ** The price alert *)

Lemma alert_products_filter threshold thr batch :
  as_number threshold = Some thr →
  ProductMonitor.alert_products threshold batch
  = Ok (List.filter (λ p, Qleb (p_price p) thr) batch).
Proof.
  intros Hthr. induction batch as [|p rest IH]; [done|].
  cbn [ProductMonitor.alert_products List.filter].
  unfold float_le. rewrite Hthr, IH. simpl.
  by destruct (Qleb (p_price p) thr).
Qed.

(** C3. With the alert switched on and a threshold above zero,
    [check_price_alerts] collects exactly the records of the batch whose
    price is at most the threshold, in order; with the alert switched off
    or a threshold of zero or less it collects nothing, whatever the
    batch. With threshold 5.00 and prices 4.99, 5.00, 5.01 it collects the
    first two records. *)
Theorem check_price_alerts_subset (c : ProductMonitor.settings)
    (enabled : bool) (thr : Q) (batch : list product) :
  ProductMonitor.price_alert_enabled c = JBool enabled →
  as_number (ProductMonitor.price_alert_threshold c) = Some thr →
  (enabled = true → (0 < thr)%Q →
   ProductMonitor.check_price_alerts c batch
   = Ok (List.filter (λ p, Qleb (p_price p) thr) batch)) ∧
  (enabled = false ∨ (thr <= 0)%Q →
   ProductMonitor.check_price_alerts c batch = Ok []) ∧
  (∀ p, Qleb (p_price p) thr = true ↔ (p_price p <= thr)%Q) ∧
  (enabled = true → (thr == 5)%Q →
   batch = [sample "1" "A" 499; sample "2" "B" 500; sample "3" "C" 501] →
   ProductMonitor.check_price_alerts c batch
   = Ok [sample "1" "A" 499; sample "2" "B" 500]).
Proof.
  intros Hen Hthr.
  assert (Hon : enabled = true → (0 < thr)%Q →
    ProductMonitor.check_price_alerts c batch
    = Ok (List.filter (λ p, Qleb (p_price p) thr) batch)).
  { intros -> Hpos. unfold ProductMonitor.check_price_alerts.
    rewrite Hen. simpl. unfold le_zero. rewrite Hthr. simpl.
    assert (Qleb thr 0 = false) as ->.
    { destruct (Qleb thr 0) eqn:E; [|done].
      apply Qleb_le in E. exfalso. by apply (Qlt_not_le _ _ Hpos). }
    by apply alert_products_filter. }
  split; [exact Hon|]. split; [|split].
  - intros Hoff. unfold ProductMonitor.check_price_alerts. rewrite Hen.
    destruct enabled; simpl; [|done].
    destruct Hoff as [?|Hle]; [done|].
    unfold le_zero. rewrite Hthr. simpl.
    apply Qleb_le in Hle. by rewrite Hle.
  - intros p. apply Qleb_le.
  - intros Hon' H5 ->. rewrite Hon; [|done|by rewrite H5].
    assert (Hb : ∀ z, Qleb (inject_Z z / 100) thr = (z <=? 500)%Z).
    { intros z. destruct (z <=? 500)%Z eqn:E.
      - apply Qleb_le. rewrite H5. apply Z.leb_le in E.
        unfold Qle, Qdiv, Qmult, Qinv, inject_Z. simpl. lia.
      - destruct (Qleb (inject_Z z / 100) thr) eqn:E'; [|done].
        apply Qleb_le in E'. rewrite H5 in E'. apply Z.leb_gt in E.
        unfold Qle, Qdiv, Qmult, Qinv, inject_Z in E'. simpl in E'. lia. }
    unfold sample. cbn [List.filter p_price]. by rewrite !Hb.
Qed.

Lemma check_price_alerts_subset_witness :
  let c := {| ProductMonitor.columns_count := JInt 8;
              ProductMonitor.sidebar_columns_count := JInt 3;
              ProductMonitor.api_cooldown := JInt 2000;
              ProductMonitor.card_width := JInt 150;
              ProductMonitor.card_height := JInt 180;
              ProductMonitor.price_alert_threshold := JFloat 5;
              ProductMonitor.price_alert_enabled := JBool true |} in
  ProductMonitor.check_price_alerts c
    [sample "1" "A" 499; sample "2" "B" 500; sample "3" "C" 501]
  = Ok [sample "1" "A" 499; sample "2" "B" 500].
Proof.
  intros c.
  apply (check_price_alerts_subset c true 5
           [sample "1" "A" 499; sample "2" "B" 500; sample "3" "C" 501]);
    reflexivity.
Defined.

(** ** Normalisation of feed items *)

Lemma normalize_price `{!PyBuiltins} item p :
  WorkerThread.normalize item = Ok p →
  ∃ pr, dict_get item "price" (JInt 0) = Ok pr ∧ div100 pr = Ok (p_price p).
Proof.
  intros Hn. unfold WorkerThread.normalize in Hn. bind_inv Hn.
  injection Hn as <-. simpl. eauto.
Qed.

Lemma normalize_absent_price `{!PyBuiltins} (m : gmap string json) :
  m !! "price" = None →
  WorkerThread.normalize (JObj m)
  = WorkerThread.normalize (JObj (<["price" := JInt 0]> m)).
Proof.
  intros Hnone. unfold WorkerThread.normalize, dict_get.
  rewrite (lookup_insert_ne m "price" "c2cItemsId") by done.
  rewrite (lookup_insert_ne m "price" "detailDtoList") by done.
  by rewrite lookup_insert_eq, Hnone.
Qed.

Lemma process_item_raise `{!PyBuiltins} clock item e st :
  WorkerThread.normalize item = Raise e →
  WorkerThread.process_item clock item st = (None, st).
Proof. intros Hn. unfold WorkerThread.process_item. by rewrite Hn. Qed.

Lemma process_item_wf `{!PyBuiltins} clock item st :
  index_wf st.1 →
  match normalized item with
  | None => WorkerThread.process_item clock item st = (None, st)
  | Some p =>
      ∃ st', WorkerThread.update_min_price clock p st = Ok st' ∧
             index_wf st'.1 ∧
             WorkerThread.process_item clock item st = (Some p, st')
  end.
Proof.
  intros Hwf. unfold normalized, WorkerThread.process_item.
  destruct (WorkerThread.normalize item) as [p|e]; [|done]. simpl.
  destruct st as [idx ticks].
  rewrite update_min_price_wf by done. simpl.
  eexists. split; [done|]. split; [|done].
  destruct (replaces idx p); simpl; [by apply index_wf_insert|done].
Qed.

Lemma process_items_app `{!PyBuiltins} clock l1 : ∀ l2 st,
  WorkerThread.process_items clock (l1 ++ l2) st
  = let '(ps1, st1) := WorkerThread.process_items clock l1 st in
    let '(ps2, st2) := WorkerThread.process_items clock l2 st1 in
    (ps1 ++ ps2, st2).
Proof.
  induction l1 as [|item rest IH]; intros l2 st.
  - simpl. by destruct (WorkerThread.process_items clock l2 st).
  - cbn [app WorkerThread.process_items].
    destruct (WorkerThread.process_item clock item st) as [o st1].
    rewrite IH.
    destruct (WorkerThread.process_items clock rest st1) as [ps1 st1'].
    destruct (WorkerThread.process_items clock l2 st1') as [ps2 st2].
    by destruct o.
Qed.

(** On a well-formed index the loop returns the items that normalise, in
    order, and the index it leaves is the one their observations leave. *)
Lemma process_items_wf `{!PyBuiltins} clock items : ∀ st,
  index_wf st.1 →
  (WorkerThread.process_items clock items st).1 = omap normalized items ∧
  consider_all clock (omap normalized items) st
  = Ok (WorkerThread.process_items clock items st).2.
Proof.
  induction items as [|item rest IH]; intros st Hwf; [done|].
  cbn [WorkerThread.process_items omap list_omap].
  pose proof (process_item_wf clock item st Hwf) as Hitem.
  destruct (normalized item) as [p|].
  - destruct Hitem as (st' & Hup & Hwf' & ->).
    destruct (IH st' Hwf') as [Hps Hrun].
    destruct (WorkerThread.process_items clock rest st') as [ps st2].
    simpl in *. rewrite Hup. simpl. by rewrite Hps.
  - rewrite Hitem. destruct (IH st Hwf) as [Hps Hrun].
    by destruct (WorkerThread.process_items clock rest st) as [ps st2].
Qed.

(** [normalize] goes through exactly on the well-formed items. *)
Lemma normalize_is_ok `{!PyBuiltins} item :
  is_ok (WorkerThread.normalize item) = well_formed item.
Proof.
  destruct item as [| | | | | |m]; try done.
  unfold WorkerThread.normalize, well_formed. cbn [dict_get mbind result_bind].
  destruct (default (JArr [JObj ∅]) (m !! "detailDtoList"))
    as [| | | |s|[|x l]|dm]; try done.
  - by destruct s.
  - destruct x as [| | | | | |detail]; try done.
    cbn [subscript0 dict_get mbind result_bind].
    destruct (default (JStr "未知商品") (detail !! "name")); try done.
    cbn [str_strip mbind result_bind].
    by destruct (div100 _).
Qed.

(** The product of a well-formed item. *)
Lemma normalize_record `{!PyBuiltins} (m detail : gmap string json) rest name price :
  m !! "detailDtoList" = Some (JArr (JObj detail :: rest)) →
  detail !! "name" = Some (JStr name) →
  div100 (default (JInt 0) (m !! "price")) = Ok price →
  WorkerThread.normalize (JObj m)
  = Ok {| p_id := py_str (default (JStr "") (m !! "c2cItemsId"));
          p_name := strip name;
          p_price := price;
          p_image := "https:" +:+ py_str (default (JStr "") (detail !! "img"));
          p_detail_url :=
            items_url (py_str (default (JStr "") (m !! "c2cItemsId"))) |}.
Proof.
  intros Hdl Hname Hprice. unfold WorkerThread.normalize.
  cbn [dict_get mbind result_bind]. rewrite Hdl. simpl.
  rewrite Hname. simpl. by rewrite Hprice.
Qed.

(** C9. An item that is not well formed makes the loop body raise and is
    skipped: it adds no product and leaves the index as it was, and the
    batch is processed as if the item were not in it; so is the response
    that carries the batch. The items on which the body goes through are
    exactly the well-formed ones, and the product of each is made of its
    own fields. On an index whose records carry numeric prices, every
    other item of the batch that is well formed yields its product, in
    order, and its observation reaches the index. *)
Theorem malformed_item_is_skipped `{!PyBuiltins} (clock : nat → Q)
    (before after : list json) (bad : json) (st : gmap string json * nat) :
  well_formed bad = false →
  (∃ e, WorkerThread.normalize bad = Raise e) ∧
  WorkerThread.process_item clock bad st = (None, st) ∧
  WorkerThread.process_items clock (before ++ bad :: after) st
  = WorkerThread.process_items clock (before ++ after) st ∧
  (∀ data, WorkerThread.response_items data = Ok (before ++ bad :: after) →
           WorkerThread.process_response clock data st
           = (WorkerThread.process_items clock (before ++ after) st, [])) ∧
  (∀ item, is_ok (WorkerThread.normalize item) = well_formed item) ∧
  (∀ (m detail : gmap string json) rest name price,
     m !! "detailDtoList" = Some (JArr (JObj detail :: rest)) →
     detail !! "name" = Some (JStr name) →
     div100 (default (JInt 0) (m !! "price")) = Ok price →
     WorkerThread.normalize (JObj m)
     = Ok {| p_id := py_str (default (JStr "") (m !! "c2cItemsId"));
             p_name := strip name;
             p_price := price;
             p_image := "https:" +:+ py_str (default (JStr "") (detail !! "img"));
             p_detail_url :=
               items_url (py_str (default (JStr "") (m !! "c2cItemsId"))) |}) ∧
  (index_wf st.1 →
   (WorkerThread.process_items clock (before ++ bad :: after) st).1
   = omap normalized before ++ omap normalized after ∧
   consider_all clock (omap normalized before ++ omap normalized after) st
   = Ok (WorkerThread.process_items clock (before ++ bad :: after) st).2 ∧
   ∀ item, item ∈ before ++ after → well_formed item = true →
           ∃ p, WorkerThread.normalize item = Ok p ∧
                p ∈ (WorkerThread.process_items clock
                       (before ++ bad :: after) st).1).
Proof.
  intros Hbad.
  assert (Hraise : ∃ e, WorkerThread.normalize bad = Raise e).
  { pose proof (normalize_is_ok bad) as Hok. rewrite Hbad in Hok.
    destruct (WorkerThread.normalize bad) as [p|e]; [done|by exists e]. }
  destruct Hraise as [e Hraise].
  assert (Hskip : WorkerThread.process_items clock (before ++ bad :: after) st
                  = WorkerThread.process_items clock (before ++ after) st).
  { rewrite !process_items_app.
    destruct (WorkerThread.process_items clock before st) as [ps1 st1].
    cbn [WorkerThread.process_items].
    rewrite (process_item_raise clock bad e st1 Hraise).
    by destruct (WorkerThread.process_items clock after st1). }
  split; [by exists e|].
  split; [by eapply process_item_raise|]. split; [exact Hskip|]. split_and!.
  - intros data Hitems. unfold WorkerThread.process_response.
    by rewrite Hitems, Hskip.
  - apply normalize_is_ok.
  - apply normalize_record.
  - intros Hwf. rewrite Hskip.
    destruct (process_items_wf clock (before ++ after) st Hwf) as [Hps Hrun].
    rewrite omap_app in Hrun. split_and!.
    + by rewrite Hps, omap_app.
    + exact Hrun.
    + intros item Hin Hgood.
      pose proof (normalize_is_ok item) as Hok. rewrite Hgood in Hok.
      destruct (WorkerThread.normalize item) as [p|] eqn:Hp; [|done].
      exists p. split; [done|]. rewrite Hps.
      apply list_elem_of_omap. exists item. split; [done|].
      unfold normalized. by rewrite Hp.
Qed.

(** A record whose price is zero or less stays as it is under observations
    of non-negative prices. *)
Lemma record_stays clock name r q later : ∀ st,
  index_wf st.1 →
  st.1 !! name = Some r →
  stored_price r = Ok q →
  (q <= 0)%Q →
  Forall (λ x, (0 <= p_price x)%Q) later →
  ∃ st', consider_all clock later st = Ok st' ∧ index_wf st'.1 ∧
         st'.1 !! name = Some r.
Proof.
  induction later as [|x rest IH]; intros [idx ticks] Hwf Hr Hq Hle Hall.
  - by exists (idx, ticks).
  - apply Forall_cons in Hall as [Hx Hrest]. simpl in Hwf, Hr.
    cbn [consider_all]. rewrite update_min_price_wf by done. simpl.
    destruct (replaces idx x) eqn:Hrep.
    + destruct (decide (p_name x = name)) as [Hn|Hn].
      * exfalso. unfold replaces, price_at in Hrep.
        rewrite Hn, Hr, Hq in Hrep. apply Qltb_lt in Hrep.
        apply (Qlt_not_le _ _ Hrep). by eapply Qle_trans.
      * apply IH; simpl; [by apply index_wf_insert| |done..].
        by rewrite lookup_insert_ne.
    + by apply IH.
Qed.

(** C10, as the program has it. A feed item without a [price] normalises
    exactly as the same item with price 0 does: the absence adds no
    failure, and the item goes through when it is well formed otherwise.
    Its price is then 0.0. Observed on an index whose records carry
    numeric prices, it leaves for its name a price of 0.0 or less: 0.0
    when no negative price was recorded for the name, and the record
    already there, untouched, when one was. Observations of non-negative
    prices, however many, then leave that record as it is. *)
Theorem absent_price_is_zero `{!PyBuiltins} (clock : nat → Q)
    (m : gmap string json) (idx : gmap string json) (ticks : nat) :
  m !! "price" = None →
  index_wf idx →
  WorkerThread.normalize (JObj m)
  = WorkerThread.normalize (JObj (<["price" := JInt 0]> m)) ∧
  is_ok (WorkerThread.normalize (JObj m)) = well_formed (JObj m) ∧
  ∀ p, WorkerThread.normalize (JObj m) = Ok p →
       p_price p = (inject_Z 0 / 100)%Q ∧ (p_price p == 0)%Q ∧
       ∃ st r q,
         WorkerThread.update_min_price clock p (idx, ticks) = Ok st ∧
         st.1 !! p_name p = Some r ∧ stored_price r = Ok q ∧ (q <= 0)%Q ∧
         ((∀ q0, price_at idx (p_name p) = Some q0 → (0 <= q0)%Q) → (q == 0)%Q) ∧
         (∀ q0, price_at idx (p_name p) = Some q0 → (q0 < 0)%Q →
                st = (idx, ticks) ∧ q = q0) ∧
         ∀ later, Forall (λ x, (0 <= p_price x)%Q) later →
                  ∃ st', consider_all clock later st = Ok st' ∧
                         st'.1 !! p_name p = Some r.
Proof.
  intros Hnone Hwf. split; [by apply normalize_absent_price|].
  split; [apply normalize_is_ok|].
  intros p Hp.
  assert (Hprice : p_price p = (inject_Z 0 / 100)%Q).
  { destruct (normalize_price _ _ Hp) as (pr & Hget & Hdiv).
    unfold dict_get in Hget. rewrite Hnone in Hget. injection Hget as <-.
    by injection Hdiv as <-. }
  assert (Hp0 : (p_price p == 0)%Q) by (by rewrite Hprice).
  split; [exact Hprice|]. split; [exact Hp0|].
  assert (Hstay : ∀ st r q,
    index_wf st.1 → st.1 !! p_name p = Some r → stored_price r = Ok q →
    (q <= 0)%Q →
    ∀ later, Forall (λ x, (0 <= p_price x)%Q) later →
             ∃ st', consider_all clock later st = Ok st' ∧
                    st'.1 !! p_name p = Some r).
  { intros st r q Hwf' Hr Hq H0 later Hall.
    destruct (record_stays clock (p_name p) r q later st Hwf' Hr Hq)
      as (st' & Hrun & _ & Hr'); [done|done|by exists st']. }
  rewrite update_min_price_wf by done.
  destruct (replaces idx p) eqn:Hrep.
  - eexists _, _, (p_price p). split; [done|]. simpl.
    rewrite lookup_insert_eq. split; [done|]. split; [done|].
    split; [by rewrite Hp0|]. split; [done|]. split.
    + intros q0 Hq0 Hneg. exfalso. unfold replaces in Hrep. rewrite Hq0 in Hrep.
      apply Qltb_lt in Hrep. rewrite Hp0 in Hrep.
      by apply (Qlt_irrefl 0), (Qlt_trans _ q0).
    + apply (Hstay _ _ (p_price p)); simpl;
        [by apply index_wf_insert|apply lookup_insert_eq|done|by rewrite Hp0].
  - unfold replaces in Hrep.
    destruct (price_at idx (p_name p)) as [q|] eqn:Hq; [|done].
    apply Qltb_ge in Hrep. rewrite Hp0 in Hrep.
    unfold price_at in Hq.
    destruct (idx !! p_name p) as [r|] eqn:Hr; [|done].
    destruct (stored_price r) as [q'|] eqn:Hq'; [|done].
    injection Hq as ->.
    exists (idx, ticks), r, q. split; [done|]. split; [done|].
    split; [done|]. split; [done|]. split_and!.
    + intros Hnonneg. apply Qle_antisym; [done|]. by apply Hnonneg.
    + by intros q0 [= <-] _.
    + by apply (Hstay _ _ q).
Qed.

(** C10 as worded says that normalisation does not fail on an item without
    a price, and that the record of its name is then 0.0. Here [bad_item]
    has no price and no detail, and raises; and the item [unpriced], of
    name "C", meets an index where "C" was recorded at -2.50 (a price the
    feed can give): the record stays at -2.50. *)
Lemma absent_price_fails_or_stays_negative :
  let idx : gmap string json :=
    {[ "C" := min_price_record (sample "8" "C" (-250)) 0 ]} in
  match bad_item with JObj m => m !! "price" | _ => Some JNull end = None ∧
  @WorkerThread.normalize plain_builtins bad_item = Raise IndexError ∧
  unpriced !! "price" = None ∧
  ∃ p, @WorkerThread.normalize plain_builtins (JObj unpriced) = Ok p ∧
       p_name p = "C" ∧
       (λ st, price_at st.1 "C")
         <$> WorkerThread.update_min_price (λ _, 0%Q) p (idx, 0)
       = Ok (Some (inject_Z (-250) / 100)%Q).
Proof.
  intros idx. split_and!; try reflexivity.
  eexists. split; [reflexivity|]. split; reflexivity.
Qed.

(** ** Pagination *)

Lemma process_response_signals `{!PyBuiltins} clock data st :
  (WorkerThread.process_response clock data st).2 = [] ∨
  (WorkerThread.process_response clock data st).2
  = [WorkerThread.error_signal WorkerThread.processing_failed].
Proof.
  unfold WorkerThread.process_response.
  destruct (WorkerThread.response_items data); simpl; auto.
Qed.

(** [run] after a successful fetch. *)
Lemma run_fetched `{!PyBuiltins} post clock cookie_jar idx ticks w data nid :
  fetch_returns post cookie_jar w data nid →
  ∃ cookie products st sigs,
    dict_get cookie_jar "cookie" (JStr "") = Ok cookie ∧
    WorkerThread.process_response clock data (idx, ticks) = (products, st, sigs) ∧
    let o := WorkerThread.run post clock cookie_jar idx ticks w in
    let continue :=
      WorkerThread.auto_load_more w
      && bool_decide (WorkerThread.auto_load_pages w > 1)%Z in
    WorkerThread.out_requests o = [request_of cookie w] ∧
    WorkerThread.out_index o = st.1 ∧ WorkerThread.out_ticks o = st.2 ∧
    WorkerThread.is_refresh (WorkerThread.out_worker o) = false ∧
    if truthy nid then
      WorkerThread.out_signals o
      = sigs ++ (if continue then [WorkerThread.auto_load_signal] else [])
             ++ [WorkerThread.update_signal products] ∧
      WorkerThread.next_id (WorkerThread.out_worker o) = nid ∧
      WorkerThread.auto_load_more (WorkerThread.out_worker o)
      = WorkerThread.auto_load_more w ∧
      WorkerThread.auto_load_pages (WorkerThread.out_worker o)
      = (if continue then WorkerThread.auto_load_pages w - 1
         else WorkerThread.auto_load_pages w)%Z
    else
      WorkerThread.out_signals o = sigs ++ [WorkerThread.update_signal products] ∧
      WorkerThread.auto_load_more (WorkerThread.out_worker o) = false ∧
      WorkerThread.auto_load_pages (WorkerThread.out_worker o)
      = WorkerThread.auto_load_pages w.
Proof.
  intros (cookie & Hc & Hpost & Hcode & Hnid).
  destruct (WorkerThread.process_response clock data (idx, ticks))
    as [[products st] sigs] eqn:Hpr.
  exists cookie, products, st, sigs. split; [done|]. split; [done|].
  unfold WorkerThread.run. rewrite Hc.
  assert (Hreq : ∀ w1,
    w1 = (if WorkerThread.is_refresh w
          then {| WorkerThread.next_id := JNull;
                  WorkerThread.is_refresh := false;
                  WorkerThread.auto_load_more := WorkerThread.auto_load_more w;
                  WorkerThread.auto_load_pages := WorkerThread.auto_load_pages w |}
          else w) →
    {| WorkerThread.req_cookie := cookie;
       WorkerThread.req_next_id := WorkerThread.next_id w1 |}
    = request_of cookie w ∧
    WorkerThread.is_refresh w1 = false ∧
    WorkerThread.auto_load_more w1 = WorkerThread.auto_load_more w ∧
    WorkerThread.auto_load_pages w1 = WorkerThread.auto_load_pages w).
  { intros w1 ->. unfold request_of.
    destruct (WorkerThread.is_refresh w) eqn:E; simpl; by rewrite ?E. }
  destruct (Hreq _ eq_refl) as (-> & Hr & Hm & Hp). clear Hreq.
  rewrite Hpost. simpl.
  destruct (dict_get data "code" JNull) as [code|]; [|done].
  rewrite Hpr, Hnid. rewrite Hm, Hp, Hr.
  by destruct (truthy nid).
Qed.

Lemma update_products_window `{!PyBuiltins} st products :
  let r := ProductMonitor.update_products st products in
  ProductMonitor.conf r.1 = ProductMonitor.conf st ∧
  ProductMonitor.cookies r.1 = ProductMonitor.cookies st ∧
  ProductMonitor.min_price_products r.1 = ProductMonitor.min_price_products st ∧
  ProductMonitor.refresh_btn r.1 = true ∧
  ProductMonitor.load_more_btn r.1 = true ∧
  existsb ProductMonitor.is_single_shot r.2 = false.
Proof.
  unfold ProductMonitor.update_products.
  destruct products as [|p rest]; [done|].
  destruct (ProductMonitor.check_price_alerts _ _) as [alerts|]; [|done].
  destruct (ProductMonitor.after_alert alerts); [|by destruct alerts].
  destruct (ProductMonitor.upsert_all _ _ _ _) as [[cache n] [e|]]; simpl.
  - by destruct alerts.
  - repeat split. rewrite !existsb_app.
    destruct alerts; simpl; by destruct (map_to_list _).
Qed.

Lemma deliver_all_app `{!PyBuiltins} s1 : ∀ s2 st,
  ProductMonitor.deliver_all st (s1 ++ s2)
  = let '(st1, e1) := ProductMonitor.deliver_all st s1 in
    let '(st2, e2) := ProductMonitor.deliver_all st1 s2 in
    (st2, e1 ++ e2).
Proof.
  induction s1 as [|s rest IH]; intros s2 st.
  - simpl. by destruct (ProductMonitor.deliver_all st s2).
  - cbn [app ProductMonitor.deliver_all].
    destruct (ProductMonitor.deliver st s) as [st1 e1]. rewrite IH.
    destruct (ProductMonitor.deliver_all st1 rest) as [st2 e2].
    destruct (ProductMonitor.deliver_all st2 s2) as [st3 e3].
    by rewrite app_assoc.
Qed.

(** The slots of the signals of [process_response] leave the window as it
    is and set no timer. *)
Lemma deliver_processing `{!PyBuiltins} clock data st0 st :
  ∃ es, ProductMonitor.deliver_all st
          (WorkerThread.process_response clock data st0).2 = (st, es) ∧
        existsb ProductMonitor.is_single_shot es = false.
Proof.
  destruct (process_response_signals clock data st0) as [-> | ->].
  - by exists [].
  - by eexists.
Qed.

Lemma fetches_did effs : fetches (ProductMonitor.did <$> effs) = [].
Proof. induction effs as [|e rest IH]; [done|exact IH]. Qed.

(** C5. Whenever a fetch succeeds and the reply carries no [nextId], or an
    empty one, the start that made it sets no timer: the worker leaves
    automatic loading, both buttons are enabled again, and the cycle is
    this one fetch, whatever the worker's mode and page count were. *)
Theorem no_next_token_ends_cycle `{!PyBuiltins}
    (post : WorkerThread.request → WorkerThread.response) (clock : nat → Q)
    (a : ProductMonitor.app) (data nid : json) :
  fetch_returns post (ProductMonitor.cookies (ProductMonitor.window a))
                (ProductMonitor.worker_thread a) data nid →
  truthy nid = false →
  truthy JNull = false ∧ truthy (JStr "") = false ∧
  ∃ a1 req effs,
    ProductMonitor.start post clock a = (a1, [req], effs) ∧
    existsb ProductMonitor.is_single_shot effs = false ∧
    WorkerThread.auto_load_more (ProductMonitor.worker_thread a1) = false ∧
    ProductMonitor.refresh_btn (ProductMonitor.window a1) = true ∧
    ProductMonitor.load_more_btn (ProductMonitor.window a1) = true ∧
    ∀ fuel, ProductMonitor.start_and_wait (S fuel) post clock a
            = (a1, ProductMonitor.fetched req :: (ProductMonitor.did <$> effs)) ∧
            fetches (ProductMonitor.start_and_wait (S fuel) post clock a).2
            = [req].
Proof.
  intros Hfetch Hnid. split; [done|]. split; [done|].
  destruct (run_fetched post clock _
              (ProductMonitor.min_price_products (ProductMonitor.window a))
              (ProductMonitor.ticks a) _ _ _ Hfetch)
    as (cookie & products & st & sigs & _ & Hpr & Hreq & Hidx & Hticks & _ & Hrun).
  rewrite Hnid in Hrun. destruct Hrun as (Hsig & Hmore & _).
  pose proof (deliver_processing clock data
    (ProductMonitor.min_price_products (ProductMonitor.window a),
     ProductMonitor.ticks a)
    (ProductMonitor.set_index (ProductMonitor.window a) st.1)) as (es & Hes & Hno).
  rewrite Hpr in Hes. simpl in Hes.
  pose proof (update_products_window
    (ProductMonitor.set_index (ProductMonitor.window a) st.1) products)
    as (_ & _ & _ & Hb1 & Hb2 & Hno').
  destruct (ProductMonitor.update_products
    (ProductMonitor.set_index (ProductMonitor.window a) st.1) products)
    as [st2 e2] eqn:Hup. simpl in *.
  assert (Hstart : ProductMonitor.start post clock a
    = ({| ProductMonitor.window := st2;
          ProductMonitor.worker_thread :=
            WorkerThread.out_worker
              (WorkerThread.run post clock
                 (ProductMonitor.cookies (ProductMonitor.window a))
                 (ProductMonitor.min_price_products (ProductMonitor.window a))
                 (ProductMonitor.ticks a) (ProductMonitor.worker_thread a));
          ProductMonitor.ticks := st.2 |},
       [request_of cookie (ProductMonitor.worker_thread a)], es ++ e2)).
  { unfold ProductMonitor.start. rewrite Hsig, Hidx, Hticks, Hreq.
    rewrite deliver_all_app, Hes. simpl. rewrite Hup.
    by rewrite app_nil_r. }
  assert (Hquiet : existsb ProductMonitor.is_single_shot (es ++ e2) = false)
    by (by rewrite existsb_app, Hno, Hno').
  eexists _, _, _. split; [exact Hstart|]. split; [exact Hquiet|].
  split; [exact Hmore|]. split; [exact Hb1|]. split; [exact Hb2|].
  intros fuel. cbn [ProductMonitor.start_and_wait].
  rewrite Hstart, Hquiet. simpl. split; [done|].
  unfold fetches. simpl. f_equal. apply fetches_did.
Qed.

(** [run] sends its request as soon as the cookies are a dict. *)
Lemma run_request `{!PyBuiltins} post clock cookie_jar idx ticks w cookie :
  dict_get cookie_jar "cookie" (JStr "") = Ok cookie →
  WorkerThread.out_requests (WorkerThread.run post clock cookie_jar idx ticks w)
  = [request_of cookie w].
Proof.
  intros Hc. unfold WorkerThread.run, request_of. rewrite Hc.
  destruct (WorkerThread.is_refresh w) eqn:E; simpl;
    repeat (case_match; simpl; try done).
Qed.

Lemma deliver_all_window `{!PyBuiltins} sigs : ∀ st,
  ProductMonitor.conf (ProductMonitor.deliver_all st sigs).1
  = ProductMonitor.conf st ∧
  ProductMonitor.cookies (ProductMonitor.deliver_all st sigs).1
  = ProductMonitor.cookies st.
Proof.
  induction sigs as [|s rest IH]; intros st; [done|].
  cbn [ProductMonitor.deliver_all].
  destruct (ProductMonitor.deliver st s) as [st1 e1] eqn:Hd.
  specialize (IH st1).
  destruct (ProductMonitor.deliver_all st1 rest) as [st2 e2]. simpl in *.
  destruct IH as [-> ->].
  destruct s as [products|msg|]; simpl in Hd.
  - pose proof (update_products_window st products) as (Hc & Hk & _).
    rewrite Hd in Hc, Hk. done.
  - by injection Hd as <- _.
  - by injection Hd as <- _.
Qed.

Lemma start_requests `{!PyBuiltins} post clock a :
  (ProductMonitor.start post clock a).1.2
  = WorkerThread.out_requests
      (WorkerThread.run post clock
         (ProductMonitor.cookies (ProductMonitor.window a))
         (ProductMonitor.min_price_products (ProductMonitor.window a))
         (ProductMonitor.ticks a) (ProductMonitor.worker_thread a)).
Proof.
  unfold ProductMonitor.start. by destruct (ProductMonitor.deliver_all _ _).
Qed.

(** C4. A refresh that goes ahead puts the worker in refresh mode with three
    pages to load, and the start that follows sends a request without
    [nextId]. Whenever a fetch of a refresh cycle succeeds, names a next
    page, and more than one page remains, the start that made it counts
    one page down, keeps the [nextId], and sets a timer of [api_cooldown]
    after which the thread is started again, with a request for that
    [nextId]. In a marketplace of two pages a refresh makes the first
    fetch, waits, makes the second with two pages remaining, and stops:
    there is no third fetch. *)
Theorem refresh_loads_following_pages `{!PyBuiltins}
    (post : WorkerThread.request → WorkerThread.response) (clock : nat → Q)
    (a : ProductMonitor.app) (data nid : json) :
  (∀ from_timer a' cookie,
     ProductMonitor.refresh_data from_timer a = Some a' →
     dict_get (ProductMonitor.cookies (ProductMonitor.window a)) "cookie"
              (JStr "") = Ok cookie →
     ProductMonitor.worker_thread a'
     = WorkerThread.refresh_data (ProductMonitor.worker_thread a) ∧
     WorkerThread.auto_load_pages (ProductMonitor.worker_thread a') = 3%Z ∧
     (ProductMonitor.start post clock a').1.2
     = [{| WorkerThread.req_cookie := cookie;
           WorkerThread.req_next_id := JNull |}]) ∧
  (fetch_returns post (ProductMonitor.cookies (ProductMonitor.window a))
                 (ProductMonitor.worker_thread a) data nid →
   truthy nid = true →
   WorkerThread.auto_load_more (ProductMonitor.worker_thread a) = true →
   (WorkerThread.auto_load_pages (ProductMonitor.worker_thread a) > 1)%Z →
   ∃ a1 req effs,
     ProductMonitor.start post clock a = (a1, [req], effs) ∧
     WorkerThread.auto_load_pages (ProductMonitor.worker_thread a1)
     = (WorkerThread.auto_load_pages (ProductMonitor.worker_thread a) - 1)%Z ∧
     WorkerThread.next_id (ProductMonitor.worker_thread a1) = nid ∧
     ProductMonitor.single_shot
       (ProductMonitor.api_cooldown
          (ProductMonitor.conf (ProductMonitor.window a))) ∈ effs ∧
     (∀ fuel,
        ProductMonitor.start_and_wait (S fuel) post clock a
        = let '(a2, later) := ProductMonitor.start_and_wait fuel post clock a1 in
          (a2, ProductMonitor.fetched req :: (ProductMonitor.did <$> effs)
               ++ later)) ∧
     (∀ cookie,
        dict_get (ProductMonitor.cookies (ProductMonitor.window a)) "cookie"
                 (JStr "") = Ok cookie →
        (ProductMonitor.start post clock a1).1.2
        = [{| WorkerThread.req_cookie := cookie;
              WorkerThread.req_next_id := nid |}])) ∧
  (∀ fuel,
     let r := @ProductMonitor.refresh_cycle plain_builtins (S (S fuel))
                two_pages clock false fresh_app in
     schedule r.2
     = [inl {| WorkerThread.req_cookie := JStr "";
               WorkerThread.req_next_id := JNull |};
        inr (JInt 2000);
        inl {| WorkerThread.req_cookie := JStr "";
               WorkerThread.req_next_id := JStr "t1" |}] ∧
     WorkerThread.auto_load_pages (ProductMonitor.worker_thread r.1) = 2%Z ∧
     ProductMonitor.out_of_fuel ∉ r.2).
Proof.
  split; [|split].
  - intros from_timer a' cookie Hr Hc. unfold ProductMonitor.refresh_data in Hr.
    destruct (_ && _); [done|]. injection Hr as <-. simpl.
    split; [done|]. split; [done|].
    rewrite start_requests. simpl.
    by rewrite (run_request _ _ _ _ _ _ cookie).
  - intros Hfetch Hnid Hmore Hpages.
    destruct (run_fetched post clock _
                (ProductMonitor.min_price_products (ProductMonitor.window a))
                (ProductMonitor.ticks a) _ _ _ Hfetch)
      as (cookie & products & st & sigs & Hck & Hpr & Hreq & Hidx & Hticks
          & Hrefresh & Hrun).
    rewrite Hnid, Hmore in Hrun.
    rewrite (bool_decide_eq_true_2 _ Hpages) in Hrun. simpl in Hrun.
    destruct Hrun as (Hsig & Hnext & _ & Hcount).
    pose proof (deliver_processing clock data
      (ProductMonitor.min_price_products (ProductMonitor.window a),
       ProductMonitor.ticks a)
      (ProductMonitor.set_index (ProductMonitor.window a) st.1))
      as (es & Hes & Hno).
    rewrite Hpr in Hes. simpl in Hes.
    pose proof (update_products_window
      (ProductMonitor.set_index (ProductMonitor.window a) st.1) products)
      as (_ & Hck2 & _).
    destruct (ProductMonitor.update_products
      (ProductMonitor.set_index (ProductMonitor.window a) st.1) products)
      as [st2 e2] eqn:Hup. simpl in Hck2.
    set (timer := ProductMonitor.single_shot
      (ProductMonitor.api_cooldown
         (ProductMonitor.conf (ProductMonitor.window a)))).
    set (o := WorkerThread.run post clock
      (ProductMonitor.cookies (ProductMonitor.window a))
      (ProductMonitor.min_price_products (ProductMonitor.window a))
      (ProductMonitor.ticks a) (ProductMonitor.worker_thread a)) in *.
    assert (Hstart : ProductMonitor.start post clock a
      = ({| ProductMonitor.window := st2;
            ProductMonitor.worker_thread := WorkerThread.out_worker o;
            ProductMonitor.ticks := st.2 |},
         [request_of cookie (ProductMonitor.worker_thread a)],
         es ++ timer :: e2)).
    { unfold ProductMonitor.start. fold o. rewrite Hsig, Hidx, Hticks, Hreq.
      rewrite deliver_all_app, Hes. simpl. rewrite Hup.
      by rewrite app_nil_r. }
    eexists _, _, _. split; [exact Hstart|]. simpl.
    split; [exact Hcount|]. split; [exact Hnext|].
    split; [apply elem_of_app; right; by left|]. split.
    + intros fuel. cbn [ProductMonitor.start_and_wait]. rewrite Hstart.
      rewrite existsb_app. simpl. rewrite orb_true_r.
      destruct (ProductMonitor.start_and_wait fuel post clock _) as [a2 later].
      done.
    + intros cookie' Hc'. rewrite start_requests. simpl.
      rewrite (run_request _ _ _ _ _ _ cookie') by (by rewrite Hck2).
      unfold request_of. by rewrite Hrefresh, Hnext.
  - intros fuel. vm_compute. split; [done|]. split; [done|].
    intros Hin. repeat (apply elem_of_cons in Hin as [Hin|Hin]; [done|]).
    by apply elem_of_nil in Hin.
Qed.

(** ** The three stores *)

Lemma first_raise_none {A} (f : string → json → result A) m :
  (∀ k v, m !! k = Some v → ∃ a, f k v = Ok a) →
  ProductMonitor.first_raise f m = None.
Proof.
  intros Hok. unfold ProductMonitor.first_raise.
  assert (Hall : ∀ kv, kv ∈ map_to_list m → ∃ a, f kv.1 kv.2 = Ok a).
  { intros [k v] Hin. apply elem_of_map_to_list in Hin. by apply Hok. }
  induction (map_to_list m) as [|kv l IH]; [done|].
  cbn [omap list_omap].
  destruct (Hall kv) as [a ->]; [by left|].
  apply IH. intros kv' Hin. apply Hall. by right.
Qed.

Lemma first_raise_some {A} (f : string → json → result A) m k v e :
  m !! k = Some v → f k v = Raise e →
  ∃ e', ProductMonitor.first_raise f m = Some e'.
Proof.
  intros Hkv Hf. unfold ProductMonitor.first_raise.
  apply elem_of_map_to_list in Hkv.
  induction (map_to_list m) as [|kv l IH]; [by apply elem_of_nil in Hkv|].
  cbn [omap list_omap].
  destruct (f kv.1 kv.2) as [a|e'] eqn:E; [|by eexists].
  apply elem_of_cons in Hkv as [<-|Hin]; [|by apply IH].
  simpl in E. by rewrite Hf in E.
Qed.

(** A loop over the entries of a dict that raises on none of them yields
    the dict of its results. *)
Lemma for_items_ok {A} (f : string → json → result A) (g : string → json → A) m :
  (∀ k v, m !! k = Some v → f k v = Ok (g k v)) →
  ProductMonitor.for_items f m = Ok (map_imap (λ k v, Some (g k v)) m).
Proof.
  intros Hok. unfold ProductMonitor.for_items.
  rewrite first_raise_none by (intros k v Hkv; rewrite (Hok k v Hkv); eauto).
  f_equal. apply map_imap_ext. intros k.
  destruct (m !! k) as [v|] eqn:E; [|done]. simpl. by rewrite (Hok k v E).
Qed.

(** What [__init__] has set when it returns. *)
Lemma init_inv `{!PyBuiltins} cj d st :
  ProductMonitor.init cj d = Ok st →
  ProductMonitor.conf st
  = ProductMonitor.load_settings (d !! "settings.json")
                                 ProductMonitor.default_settings ∧
  ProductMonitor.product_cache st
  = ProductMonitor.load_product_cache (ProductMonitor.conf st)
                                      (d !! "product_cache.json") ∅ ∧
  ProductMonitor.min_price_products st
  = ProductMonitor.load_min_price_products (d !! "min_price_history.json") ∅ ∧
  ProductMonitor.cookies st = cj ∧
  ProductMonitor.refresh_interval st = 5%Z ∧
  ProductMonitor.remaining_time st = 5%Z ∧
  ProductMonitor.is_paused st = false ∧
  ProductMonitor.total_products_count st = size (ProductMonitor.product_cache st) ∧
  ProductMonitor.last_refresh_ids st = ∅.
Proof.
  unfold ProductMonitor.init. intros Hi. bind_inv Hi.
  unfold ProductMonitor.init_ui in E. bind_inv E.
  injection E as <-. injection Hi as <-. done.
Qed.

(** Whether [__init__] goes through depends on the cookies and on the
    settings file alone. *)
Lemma init_same_settings `{!PyBuiltins} cj d d' :
  d' !! "settings.json" = d !! "settings.json" →
  is_ok (ProductMonitor.init cj d') = is_ok (ProductMonitor.init cj d).
Proof.
  intros Hs. unfold ProductMonitor.init, ProductMonitor.init_ui. simpl. rewrite Hs.
  destruct (dict_get cj "cookie" (JStr "")) as [c|]; [|done]. simpl.
  destruct (qt_str c); [|done]. simpl.
  destruct (ProductMonitor.cooldown_seconds _); [|done]. simpl.
  by destruct (qt_int _).
Qed.


(** With card sizes that [setFixedSize] refuses no card can be made. *)
Lemma add_product_card_refused `{!PyBuiltins} s v is_new e :
  ProductMonitor.fixed_sizes s = Raise e →
  is_ok (ProductMonitor.add_product_card s v is_new) = false.
Proof.
  intros Hs. unfold ProductMonitor.add_product_card.
  destruct (subscript v "id"); [|done]. simpl. by rewrite Hs.
Qed.

Lemma load_product_cache_refused `{!PyBuiltins} s f e :
  ProductMonitor.fixed_sizes s = Raise e →
  ProductMonitor.load_product_cache s f ∅ = ∅.
Proof.
  intros Hs. unfold ProductMonitor.load_product_cache.
  destruct f as [[|doc]|]; [done| |done].
  destruct (ProductMonitor.read_product_cache s doc) as [cards|] eqn:Hr; [|done].
  rewrite (right_id ∅ (∪)).
  unfold ProductMonitor.read_product_cache in Hr.
  destruct (ProductMonitor.items doc) as [m|]; [|done]. simpl in Hr.
  unfold ProductMonitor.for_items in Hr.
  destruct (ProductMonitor.first_raise _ m) eqn:Hf; [done|].
  injection Hr as <-. apply map_eq. intros pid.
  rewrite map_lookup_imap, lookup_empty.
  destruct (m !! pid) as [v|]; [|done]. simpl.
  pose proof (add_product_card_refused s v false e Hs) as Hno.
  by destruct (ProductMonitor.add_product_card s v false).
Qed.

Lemma add_product_card_entry `{!PyBuiltins} s pid c :
  ProductMonitor.fixed_sizes s = Ok () →
  ProductMonitor.add_product_card s (ProductMonitor.cache_entry pid c) false
  = Ok (reloaded pid c).
Proof.
  intros Hs. unfold ProductMonitor.add_product_card.
  cbn [ProductMonitor.cache_entry subscript]. rewrite lookup_insert_eq.
  cbn [mbind result_bind]. rewrite Hs. reflexivity.
Qed.

Lemma read_saved_settings st doc :
  ProductMonitor.save_settings st = ProductMonitor.write_file "settings.json" doc →
  ProductMonitor.read_settings doc = Ok (ProductMonitor.conf st).
Proof. intros [= <-]. by destruct (ProductMonitor.conf st). Qed.

Lemma read_saved_cache `{!PyBuiltins} s (cache : gmap string ProductMonitor.card) :
  ProductMonitor.fixed_sizes s = Ok () →
  ProductMonitor.read_product_cache s
    (JObj (map_imap (λ pid c, Some (ProductMonitor.cache_entry pid c)) cache))
  = Ok (map_imap (λ pid c, Some (reloaded pid c)) cache).
Proof.
  intros Hs. unfold ProductMonitor.read_product_cache. simpl.
  rewrite (for_items_ok _ (λ pid v,
    match ProductMonitor.add_product_card s v false with
    | Ok c => c
    | Raise _ => reloaded pid {| ProductMonitor.card_object_name := "";
        ProductMonitor.card_name := ""; ProductMonitor.card_price := 0;
        ProductMonitor.card_image := None;
        ProductMonitor.card_view_url := JNull;
        ProductMonitor.card_fresh := false |}
    end)).
  - f_equal. rewrite map_imap_compose. apply map_imap_ext. intros pid.
    destruct (cache !! pid); [|done]. simpl.
    by rewrite (add_product_card_entry _ _ _ Hs).
  - intros pid v. rewrite map_lookup_imap.
    destruct (cache !! pid) as [c|]; [|done]. intros [= <-].
    by rewrite (add_product_card_entry _ _ _ Hs).
Qed.

Lemma read_saved_index idx :
  has_ids idx → ProductMonitor.read_min_price_products (JObj idx) = Ok idx.
Proof.
  intros Hids. unfold ProductMonitor.read_min_price_products. simpl.
  rewrite (for_items_ok _ (λ _ v, v)).
  - by rewrite map_imap_Some.
  - intros k v Hkv. unfold ProductMonitor.ensure_id. by rewrite (Hids k v Hkv).
Qed.



Lemma round_hundredths z : round_half_even ((z # 100) * 100) = z.
Proof.
  unfold round_half_even. cbn [Qmult Qnum Qden].
  change (Z.pos (100 * 1)) with 100%Z.
  rewrite Z.div_mul, Z.mod_mul by done. done.
Qed.

Lemma two_decimals_idem q :
  two_decimals (two_decimals q)
  = two_decimals q.
Proof.
  unfold two_decimals at 1 2. by rewrite round_hundredths.
Qed.

Lemma reloaded_wf pid c :
  ProductMonitor.card_object_name c = "product_" +:+ pid →
  ProductMonitor.card_view_url c = JStr (items_url pid) →
  two_decimals (ProductMonitor.card_price c)
  = ProductMonitor.card_price c →
  reloaded pid c = faded c.
Proof. intros Hn Hu Hp. unfold reloaded, faded. by rewrite Hn, Hu, Hp. Qed.

(** The invariants hold of what the program builds. *)
Lemma cache_wf_empty : cache_wf ∅.
Proof. apply map_Forall_empty. Qed.

Lemma add_product_card_made `{!PyBuiltins} s p is_new c :
  ProductMonitor.add_product_card s (product_json p) is_new = Ok c →
  c = card_of p is_new.
Proof.
  destruct (ProductMonitor.fixed_sizes s) as [[]|e] eqn:Hs.
  - rewrite (add_product_card_product _ _ _ Hs). by intros [= <-].
  - by rewrite (add_product_card_sizes _ _ _ _ Hs).
Qed.

Lemma cache_wf_upsert `{!PyBuiltins} s cache p cache' is_new :
  cache_wf cache →
  p_detail_url p = items_url (p_id p) →
  ProductMonitor.upsert s cache p = Ok (cache', is_new) →
  cache_wf cache'.
Proof.
  intros Hwf Hurl. unfold ProductMonitor.upsert.
  destruct (cache !! p_id p) as [old|] eqn:E.
  - intros [= <- <-]. apply map_Forall_insert_2; [|done].
    apply (Hwf _ _ E).
  - destruct (ProductMonitor.add_product_card s (product_json p) true)
      as [c|] eqn:Hc; [|done].
    apply add_product_card_made in Hc as ->. intros [= <- <-].
    apply map_Forall_insert_2; [|done]. simpl. rewrite Hurl.
    split; [done|]. split; [done|]. apply two_decimals_idem.
Qed.

Lemma cache_wf_reloaded (cache : gmap string ProductMonitor.card) :
  cache_wf (map_imap (λ pid c, Some (reloaded pid c)) cache).
Proof.
  intros pid c. rewrite map_lookup_imap.
  destruct (cache !! pid) as [c0|]; [|done]. intros [= <-]. simpl.
  split; [done|]. split; [done|]. apply two_decimals_idem.
Qed.

Lemma has_ids_empty : has_ids ∅.
Proof. apply map_Forall_empty. Qed.

Lemma has_ids_update clock p idx ticks st :
  has_ids idx →
  WorkerThread.update_min_price clock p (idx, ticks) = Ok st →
  has_ids st.1.
Proof.
  intros Hids. unfold WorkerThread.update_min_price.
  destruct (match idx !! p_name p with
            | Some r => old ← subscript r "price"; float_lt (p_price p) old
            | None => Ok true
            end) as [[|]|]; simpl; [| |done].
  - intros [= <-]. simpl. by apply map_Forall_insert_2.
  - by intros [= <-].
Qed.

Lemma save_files st d :
  save st d !! "settings.json"
  = Some (ProductMonitor.stored
            (match ProductMonitor.save_settings st with
             | ProductMonitor.write_file _ doc => doc
             | _ => JNull
             end)) ∧
  save st d !! "product_cache.json"
  = Some (ProductMonitor.stored
            (JObj (map_imap (λ pid c, Some (ProductMonitor.cache_entry pid c))
                            (ProductMonitor.product_cache st)))) ∧
  save st d !! "min_price_history.json"
  = Some (ProductMonitor.stored (JObj (ProductMonitor.min_price_products st))).
Proof.
  unfold save. simpl. split_and!.
  - by rewrite lookup_insert_eq.
  - rewrite lookup_insert_ne by done. by rewrite lookup_insert_eq.
  - rewrite !lookup_insert_ne by done. by rewrite lookup_insert_eq.
Qed.

(** C6, as the program has it. When the writes of [closeEvent] go through
    and the next start does, the seven saved settings are the old ones and
    the index is the old index when every record has an [id]. When
    [setFixedSize] takes the card sizes of the settings, the cache holds
    under each id the card the cache file describes: the name, the price to
    two decimals, the link to the page of the id, no image and no mark; for
    a cache the program built this is the old cache with the images and the
    marks removed: same ids, names, prices and links. With other card sizes
    the cache comes back empty. The refresh interval is not saved: it is 5
    again. *)
Theorem save_then_load `{!PyBuiltins} (st st' : ProductMonitor.monitor)
    (cj : json) (d : gmap string ProductMonitor.file) :
  ProductMonitor.init cj
    (perform_all [ProductMonitor.no_fault; ProductMonitor.no_fault;
                  ProductMonitor.no_fault] (ProductMonitor.closeEvent st) d)
  = Ok st' →
  ProductMonitor.conf st' = ProductMonitor.conf st ∧
  ProductMonitor.refresh_interval st' = 5%Z ∧
  (has_ids (ProductMonitor.min_price_products st) →
   ProductMonitor.min_price_products st' = ProductMonitor.min_price_products st) ∧
  match ProductMonitor.fixed_sizes (ProductMonitor.conf st) with
  | Ok _ =>
      ProductMonitor.product_cache st'
      = map_imap (λ pid c, Some (reloaded pid c)) (ProductMonitor.product_cache st) ∧
      (cache_wf (ProductMonitor.product_cache st) →
       ProductMonitor.product_cache st' = faded <$> ProductMonitor.product_cache st)
  | Raise _ => ProductMonitor.product_cache st' = ∅
  end.
Proof.
  intros Hinit. change (ProductMonitor.init cj (save st d) = Ok st') in Hinit.
  destruct (init_inv cj _ st' Hinit) as (Hconf & Hcache & Hidx & _ & Hint & _).
  destruct (save_files st d) as (Hs & Hc & Hi).
  assert (Hconf' : ProductMonitor.conf st' = ProductMonitor.conf st).
  { rewrite Hconf, Hs. unfold ProductMonitor.load_settings.
    by rewrite (read_saved_settings st). }
  split_and!.
  - exact Hconf'.
  - exact Hint.
  - intros Hids. rewrite Hidx, Hi. unfold ProductMonitor.load_min_price_products.
    by rewrite read_saved_index.
  - rewrite Hconf' in Hcache.
    destruct (ProductMonitor.fixed_sizes (ProductMonitor.conf st)) as [[]|e] eqn:Hsz.
    + assert (Hcache' : ProductMonitor.product_cache st'
        = map_imap (λ pid c, Some (reloaded pid c)) (ProductMonitor.product_cache st)).
      { rewrite Hcache, Hc. unfold ProductMonitor.load_product_cache.
        rewrite (read_saved_cache _ _ Hsz). apply (right_id ∅ (∪)). }
      split; [exact Hcache'|].
      intros Hwf. rewrite Hcache'. apply map_eq. intros pid.
      rewrite map_lookup_imap, lookup_fmap.
      destruct (ProductMonitor.product_cache st !! pid) as [c|] eqn:E; [|done].
      simpl. f_equal. destruct (Hwf pid c E) as (Hn & Hu & Hp).
      by apply reloaded_wf.
    + rewrite Hcache. by eapply load_product_cache_refused.
Qed.

(** C6 as worded says the cache comes back with the same image URLs. After
    the refresh the card of id "1" has its image; after [closeEvent] and a
    new start it has none, and the cache is not the cache that was
    saved. *)
Lemma save_then_load_loses_images :
  ProductMonitor.card_image <$> ProductMonitor.product_cache after_refresh !! "1"
  = Some (Some (JStr "https://i0.hdslb.com/a.jpg")) ∧
  (λ st', ProductMonitor.card_image <$> ProductMonitor.product_cache st' !! "1")
    <$> @ProductMonitor.init plain_builtins (JObj ∅) (save after_refresh ∅)
  = Ok (Some None) ∧
  ProductMonitor.product_cache
    <$> @ProductMonitor.init plain_builtins (JObj ∅) (save after_refresh ∅)
  ≠ Ok (ProductMonitor.product_cache after_refresh).
Proof.
  assert (H1 : ProductMonitor.card_image
                 <$> ProductMonitor.product_cache after_refresh !! "1"
               = Some (Some (JStr "https://i0.hdslb.com/a.jpg")))
    by (vm_compute; reflexivity).
  split; [exact H1|]. split; [vm_compute; reflexivity|].
  intros Heq.
  apply (f_equal (λ r, match r with
                       | Ok c => ProductMonitor.card_image <$> c !! "1"
                       | Raise _ => None
                       end)) in Heq.
  cbv beta iota in Heq. rewrite H1 in Heq.
  vm_compute in Heq. discriminate Heq.
Qed.

Lemma save_then_load_witness :
  (λ st', (ProductMonitor.product_cache st', ProductMonitor.min_price_products st'))
    <$> @ProductMonitor.init plain_builtins (JObj ∅) (save sample_window ∅)
  = Ok (faded <$> ProductMonitor.product_cache sample_window,
        ProductMonitor.min_price_products sample_window).
Proof.
  destruct (@ProductMonitor.init plain_builtins (JObj ∅) (save sample_window ∅))
    as [st'|e] eqn:Hinit; [|vm_compute in Hinit; discriminate Hinit].
  destruct (@save_then_load plain_builtins sample_window st' (JObj ∅) ∅ Hinit)
    as (_ & _ & Hi & Hc).
  simpl in Hc. destruct Hc as [_ Hc]. simpl. f_equal. f_equal.
  - apply Hc. apply map_Forall_singleton.
    split; [reflexivity|]. split; reflexivity.
  - apply Hi. apply map_Forall_singleton. reflexivity.
Defined.

(** ** Saving *)

(** C8, as the program has it. A save writes its file in place. A write
    touches no other file; without a fault the file holds the document; a
    failing [open] leaves the directory as it was; a failure after [open]
    leaves the file cut. While a write runs the directory is the old one,
    then the one with the file cut, then the one with the document: a crash
    after [open] and before the end leaves the file cut, and the next start
    reads the default for a store whose file is cut; a cut cache or index
    file does not change whether the start goes through. A failed write
    stops nothing: the writes of [closeEvent] that follow it are made. *)
Theorem save_overwrites_in_place `{!PyBuiltins} (ft f1 f2 f3 : ProductMonitor.fault)
    (path : string) (doc : json) (d : gmap string ProductMonitor.file)
    (st : ProductMonitor.monitor) (cj : json) :
  (∀ other, other ≠ path →
            ProductMonitor.write_json ft path doc d !! other = d !! other) ∧
  ProductMonitor.write_json ProductMonitor.no_fault path doc d !! path
  = Some (ProductMonitor.stored doc) ∧
  ProductMonitor.write_json ProductMonitor.open_fails path doc d = d ∧
  ProductMonitor.write_json ProductMonitor.write_fails path doc d !! path
  = Some ProductMonitor.garbled ∧
  (∃ d_cut,
     ProductMonitor.during_write path doc d
     = [d; d_cut; ProductMonitor.write_json ProductMonitor.no_fault path doc d] ∧
     d_cut !! path = Some ProductMonitor.garbled ∧
     (∀ other, other ≠ path → d_cut !! other = d !! other)) ∧
  (let d_cut := <["settings.json" := ProductMonitor.garbled]> d in
   ProductMonitor.load_settings (d_cut !! "settings.json")
                                ProductMonitor.default_settings
   = ProductMonitor.default_settings ∧
   ∀ st', ProductMonitor.init cj d_cut = Ok st' →
          ProductMonitor.conf st' = ProductMonitor.default_settings) ∧
  (let d_cut := <["product_cache.json" := ProductMonitor.garbled]> d in
   (∀ s, ProductMonitor.load_product_cache s (d_cut !! "product_cache.json") ∅
         = ∅) ∧
   is_ok (ProductMonitor.init cj d_cut) = is_ok (ProductMonitor.init cj d) ∧
   ∀ st', ProductMonitor.init cj d_cut = Ok st' →
          ProductMonitor.product_cache st' = ∅) ∧
  (let d_cut := <["min_price_history.json" := ProductMonitor.garbled]> d in
   ProductMonitor.load_min_price_products (d_cut !! "min_price_history.json") ∅
   = ∅ ∧
   is_ok (ProductMonitor.init cj d_cut) = is_ok (ProductMonitor.init cj d) ∧
   ∀ st', ProductMonitor.init cj d_cut = Ok st' →
          ProductMonitor.min_price_products st' = ∅) ∧
  perform_all [f1; f2; ProductMonitor.no_fault] (ProductMonitor.closeEvent st) d
    !! "settings.json"
  = save st d !! "settings.json" ∧
  perform_all [f1; ProductMonitor.no_fault; f3] (ProductMonitor.closeEvent st) d
    !! "product_cache.json"
  = save st d !! "product_cache.json".
Proof.
  split_and!.
  - intros other Hne. destruct ft; simpl; [|done|]; by rewrite lookup_insert_ne.
  - apply lookup_insert_eq.
  - done.
  - apply lookup_insert_eq.
  - eexists. split; [reflexivity|]. split; [apply lookup_insert_eq|].
    intros other Hne. by rewrite lookup_insert_ne.
  - simpl. split; [by rewrite lookup_insert_eq|].
    intros st' Hinit. destruct (init_inv _ _ _ Hinit) as (-> & _).
    by rewrite lookup_insert_eq.
  - simpl. split_and!.
    + intros s. by rewrite lookup_insert_eq.
    + apply init_same_settings. by rewrite lookup_insert_ne.
    + intros st' Hinit. destruct (init_inv _ _ _ Hinit) as (_ & -> & _).
      by rewrite lookup_insert_eq.
  - simpl. split_and!.
    + by rewrite lookup_insert_eq.
    + apply init_same_settings. by rewrite lookup_insert_ne.
    + intros st' Hinit. destruct (init_inv _ _ _ Hinit) as (_ & _ & -> & _).
      by rewrite lookup_insert_eq.
  - destruct (save_files st d) as (-> & _ & _). simpl.
    by rewrite lookup_insert_eq.
  - destruct (save_files st d) as (_ & -> & _). simpl.
    destruct f3; simpl; rewrite ?lookup_insert_ne by done;
      by rewrite lookup_insert_eq.
Qed.

(** C8 as worded says a crash in the middle of a write leaves the file
    saved before intact. Here the index file was saved after a refresh and
    loads as the index with "A" at 8.00; a second save of the index is cut
    short after [open]: the file is cut, and the next start has an empty
    index. *)
Lemma crash_mid_write_loses_index :
  let d := save after_refresh ∅ in
  let doc := JObj (ProductMonitor.min_price_products after_refresh) in
  (λ st', price_at (ProductMonitor.min_price_products st') "A")
    <$> @ProductMonitor.init plain_builtins (JObj ∅) d
  = Ok (Some (inject_Z 800 / 100)%Q) ∧
  ∃ d_cut,
    ProductMonitor.during_write "min_price_history.json" doc d !! 1 = Some d_cut ∧
    d_cut !! "min_price_history.json" = Some ProductMonitor.garbled ∧
    ProductMonitor.min_price_products
      <$> @ProductMonitor.init plain_builtins (JObj ∅) d_cut = Ok ∅.
Proof.
  split; [vm_compute; reflexivity|].
  eexists. split; [reflexivity|]. split; [apply lookup_insert_eq|].
  vm_compute. reflexivity.
Qed.

(** ** Instances of the statements *)

Lemma malformed_item_is_skipped_witness :
  well_formed bad_item = false ∧
  (@WorkerThread.process_items plain_builtins (λ _, 0%Q)
     ([feed_item 1 "A" 1000] ++ bad_item :: [feed_item 2 "A" 800]) (∅, 0)).1
  = [ {| p_id := "1"; p_name := "A"; p_price := (inject_Z 1000 / 100)%Q;
         p_image := "https://i0.hdslb.com/a.jpg";
         p_detail_url := items_url "1" |};
      {| p_id := "2"; p_name := "A"; p_price := (inject_Z 800 / 100)%Q;
         p_image := "https://i0.hdslb.com/a.jpg";
         p_detail_url := items_url "2" |} ].
Proof.
  split; [reflexivity|].
  destruct (@malformed_item_is_skipped plain_builtins (λ _, 0%Q)
              [feed_item 1 "A" 1000] [feed_item 2 "A" 800] bad_item (∅, 0)
              eq_refl) as (_ & _ & Hskip & _).
  rewrite Hskip. vm_compute. reflexivity.
Defined.

Lemma absent_price_is_zero_witness :
  unpriced !! "price" = None ∧
  ∃ p, @WorkerThread.normalize plain_builtins (JObj unpriced) = Ok p ∧
       (p_price p == 0)%Q.
Proof.
  split; [reflexivity|].
  destruct (@absent_price_is_zero plain_builtins (λ _, 0%Q) unpriced ∅ 0
              eq_refl index_wf_empty) as (_ & _ & Hp).
  eexists. split; [reflexivity|]. apply (Hp _ eq_refl).
Defined.

Lemma no_next_token_ends_cycle_witness :
  ∃ req,
    fetches (@ProductMonitor.start_and_wait plain_builtins 1 two_pages
               (λ _, 0%Q) second_fetch).2 = [req].
Proof.
  destruct (@no_next_token_ends_cycle plain_builtins two_pages (λ _, 0%Q)
              second_fetch (page [feed_item 3 "B" 499] JNull) JNull)
    as (_ & _ & a1 & req & effs & _ & _ & _ & _ & _ & Hcycle).
  - exists (JStr ""). split; [reflexivity|]. split; [reflexivity|].
    split; reflexivity.
  - reflexivity.
  - exists req. apply (Hcycle 0).
Defined.

Lemma refresh_loads_following_pages_witness :
  ∃ a1 req effs,
    @ProductMonitor.start plain_builtins two_pages (λ _, 0%Q) first_fetch
    = (a1, [req], effs) ∧
    WorkerThread.auto_load_pages (ProductMonitor.worker_thread a1) = 2%Z ∧
    WorkerThread.next_id (ProductMonitor.worker_thread a1) = JStr "t1".
Proof.
  destruct (@refresh_loads_following_pages plain_builtins two_pages (λ _, 0%Q)
              first_fetch
              (page [feed_item 1 "A" 1000; feed_item 2 "A" 800] (JStr "t1"))
              (JStr "t1")) as (_ & Hnext & _).
  destruct Hnext as (a1 & req & effs & Hstart & Hpages & Hid & _).
  - exists (JStr ""). split; [reflexivity|]. split; [reflexivity|].
    split; reflexivity.
  - reflexivity.
  - reflexivity.
  - reflexivity.
  - exists a1, req, effs. split; [exact Hstart|]. split; [exact Hpages|exact Hid].
Defined.


Lemma save_overwrites_in_place_witness :
  ProductMonitor.write_json ProductMonitor.write_fails "product_cache.json"
    (JObj ∅) (save sample_window ∅) !! "settings.json"
  = save sample_window ∅ !! "settings.json".
Proof.
  destruct (@save_overwrites_in_place plain_builtins ProductMonitor.write_fails
              ProductMonitor.no_fault ProductMonitor.no_fault
              ProductMonitor.no_fault "product_cache.json" (JObj ∅)
              (save sample_window ∅) sample_window (JObj ∅)) as (Hother & _).
  apply Hother. discriminate.
Defined.


(** A cache file with one entry whose name is not a string: the loop of
    [load_product_cache] raises on it and the cache starts empty, while the
    settings file beside it is read. *)
Example cache_file_with_bad_entry :
  let d : gmap string ProductMonitor.file :=
    <["product_cache.json" :=
        ProductMonitor.stored
          (JObj {[ "1" := JObj (<["id" := JStr "1"]>
                               (<["name" := JInt 5]>
                               (<["price" := JFloat 1]> ∅))) ]})]>
    {[ "settings.json" :=
         ProductMonitor.stored (JObj {[ "api_cooldown" := JInt 3000 ]}) ]} in
  (λ st, (ProductMonitor.product_cache st,
          ProductMonitor.api_cooldown (ProductMonitor.conf st),
          ProductMonitor.columns_count (ProductMonitor.conf st)))
    <$> @ProductMonitor.init plain_builtins (JObj ∅) d
  = Ok (∅, JInt 3000, JInt 8).
Proof. vm_compute. reflexivity. Qed.

(** ** Further properties: fetches that fail, and the length of a cycle *)

Lemma run_failed `{!PyBuiltins} post clock cookie_jar idx ticks w cookie msg :
  dict_get cookie_jar "cookie" (JStr "") = Ok cookie →
  fetch_fails post cookie w msg →
  WorkerThread.run post clock cookie_jar idx ticks w
  = {| WorkerThread.out_worker := refresh_done w;
       WorkerThread.out_index := idx; WorkerThread.out_ticks := ticks;
       WorkerThread.out_signals := [WorkerThread.error_signal msg];
       WorkerThread.out_requests := [request_of cookie w] |}.
Proof.
  intros Hc Hf. unfold WorkerThread.run. rewrite Hc.
  assert (Hreq :
    {| WorkerThread.req_cookie := cookie;
       WorkerThread.req_next_id := WorkerThread.next_id (refresh_done w) |}
    = request_of cookie w).
  { unfold request_of, refresh_done. by destruct (WorkerThread.is_refresh w). }
  fold (refresh_done w). rewrite Hreq.
  destruct Hf as [[-> ->]|[[-> ->]|(s & b & -> & Hs & ->)]].
  - done.
  - done.
  - by rewrite bool_decide_eq_false_2.
Qed.

Lemma set_index_same st :
  ProductMonitor.set_index st (ProductMonitor.min_price_products st) = st.
Proof. by destruct st. Qed.

(** X1. A fetch that fails (no reply, a status other than 200, a body that
    is not JSON) sends its one request and shows one error: the window is
    left exactly as it was, so are the clock and the worker apart from the
    refresh flag, no timer is set and nothing is written. After a refresh
    the two buttons, disabled by [refresh_data], therefore stay
    disabled. *)
Theorem failed_fetch_changes_nothing `{!PyBuiltins}
    (post : WorkerThread.request → WorkerThread.response) (clock : nat → Q)
    (a : ProductMonitor.app) (cookie : json) (msg : WorkerThread.error_message) :
  dict_get (ProductMonitor.cookies (ProductMonitor.window a)) "cookie" (JStr "")
  = Ok cookie →
  fetch_fails post cookie (ProductMonitor.worker_thread a) msg →
  ProductMonitor.start post clock a
  = ({| ProductMonitor.window := ProductMonitor.window a;
        ProductMonitor.worker_thread := refresh_done (ProductMonitor.worker_thread a);
        ProductMonitor.ticks := ProductMonitor.ticks a |},
     [request_of cookie (ProductMonitor.worker_thread a)],
     [ProductMonitor.show_error msg]) ∧
  (∀ fuel a0, ProductMonitor.refresh_data false a0 = Some a →
     let r := ProductMonitor.refresh_cycle (S fuel) post clock false a0 in
     r.2 = [ProductMonitor.fetched (request_of cookie (ProductMonitor.worker_thread a));
            ProductMonitor.did (ProductMonitor.show_error msg)] ∧
     ProductMonitor.refresh_btn (ProductMonitor.window r.1) = false ∧
     ProductMonitor.load_more_btn (ProductMonitor.window r.1) = false ∧
     ProductMonitor.product_cache (ProductMonitor.window r.1)
     = ProductMonitor.product_cache (ProductMonitor.window a0) ∧
     ProductMonitor.min_price_products (ProductMonitor.window r.1)
     = ProductMonitor.min_price_products (ProductMonitor.window a0)).
Proof.
  intros Hc Hf.
  assert (Hstart : ProductMonitor.start post clock a
    = ({| ProductMonitor.window := ProductMonitor.window a;
          ProductMonitor.worker_thread := refresh_done (ProductMonitor.worker_thread a);
          ProductMonitor.ticks := ProductMonitor.ticks a |},
       [request_of cookie (ProductMonitor.worker_thread a)],
       [ProductMonitor.show_error msg])).
  { unfold ProductMonitor.start.
    rewrite (run_failed _ _ _ _ _ _ cookie msg Hc Hf). simpl.
    by rewrite set_index_same. }
  split; [exact Hstart|].
  intros fuel a0 Hr. unfold ProductMonitor.refresh_cycle. rewrite Hr.
  cbn [ProductMonitor.start_and_wait]. rewrite Hstart. simpl.
  unfold ProductMonitor.refresh_data in Hr.
  destruct (_ && _); [done|]. injection Hr as <-. done.
Qed.

Lemma failed_fetch_changes_nothing_witness :
  @ProductMonitor.start plain_builtins (λ _, WorkerThread.no_response)
    (λ _, 0%Q) first_fetch
  = ({| ProductMonitor.window := ProductMonitor.window first_fetch;
        ProductMonitor.worker_thread :=
          {| WorkerThread.next_id := JNull; WorkerThread.is_refresh := false;
             WorkerThread.auto_load_more := true;
             WorkerThread.auto_load_pages := 3 |};
        ProductMonitor.ticks := 0 |},
     [{| WorkerThread.req_cookie := JStr "";
         WorkerThread.req_next_id := JNull |}],
     [ProductMonitor.show_error WorkerThread.network_error]).
Proof.
  destruct (@failed_fetch_changes_nothing plain_builtins
              (λ _, WorkerThread.no_response) (λ _, 0%Q) first_fetch (JStr "")
              WorkerThread.network_error) as [Hstart _].
  - reflexivity.
  - left. split; reflexivity.
  - exact Hstart.
Defined.

(** A timer is set exactly by the slot of [auto_load_signal]. *)
Lemma deliver_all_timer `{!PyBuiltins} sigs : ∀ st,
  existsb ProductMonitor.is_single_shot (ProductMonitor.deliver_all st sigs).2
  = existsb is_auto_load sigs.
Proof.
  induction sigs as [|s rest IH]; intros st; [done|].
  cbn [ProductMonitor.deliver_all existsb].
  destruct (ProductMonitor.deliver st s) as [st1 e1] eqn:Hd.
  specialize (IH st1).
  destruct (ProductMonitor.deliver_all st1 rest) as [st2 e2]. simpl in *.
  rewrite existsb_app, IH. f_equal.
  destruct s as [products|msg|]; simpl in Hd.
  - pose proof (update_products_window st products) as (_ & _ & _ & _ & _ & Hno).
    by rewrite Hd in Hno.
  - by injection Hd as _ <-.
  - by injection Hd as _ <-.
Qed.

(** [run] emits [auto_load_signal] only in automatic loading with more than
    one page left, and then counts one page down; it sends at most one
    request. *)
Lemma run_auto_load `{!PyBuiltins} post clock cookie_jar idx ticks w :
  let o := WorkerThread.run post clock cookie_jar idx ticks w in
  length (WorkerThread.out_requests o) ≤ 1 ∧
  (existsb is_auto_load (WorkerThread.out_signals o) = true →
   WorkerThread.auto_load_more w = true ∧
   (WorkerThread.auto_load_pages w > 1)%Z ∧
   WorkerThread.auto_load_more (WorkerThread.out_worker o) = true ∧
   WorkerThread.auto_load_pages (WorkerThread.out_worker o)
   = (WorkerThread.auto_load_pages w - 1)%Z).
Proof.
  unfold WorkerThread.run.
  destruct (dict_get cookie_jar "cookie" (JStr "")) as [cookie|]; [|split; [simpl; lia|done]].
  fold (refresh_done w).
  assert (Hm : WorkerThread.auto_load_more (refresh_done w)
               = WorkerThread.auto_load_more w)
    by (unfold refresh_done; by destruct (WorkerThread.is_refresh w)).
  assert (Hp : WorkerThread.auto_load_pages (refresh_done w)
               = WorkerThread.auto_load_pages w)
    by (unfold refresh_done; by destruct (WorkerThread.is_refresh w)).
  destruct (post _) as [|s body]; [split; [simpl; lia|done]|].
  destruct (bool_decide (s = 200%Z)); [|split; [simpl; lia|done]].
  destruct body as [data|]; [|split; [simpl; lia|done]].
  destruct (dict_get data "code" JNull); [|split; [simpl; lia|done]].
  pose proof (process_response_signals clock data (idx, ticks)) as Hs.
  destruct (WorkerThread.process_response clock data (idx, ticks))
    as [[products st] sigs]. simpl in Hs.
  assert (Hsigs : existsb is_auto_load sigs = false)
    by (by destruct Hs as [-> | ->]).
  destruct (_ ≫= _) as [nid|]; simpl.
  - destruct (truthy nid); simpl.
    + split; [simpl; lia|]. rewrite !existsb_app, Hsigs, Hm, Hp. simpl.
      destruct (WorkerThread.auto_load_more w); simpl; [|done].
      destruct (bool_decide (WorkerThread.auto_load_pages w > 1)%Z) eqn:E;
        simpl; [|done].
      apply bool_decide_eq_true in E. done.
    + split; [simpl; lia|]. by rewrite existsb_app, Hsigs.
  - split; [simpl; lia|]. by rewrite existsb_app, Hsigs.
Qed.

Lemma start_timer `{!PyBuiltins} post clock a :
  let r := ProductMonitor.start post clock a in
  length r.1.2 ≤ 1 ∧
  (existsb ProductMonitor.is_single_shot r.2 = true →
   WorkerThread.auto_load_more (ProductMonitor.worker_thread a) = true ∧
   (WorkerThread.auto_load_pages (ProductMonitor.worker_thread a) > 1)%Z ∧
   WorkerThread.auto_load_more (ProductMonitor.worker_thread r.1.1) = true ∧
   WorkerThread.auto_load_pages (ProductMonitor.worker_thread r.1.1)
   = (WorkerThread.auto_load_pages (ProductMonitor.worker_thread a) - 1)%Z).
Proof.
  pose proof (run_auto_load post clock
    (ProductMonitor.cookies (ProductMonitor.window a))
    (ProductMonitor.min_price_products (ProductMonitor.window a))
    (ProductMonitor.ticks a) (ProductMonitor.worker_thread a)) as [Hlen Hauto].
  unfold ProductMonitor.start.
  pose proof (deliver_all_timer
    (WorkerThread.out_signals
       (WorkerThread.run post clock
          (ProductMonitor.cookies (ProductMonitor.window a))
          (ProductMonitor.min_price_products (ProductMonitor.window a))
          (ProductMonitor.ticks a) (ProductMonitor.worker_thread a)))
    (ProductMonitor.set_index (ProductMonitor.window a)
       (WorkerThread.out_index
          (WorkerThread.run post clock
             (ProductMonitor.cookies (ProductMonitor.window a))
             (ProductMonitor.min_price_products (ProductMonitor.window a))
             (ProductMonitor.ticks a) (ProductMonitor.worker_thread a))))) as Ht.
  destruct (ProductMonitor.deliver_all _ _) as [st effs]. simpl in *.
  split; [exact Hlen|]. rewrite Ht. exact Hauto.
Qed.

Lemma fetches_app t1 t2 : fetches (t1 ++ t2) = fetches t1 ++ fetches t2.
Proof. unfold fetches. apply omap_app. Qed.

Lemma fetches_fetched reqs : fetches (ProductMonitor.fetched <$> reqs) = reqs.
Proof.
  induction reqs as [|r rest IH]; [done|].
  change (r :: fetches (ProductMonitor.fetched <$> rest) = r :: rest).
  by rewrite IH.
Qed.

(** A chain of starts ends before the fuel does when the fuel covers the
    worker's budget, and makes no more fetches than the budget. *)
Lemma start_and_wait_bounded `{!PyBuiltins} post clock fuel : ∀ a,
  budget (ProductMonitor.worker_thread a) ≤ fuel →
  (ProductMonitor.out_of_fuel
   ∉ snd (ProductMonitor.start_and_wait fuel post clock a)) ∧
  length (fetches (ProductMonitor.start_and_wait fuel post clock a).2)
  ≤ budget (ProductMonitor.worker_thread a).
Proof.
  induction fuel as [|fuel IH]; intros a Hb.
  { unfold budget in Hb. lia. }
  cbn [ProductMonitor.start_and_wait].
  pose proof (start_timer post clock a) as [Hlen Htimer].
  destruct (ProductMonitor.start post clock a) as [[a1 reqs] effs]. simpl in *.
  assert (Hhere : ProductMonitor.out_of_fuel
                  ∉ (ProductMonitor.fetched <$> reqs) ++ (ProductMonitor.did <$> effs)).
  { intros Hin. apply elem_of_app in Hin as [Hin|Hin];
      apply list_elem_of_fmap in Hin as (x & Hx & _); discriminate Hx. }
  destruct (existsb ProductMonitor.is_single_shot effs) eqn:Ht.
  - destruct (Htimer eq_refl) as (Hm & Hp & Hm1 & Hp1).
    assert (Hb1 : budget (ProductMonitor.worker_thread a1) ≤ fuel).
    { unfold budget in *. rewrite Hm in Hb. rewrite Hm1, Hp1. lia. }
    specialize (IH a1 Hb1).
    destruct (ProductMonitor.start_and_wait fuel post clock a1) as [a2 later].
    simpl in *. destruct IH as [Hno Hcount]. split.
    + intros Hin. apply elem_of_app in Hin as [Hin|Hin]; [by apply Hhere|done].
    + rewrite !fetches_app, fetches_fetched, fetches_did, !length_app. simpl.
      unfold budget in *. rewrite Hm. rewrite Hm1, Hp1 in Hcount. lia.
  - simpl. split; [exact Hhere|].
    rewrite fetches_app, fetches_fetched, fetches_did, app_nil_r.
    unfold budget. lia.
Qed.

(** X2. A refresh makes at most three fetches, whatever the marketplace
    answers, and the chain of starts ends by itself: three units of fuel
    are never used up. *)
Theorem refresh_makes_at_most_three_fetches `{!PyBuiltins}
    (post : WorkerThread.request → WorkerThread.response) (clock : nat → Q)
    (from_timer : bool) (a : ProductMonitor.app) (fuel : nat) :
  let r := ProductMonitor.refresh_cycle (3 + fuel) post clock from_timer a in
  length (fetches r.2) ≤ 3 ∧ ProductMonitor.out_of_fuel ∉ r.2.
Proof.
  unfold ProductMonitor.refresh_cycle.
  destruct (ProductMonitor.refresh_data from_timer a) as [a'|] eqn:Hr.
  - assert (Hb : budget (ProductMonitor.worker_thread a') = 3).
    { unfold ProductMonitor.refresh_data in Hr.
      destruct (_ && _); [done|]. by injection Hr as <-. }
    pose proof (start_and_wait_bounded post clock (3 + fuel) a') as Hbound.
    rewrite Hb in Hbound. destruct Hbound as [Hno Hcount]; [lia|].
    by split.
  - simpl. split; [lia|]. apply not_elem_of_nil.
Qed.

(** X3. A manual "load more" makes one fetch at most and sets no timer,
    whatever the marketplace answers and however many pages a refresh had
    left; the request asks for the page the worker had kept. *)
Theorem load_more_makes_one_fetch `{!PyBuiltins}
    (post : WorkerThread.request → WorkerThread.response) (clock : nat → Q)
    (a : ProductMonitor.app) (fuel : nat) :
  let a' := ProductMonitor.load_more_data a in
  existsb ProductMonitor.is_single_shot (ProductMonitor.start post clock a').2
  = false ∧
  length (fetches (ProductMonitor.start_and_wait (S fuel) post clock a').2) ≤ 1 ∧
  (ProductMonitor.out_of_fuel
   ∉ snd (ProductMonitor.start_and_wait (S fuel) post clock a')) ∧
  (∀ cookie,
     dict_get (ProductMonitor.cookies (ProductMonitor.window a)) "cookie"
              (JStr "") = Ok cookie →
     (ProductMonitor.start post clock a').1.2
     = [request_of cookie (ProductMonitor.worker_thread a)]).
Proof.
  simpl. split_and!.
  - pose proof (start_timer post clock (ProductMonitor.load_more_data a))
      as [_ Htimer].
    destruct (existsb _ _); [|done]. by destruct (Htimer eq_refl) as [Hm _].
  - by destruct (start_and_wait_bounded post clock (S fuel)
                   (ProductMonitor.load_more_data a)) as [_ Hc];
      [unfold budget; simpl; lia|].
  - by destruct (start_and_wait_bounded post clock (S fuel)
                   (ProductMonitor.load_more_data a)) as [Hno _];
      [unfold budget; simpl; lia|].
  - intros cookie Hc. rewrite start_requests. simpl.
    by rewrite (run_request _ _ _ _ _ _ cookie).
Qed.

(** ** Further properties: replies and items *)

(** X4. A reply whose [code] is not 0, or whose [data] cannot be walked
    through, yields no product, leaves the index and the clock as they
    were, and emits one error signal. In [start] the error is shown, the
    product cache and the index stay as they were, nothing is written, and
    the empty batch re-enables both buttons. *)
Theorem api_error_leaves_state `{!PyBuiltins}
    (post : WorkerThread.request → WorkerThread.response) (clock : nat → Q)
    (a : ProductMonitor.app) (data nid : json) (e : exn) :
  WorkerThread.response_items data = Raise e →
  (∀ st, WorkerThread.process_response clock data st
         = ([], st, [WorkerThread.error_signal WorkerThread.processing_failed])) ∧
  (∀ code, dict_get data "code" JNull = Ok code → ne_zero code = true →
           WorkerThread.response_items data = Raise ValueError) ∧
  (fetch_returns post (ProductMonitor.cookies (ProductMonitor.window a))
                 (ProductMonitor.worker_thread a) data nid →
   let r := ProductMonitor.start post clock a in
   ProductMonitor.product_cache (ProductMonitor.window r.1.1)
   = ProductMonitor.product_cache (ProductMonitor.window a) ∧
   ProductMonitor.min_price_products (ProductMonitor.window r.1.1)
   = ProductMonitor.min_price_products (ProductMonitor.window a) ∧
   ProductMonitor.ticks r.1.1 = ProductMonitor.ticks a ∧
   ProductMonitor.refresh_btn (ProductMonitor.window r.1.1) = true ∧
   ProductMonitor.load_more_btn (ProductMonitor.window r.1.1) = true ∧
   ProductMonitor.show_error WorkerThread.processing_failed ∈ r.2 ∧
   existsb is_write r.2 = false).
Proof.
  intros Hraise.
  assert (Hpr : ∀ st, WorkerThread.process_response clock data st
    = ([], st, [WorkerThread.error_signal WorkerThread.processing_failed])).
  { intros st. unfold WorkerThread.process_response. by rewrite Hraise. }
  split; [exact Hpr|]. split.
  - intros code Hcode Hne. unfold WorkerThread.response_items.
    rewrite Hcode. simpl. by rewrite Hne.
  - intros Hfetch.
    destruct (run_fetched post clock _
                (ProductMonitor.min_price_products (ProductMonitor.window a))
                (ProductMonitor.ticks a) _ _ _ Hfetch)
      as (cookie & products & st & sigs & _ & Hpr' & Hreq & Hidx & Hticks & _ & Hrun).
    rewrite Hpr in Hpr'. injection Hpr' as <- <- <-.
    unfold ProductMonitor.start. rewrite Hidx, Hticks, Hreq. simpl.
    rewrite set_index_same.
    assert (Hsig : ∃ mid,
      WorkerThread.out_signals
        (WorkerThread.run post clock
           (ProductMonitor.cookies (ProductMonitor.window a))
           (ProductMonitor.min_price_products (ProductMonitor.window a))
           (ProductMonitor.ticks a) (ProductMonitor.worker_thread a))
      = WorkerThread.error_signal WorkerThread.processing_failed
        :: mid ++ [WorkerThread.update_signal []] ∧
      (mid = [] ∨ mid = [WorkerThread.auto_load_signal])).
    { destruct (truthy nid).
      - destruct Hrun as (-> & _). destruct (_ && _); eauto.
      - destruct Hrun as (-> & _). exists []. eauto. }
    destruct Hsig as (mid & -> & Hmid).
    destruct Hmid as [-> | ->]; simpl;
      (split_and!; [done..|by left|done]).
Qed.

Lemma api_error_leaves_state_witness :
  @WorkerThread.process_response plain_builtins (λ _, 0%Q)
    (JObj {[ "code" := JInt 1 ]}) (∅, 0)
  = ([], (∅, 0), [WorkerThread.error_signal WorkerThread.processing_failed]).
Proof.
  destruct (@api_error_leaves_state plain_builtins
              (λ _, WorkerThread.no_response) (λ _, 0%Q) first_fetch
              (JObj {[ "code" := JInt 1 ]}) JNull ValueError) as [Hreply _].
  - reflexivity.
  - apply Hreply.
Defined.

Lemma normalize_shape `{!PyBuiltins} item p :
  WorkerThread.normalize item = Ok p →
  p_detail_url p = items_url (p_id p) ∧
  ∃ rest, p_image p = "https:" +:+ rest.
Proof.
  intros Hn. unfold WorkerThread.normalize in Hn. bind_inv Hn.
  injection Hn as <-. simpl. eauto.
Qed.

(** X5. Every product [process_response] builds links to the page of its
    own id and has an image address that starts with "https:". An item
    without [c2cItemsId], [detailDtoList] and [price] is not an error: it
    becomes the product with the empty id, the name "未知商品" (stripped),
    the price 0.0 and the bare image address "https:". *)
Theorem normalize_defaults `{!PyBuiltins} (item : json) (m : gmap string json) :
  (∀ p, WorkerThread.normalize item = Ok p →
        p_detail_url p = items_url (p_id p) ∧
        ∃ rest, p_image p = "https:" +:+ rest) ∧
  (m !! "c2cItemsId" = None → m !! "detailDtoList" = None →
   m !! "price" = None →
   WorkerThread.normalize (JObj m)
   = Ok {| p_id := ""; p_name := strip "未知商品";
           p_price := (inject_Z 0 / 100)%Q; p_image := "https:";
           p_detail_url := items_url "" |}).
Proof.
  split; [intros p; apply normalize_shape|].
  intros H1 H2 H3. unfold WorkerThread.normalize, dict_get.
  by rewrite H1, H2, H3.
Qed.

Lemma normalize_defaults_witness :
  @WorkerThread.normalize plain_builtins (JObj ∅)
  = Ok {| p_id := ""; p_name := "未知商品";
          p_price := (inject_Z 0 / 100)%Q; p_image := "https:";
          p_detail_url := items_url "" |}.
Proof.
  apply (@normalize_defaults plain_builtins JNull ∅); reflexivity.
Defined.

(** An observation never removes a name from the index. *)
Lemma update_min_price_keeps_names clock p idx ticks st name :
  WorkerThread.update_min_price clock p (idx, ticks) = Ok st →
  is_Some (idx !! name) → is_Some (st.1 !! name).
Proof.
  unfold WorkerThread.update_min_price.
  destruct (match idx !! p_name p with
            | Some r => old ← subscript r "price"; float_lt (p_price p) old
            | None => Ok true
            end) as [[|]|]; simpl; [| |done].
  - intros [= <-] Hs. simpl. rewrite lookup_insert.
    by case_decide.
  - by intros [= <-].
Qed.

(** What every observation keeps, the loop of [process_response] keeps. *)
Lemma process_items_keeps `{!PyBuiltins} (P : gmap string json → Prop) clock :
  (∀ p idx ticks st,
     P idx → WorkerThread.update_min_price clock p (idx, ticks) = Ok st →
     P st.1) →
  ∀ batch st, P st.1 → P (WorkerThread.process_items clock batch st).2.1.
Proof.
  intros Hstep. induction batch as [|item rest IH]; intros st HP; [done|].
  cbn [WorkerThread.process_items].
  assert (HP1 : P (WorkerThread.process_item clock item st).2.1).
  { unfold WorkerThread.process_item.
    destruct (WorkerThread.normalize item) as [p|]; [|done]. simpl.
    destruct (WorkerThread.update_min_price clock p st) as [st'|] eqn:E; [|done].
    destruct st as [idx ticks]. by eapply Hstep. }
  destruct (WorkerThread.process_item clock item st) as [o st1].
  specialize (IH st1 HP1).
  by destruct (WorkerThread.process_items clock rest st1) as [ps st2].
Qed.

Lemma process_response_keeps `{!PyBuiltins} (P : gmap string json → Prop)
    clock data st :
  (∀ p idx ticks st',
     P idx → WorkerThread.update_min_price clock p (idx, ticks) = Ok st' →
     P st'.1) →
  P st.1 → P (WorkerThread.process_response clock data st).1.2.1.
Proof.
  intros Hstep HP. unfold WorkerThread.process_response.
  destruct (WorkerThread.response_items data) as [batch|]; [|done].
  simpl. pose proof (process_items_keeps P clock Hstep batch st HP) as HP'.
  by destruct (WorkerThread.process_items clock batch st).
Qed.

(** X6. Whatever a reply holds, [process_response] removes no name from the
    index; it keeps the index well formed (every record with a numeric
    price) and keeps every record with an [id]. *)
Theorem process_response_keeps_index `{!PyBuiltins} (clock : nat → Q)
    (data : json) (st : gmap string json * nat) :
  let idx' := (WorkerThread.process_response clock data st).1.2.1 in
  (∀ name, is_Some (st.1 !! name) → is_Some (idx' !! name)) ∧
  (index_wf st.1 → index_wf idx') ∧
  (has_ids st.1 → has_ids idx').
Proof.
  simpl. split_and!.
  - intros name Hs.
    apply (process_response_keeps (λ idx, is_Some (idx !! name))); [|done].
    intros p idx ticks st' Hi Hup. by eapply update_min_price_keeps_names.
  - intros Hwf. apply (process_response_keeps index_wf); [|done].
    intros p idx ticks st' Hi Hup. by eapply update_min_price_keeps_wf.
  - intros Hids. apply (process_response_keeps has_ids); [|done].
    intros p idx ticks st' Hi Hup. by eapply has_ids_update.
Qed.

(** ** Further properties: the cache under batches *)

Lemma unmark_lookup ids (cache : gmap string ProductMonitor.card) pid :
  ProductMonitor.unmark ids cache !! pid
  = (λ c, if bool_decide (pid ∈ ids) then ProductMonitor.mark false c else c)
    <$> cache !! pid.
Proof.
  unfold ProductMonitor.unmark. rewrite map_lookup_imap.
  by destruct (cache !! pid).
Qed.

Lemma upsert_all_lookup `{!PyBuiltins} s batch :
  ∀ (cache cache' : gmap string ProductMonitor.card) n n',
  ProductMonitor.upsert_all s cache n batch = (cache', n', None) →
  ∀ pid,
    (pid ∈ p_id <$> batch →
     ∃ c, cache' !! pid = Some c ∧ ProductMonitor.card_fresh c = true) ∧
    (pid ∉ p_id <$> batch → cache' !! pid = cache !! pid).
Proof.
  induction batch as [|p rest IH]; intros cache cache' n n' Hrun pid.
  - injection Hrun as <- _. split.
    + intros Hin. by apply elem_of_nil in Hin.
    + done.
  - cbn [ProductMonitor.upsert_all] in Hrun.
    destruct (ProductMonitor.upsert s cache p) as [[cache1 b]|e] eqn:Hup;
      [|discriminate Hrun].
    assert (Hc1 : ∃ c1, cache1 = <[p_id p := c1]> cache ∧
                        ProductMonitor.card_fresh c1 = true).
    { unfold ProductMonitor.upsert in Hup.
      destruct (cache !! p_id p) as [old|] eqn:E.
      - injection Hup as <- _. by exists (ProductMonitor.mark true old).
      - destruct (ProductMonitor.add_product_card s (product_json p) true)
          as [c|] eqn:Hc; [|done].
        apply add_product_card_made in Hc as ->. injection Hup as <- _.
        by exists (card_of p true). }
    destruct Hc1 as (c1 & -> & Hfresh).
    destruct (IH _ _ _ _ Hrun pid) as (Ha & Hb).
    rewrite fmap_cons. split.
    + intros Hin. destruct (decide (pid ∈ p_id <$> rest)) as [Hr|Hr]; [by apply Ha|].
      apply elem_of_cons in Hin as [->|Hin]; [|done].
      exists c1. rewrite (Hb Hr), lookup_insert_eq. done.
    + intros Hnot. apply not_elem_of_cons in Hnot as [Hne Hr].
      rewrite (Hb Hr). by rewrite lookup_insert_ne.
Qed.

(** The loop loses no card and changes none but for the mark, also when
    it stops at a card that cannot be made. *)
Lemma upsert_all_keeps `{!PyBuiltins} s batch :
  ∀ (cache : gmap string ProductMonitor.card) n pid old,
  cache !! pid = Some old →
  ∃ c, (ProductMonitor.upsert_all s cache n batch).1.1 !! pid = Some c ∧
       (c = old ∨ c = ProductMonitor.mark true old).
Proof.
  induction batch as [|p rest IH]; intros cache n pid old Hold.
  - exists old. auto.
  - cbn [ProductMonitor.upsert_all].
    destruct (ProductMonitor.upsert s cache p) as [[cache1 b]|e] eqn:Hup;
      [|exists old; auto].
    unfold ProductMonitor.upsert in Hup.
    destruct (cache !! p_id p) as [old'|] eqn:E.
    + injection Hup as <- <-.
      destruct (decide (p_id p = pid)) as [Heq|Hne].
      * rewrite Heq in E. rewrite Hold in E. injection E as <-.
        destruct (IH (<[p_id p := ProductMonitor.mark true old]> cache) n pid
                     (ProductMonitor.mark true old))
          as (c & Hc & Hor); [by rewrite Heq, lookup_insert_eq|].
        exists c. split; [done|]. destruct Hor as [-> | ->]; auto.
      * apply IH. by rewrite lookup_insert_ne.
    + destruct (ProductMonitor.add_product_card s (product_json p) true)
        as [c1|]; [|done].
      injection Hup as <- <-. apply IH.
      rewrite lookup_insert_ne; [done|]. intros Heq. by rewrite Heq, Hold in E.
Qed.

(** A batch is taken in by [update_products]: the alert check goes
    through, the user does not ask the alert for the whole list, and
    [setFixedSize] takes the card sizes. *)
Lemma update_products_cache `{!PyBuiltins} st batch alerts :
  batch ≠ [] →
  ProductMonitor.check_price_alerts (ProductMonitor.conf st) batch = Ok alerts →
  ProductMonitor.after_alert alerts = Ok () →
  ProductMonitor.fixed_sizes (ProductMonitor.conf st) = Ok () →
  ∃ k,
    ProductMonitor.upsert_all (ProductMonitor.conf st)
      (ProductMonitor.unmark (ProductMonitor.last_refresh_ids st)
                             (ProductMonitor.product_cache st)) 0 batch
    = (ProductMonitor.product_cache (ProductMonitor.update_products st batch).1,
       k, None) ∧
    ProductMonitor.last_refresh_ids (ProductMonitor.update_products st batch).1
    = list_to_set (p_id <$> batch).
Proof.
  intros Hne Hok Ha Hs. unfold ProductMonitor.update_products.
  destruct batch as [|q rest]; [done|].
  rewrite Hok, Ha.
  destruct (upsert_all_size (ProductMonitor.conf st) (q :: rest) Hs
              (ProductMonitor.unmark (ProductMonitor.last_refresh_ids st)
                                     (ProductMonitor.product_cache st)) 0)
    as (cache' & k & Hrun & _).
  rewrite Hrun. simpl. by exists k.
Qed.

(** X7. Whatever [update_products] does with a batch, no card leaves the
    cache and every card that was there shows what it showed before. After
    a batch that is taken in (the alert check goes through, the user does
    not ask the alert for the whole list, [setFixedSize] takes the card
    sizes), the cards of the batch are in the cache and carry the mark; and
    if before the batch only cards of the previous batch were marked, then
    afterwards the marked cards are exactly those of this batch. *)
Theorem marks_follow_latest_batch `{!PyBuiltins} (st : ProductMonitor.monitor)
    (batch alerts : list product) :
  let st' := (ProductMonitor.update_products st batch).1 in
  (∀ pid old, ProductMonitor.product_cache st !! pid = Some old →
              ∃ c, ProductMonitor.product_cache st' !! pid = Some c ∧
                   same_content old c) ∧
  (batch ≠ [] →
   ProductMonitor.check_price_alerts (ProductMonitor.conf st) batch = Ok alerts →
   ProductMonitor.after_alert alerts = Ok () →
   ProductMonitor.fixed_sizes (ProductMonitor.conf st) = Ok () →
   ProductMonitor.last_refresh_ids st' = list_to_set (p_id <$> batch) ∧
   (∀ pid, pid ∈ p_id <$> batch →
           ∃ c, ProductMonitor.product_cache st' !! pid = Some c ∧
                ProductMonitor.card_fresh c = true) ∧
   (marks_ok st →
    ∀ pid c, ProductMonitor.product_cache st' !! pid = Some c →
             (ProductMonitor.card_fresh c = true
              ↔ pid ∈ ProductMonitor.last_refresh_ids st'))).
Proof.
  simpl. split.
  - intros pid old Hold.
    assert (Hsame : ∃ c, ProductMonitor.product_cache st !! pid = Some c ∧
                         same_content old c) by (by exists old).
    unfold ProductMonitor.update_products.
    destruct batch as [|q rest]; [done|].
    destruct (ProductMonitor.check_price_alerts _ _) as [al|]; [|done].
    destruct (ProductMonitor.after_alert al); [|done].
    destruct (upsert_all_keeps (ProductMonitor.conf st) (q :: rest)
                (ProductMonitor.unmark (ProductMonitor.last_refresh_ids st)
                                       (ProductMonitor.product_cache st)) 0 pid
                (if bool_decide (pid ∈ ProductMonitor.last_refresh_ids st)
                 then ProductMonitor.mark false old else old))
      as (c & Hc & Hor); [by rewrite unmark_lookup, Hold|].
    destruct (ProductMonitor.upsert_all _ _ _ _) as [[cache' k] raised].
    simpl in Hc.
    assert (Hgoal : ∃ c, cache' !! pid = Some c ∧ same_content old c).
    { exists c. split; [done|]. destruct Hor as [-> | ->]; by case_bool_decide. }
    by destruct raised.
  - intros Hne Hok Ha Hs.
    destruct (update_products_cache st batch alerts Hne Hok Ha Hs)
      as (k & Hrun & Hids).
    pose proof (upsert_all_lookup _ batch _ _ _ _ Hrun) as Hlook.
    split; [exact Hids|]. split.
    + intros pid Hin. by apply (Hlook pid).
    + intros Hmarks pid c Hc. rewrite Hids, elem_of_list_to_set.
      destruct (Hlook pid) as (Hin & Hout). split.
      * intros Hfresh. destruct (decide (pid ∈ p_id <$> batch)) as [|Hnot]; [done|].
        exfalso. rewrite (Hout Hnot), unmark_lookup in Hc.
        destruct (ProductMonitor.product_cache st !! pid) as [c0|] eqn:E; [|done].
        injection Hc as <-. case_bool_decide as Hold; [done|].
        apply Hold. by eapply Hmarks.
      * intros Hin'. destruct (Hin Hin') as (c' & Hc' & Hfresh). congruence.
Qed.

Lemma marks_follow_latest_batch_witness :
  ProductMonitor.last_refresh_ids
    (@ProductMonitor.update_products plain_builtins sample_window
       [sample "2" "B" 100]).1
  = list_to_set ["2"].
Proof.
  destruct (@marks_follow_latest_batch plain_builtins sample_window
              [sample "2" "B" 100] []) as [_ Hin].
  destruct Hin as [Hids _]; [discriminate|reflexivity|reflexivity|reflexivity|].
  exact Hids.
Defined.

Lemma cache_wf_unmark ids cache : cache_wf cache → cache_wf (ProductMonitor.unmark ids cache).
Proof.
  intros Hwf pid c. rewrite unmark_lookup.
  destruct (cache !! pid) as [c0|] eqn:E; [|done]. intros [= <-].
  specialize (Hwf pid c0 E). by case_bool_decide.
Qed.

Lemma cache_wf_upsert_all `{!PyBuiltins} s batch :
  Forall (λ p, p_detail_url p = items_url (p_id p)) batch →
  ∀ cache n, cache_wf cache →
             cache_wf (ProductMonitor.upsert_all s cache n batch).1.1.
Proof.
  induction 1 as [|p rest Hp _ IH]; intros cache n Hwf; [done|].
  cbn [ProductMonitor.upsert_all].
  destruct (ProductMonitor.upsert s cache p) as [[cache1 b]|] eqn:E; [|done].
  apply IH. by eapply cache_wf_upsert.
Qed.

Lemma process_items_products `{!PyBuiltins} clock batch : ∀ st,
  Forall (λ p, p_detail_url p = items_url (p_id p))
         (WorkerThread.process_items clock batch st).1.
Proof.
  induction batch as [|item rest IH]; intros st; [by constructor|].
  cbn [WorkerThread.process_items].
  assert (Ho : ∀ p, (WorkerThread.process_item clock item st).1 = Some p →
                    p_detail_url p = items_url (p_id p)).
  { intros p. unfold WorkerThread.process_item.
    destruct (WorkerThread.normalize item) as [p0|] eqn:E; [|done]. simpl.
    destruct (WorkerThread.update_min_price clock p0 st); [|done].
    intros [= <-]. by apply (normalize_shape item). }
  destruct (WorkerThread.process_item clock item st) as [o st1].
  specialize (IH st1).
  destruct (WorkerThread.process_items clock rest st1) as [ps st2].
  destruct o as [p|]; simpl in *; [|done].
  constructor; [by apply Ho|done].
Qed.

(** X8. The cache stays as the program builds it: when every card is named
    after its id, links to the page of its id and shows a price of two
    decimals, the same holds after [update_products] has taken the products
    of any reply. The cache a start loads, whatever the directory holds,
    has no marked card. *)
Theorem cache_stays_well_formed `{!PyBuiltins} (st : ProductMonitor.monitor)
    (clock : nat → Q) (data : json) (idx : gmap string json * nat)
    (cj : json) (d : gmap string ProductMonitor.file) :
  (cache_wf (ProductMonitor.product_cache st) →
   cache_wf (ProductMonitor.product_cache
               (ProductMonitor.update_products st
                  (WorkerThread.process_response clock data idx).1.1).1)) ∧
  (∀ s f pid c, ProductMonitor.load_product_cache s f ∅ !! pid = Some c →
                ProductMonitor.card_fresh c = false) ∧
  (∀ st0, ProductMonitor.init cj d = Ok st0 → marks_ok st0).
Proof.
  assert (Hload : ∀ s f pid c,
    ProductMonitor.load_product_cache s f ∅ !! pid = Some c →
    ProductMonitor.card_fresh c = false).
  { intros s f pid c Hc.
    unfold ProductMonitor.load_product_cache in Hc.
    destruct f as [[|doc]|]; [done| |done].
    destruct (ProductMonitor.read_product_cache _ doc) as [cards|] eqn:Hread; [|done].
    rewrite (right_id ∅ (∪)) in Hc.
    unfold ProductMonitor.read_product_cache in Hread.
    destruct (ProductMonitor.items doc) as [m|]; [|done]. simpl in Hread.
    unfold ProductMonitor.for_items in Hread.
    destruct (ProductMonitor.first_raise _ m); [done|]. injection Hread as <-.
    rewrite map_lookup_imap in Hc.
    destruct (m !! pid) as [v|]; [|done]. simpl in Hc.
    destruct (ProductMonitor.add_product_card _ v false) as [c0|] eqn:Hadd; [|done].
    injection Hc as <-. unfold ProductMonitor.add_product_card in Hadd.
    bind_inv Hadd. injection Hadd as <-. done. }
  split_and!.
  - intros Hwf.
    assert (Hps : Forall (λ p, p_detail_url p = items_url (p_id p))
                         (WorkerThread.process_response clock data idx).1.1).
    { unfold WorkerThread.process_response.
      destruct (WorkerThread.response_items data) as [batch|]; [|by constructor].
      simpl. apply process_items_products. }
    revert Hps. generalize (WorkerThread.process_response clock data idx).1.1.
    intros batch Hps. unfold ProductMonitor.update_products.
    destruct batch as [|q rest]; [done|].
    destruct (ProductMonitor.check_price_alerts _ _) as [alerts|]; [|done].
    destruct (ProductMonitor.after_alert alerts); [|done].
    pose proof (cache_wf_upsert_all (ProductMonitor.conf st) (q :: rest) Hps
      (ProductMonitor.unmark (ProductMonitor.last_refresh_ids st)
                             (ProductMonitor.product_cache st)) 0
      (cache_wf_unmark _ _ Hwf)) as Hwf'.
    destruct (ProductMonitor.upsert_all _ _ _ _) as [[cache' k] raised].
    by destruct raised.
  - exact Hload.
  - intros st0 Hinit pid c Hc Hfresh.
    destruct (init_inv _ _ _ Hinit) as (_ & Hcache & _).
    rewrite Hcache in Hc. apply Hload in Hc. by rewrite Hc in Hfresh.
Qed.

(** X9. With the alert switched on and a threshold that is not a number
    (a string read from the settings file, say), [update_products] gives
    every batch up at the alert check: the cache, the marks and the counts
    stay as they were, nothing is shown or written, and the buttons are
    enabled. *)
Theorem bad_threshold_blocks_batches `{!PyBuiltins} (st : ProductMonitor.monitor)
    (batch : list product) :
  truthy (ProductMonitor.price_alert_enabled (ProductMonitor.conf st)) = true →
  as_number (ProductMonitor.price_alert_threshold (ProductMonitor.conf st)) = None →
  batch ≠ [] →
  ProductMonitor.check_price_alerts (ProductMonitor.conf st) batch
  = Raise TypeError ∧
  ProductMonitor.update_products st batch = (ProductMonitor.set_buttons st true, []).
Proof.
  intros Hen Hthr Hne.
  assert (Hc : ProductMonitor.check_price_alerts (ProductMonitor.conf st) batch
               = Raise TypeError).
  { unfold ProductMonitor.check_price_alerts, le_zero. by rewrite Hen, Hthr. }
  split; [exact Hc|]. unfold ProductMonitor.update_products.
  destruct batch as [|q rest]; [done|]. by rewrite Hc.
Qed.

Lemma bad_threshold_blocks_batches_witness :
  let st := ProductMonitor.set_conf sample_window
    {| ProductMonitor.columns_count := JInt 8;
       ProductMonitor.sidebar_columns_count := JInt 3;
       ProductMonitor.api_cooldown := JInt 2000;
       ProductMonitor.card_width := JInt 150;
       ProductMonitor.card_height := JInt 180;
       ProductMonitor.price_alert_threshold := JStr "5";
       ProductMonitor.price_alert_enabled := JBool true |} in
  @ProductMonitor.update_products plain_builtins st [sample "2" "B" 100]
  = (ProductMonitor.set_buttons st true, []).
Proof.
  intros st.
  apply (@bad_threshold_blocks_batches plain_builtins st [sample "2" "B" 100]);
    [reflexivity|reflexivity|discriminate].
Defined.

(** X10. A batch that [update_products] takes in is written to the cache
    file at once, after the alert (if any product is at or below the
    threshold); the index file is written before it exactly when the index
    is not empty; nothing else is written. When the user asks the alert
    for the whole list the method ends there: the alert was shown, nothing
    is written, and the window is as it was but for the buttons. *)
Theorem batch_is_saved_at_once `{!PyBuiltins} (st : ProductMonitor.monitor)
    (batch alerts : list product) :
  batch ≠ [] →
  ProductMonitor.check_price_alerts (ProductMonitor.conf st) batch = Ok alerts →
  let r := ProductMonitor.update_products st batch in
  let shown := match alerts with
               | [] => []
               | _ :: _ => [ProductMonitor.show_price_alert alerts]
               end in
  match ProductMonitor.after_alert alerts with
  | Ok _ =>
      ProductMonitor.fixed_sizes (ProductMonitor.conf st) = Ok () →
      (ProductMonitor.min_price_products st = ∅ →
       r.2 = shown ++ [ProductMonitor.save_product_cache r.1]) ∧
      (ProductMonitor.min_price_products st ≠ ∅ →
       r.2 = shown ++ [ProductMonitor.save_min_price_products r.1;
                       ProductMonitor.save_product_cache r.1])
  | Raise _ => r = (ProductMonitor.set_buttons st true, shown)
  end ∧
  ProductMonitor.save_min_price_products r.1
  = ProductMonitor.write_file "min_price_history.json"
      (JObj (ProductMonitor.min_price_products st)).
Proof.
  intros Hne Hc. unfold ProductMonitor.update_products.
  destruct batch as [|q rest]; [done|]. rewrite Hc.
  destruct (ProductMonitor.after_alert alerts) as [[]|e] eqn:Ha; [|done].
  split.
  - intros Hs.
    destruct (upsert_all_size (ProductMonitor.conf st) (q :: rest) Hs
                (ProductMonitor.unmark (ProductMonitor.last_refresh_ids st)
                                       (ProductMonitor.product_cache st)) 0)
      as (cache' & k & Hrun & _).
    rewrite Hrun. simpl. split.
    + intros ->. by rewrite map_to_list_empty.
    + intros Hidx.
      destruct (map_to_list (ProductMonitor.min_price_products st)) eqn:E; [|done].
      by apply map_to_list_empty_iff in E.
  - destruct (ProductMonitor.upsert_all _ _ _ _) as [[cache' k] raised].
    by destruct raised.
Qed.

Lemma batch_is_saved_at_once_witness :
  (@ProductMonitor.update_products plain_builtins sample_window
     [sample "2" "B" 100]).2
  = [ProductMonitor.save_min_price_products
       (@ProductMonitor.update_products plain_builtins sample_window
          [sample "2" "B" 100]).1;
     ProductMonitor.save_product_cache
       (@ProductMonitor.update_products plain_builtins sample_window
          [sample "2" "B" 100]).1].
Proof.
  destruct (@batch_is_saved_at_once plain_builtins sample_window
              [sample "2" "B" 100] []) as (Hsaved & _);
    [discriminate|reflexivity|].
  destruct Hsaved as (_ & Hfull); [reflexivity|].
  apply Hfull. intros Hempty.
  apply (f_equal (λ m : gmap string json, size m)) in Hempty.
  vm_compute in Hempty. discriminate Hempty.
Defined.

(** ** Further properties: the stores *)

Lemma for_items_lookup {A} (f : string → json → result A) m r k a :
  ProductMonitor.for_items f m = Ok r → r !! k = Some a →
  ∃ v, m !! k = Some v ∧ f k v = Ok a.
Proof.
  unfold ProductMonitor.for_items.
  destruct (ProductMonitor.first_raise f m); [done|]. intros [= <-].
  rewrite map_lookup_imap. destruct (m !! k) as [v|]; [|done]. simpl.
  destruct (f k v) as [a'|] eqn:E; [|done]. intros [= <-]. eauto.
Qed.

Lemma ensure_id_has_id name v v' :
  ProductMonitor.ensure_id name v = Ok v' → contains "id" v' = Ok true.
Proof.
  unfold ProductMonitor.ensure_id.
  destruct (contains "id" v) as [[|]|] eqn:E; simpl; [by intros [= <-]| |done].
  destruct v; simpl; try done. intros [= <-]. simpl.
  by rewrite lookup_insert_eq.
Qed.

Lemma read_index_has_ids doc idx :
  ProductMonitor.read_min_price_products doc = Ok idx → has_ids idx.
Proof.
  unfold ProductMonitor.read_min_price_products.
  destruct (ProductMonitor.items doc) as [m|]; [|done]. simpl.
  intros Hfor k v' Hk.
  destruct (for_items_lookup _ _ _ _ _ Hfor Hk) as (v & _ & Hen).
  by eapply ensure_id_has_id.
Qed.

Lemma load_index_has_ids f :
  has_ids (ProductMonitor.load_min_price_products f ∅).
Proof.
  unfold ProductMonitor.load_min_price_products.
  destruct f as [[|doc]|]; [apply has_ids_empty| |apply has_ids_empty].
  destruct (ProductMonitor.read_min_price_products doc) as [idx|] eqn:E;
    [by eapply read_index_has_ids|apply has_ids_empty].
Qed.

(** X11. Whatever the directory holds, every record of the index the
    program starts with has an [id]: [load_min_price_products] never leaves
    a record without one, whatever the index file holds. *)
Theorem loaded_index_has_ids `{!PyBuiltins} (cj : json)
    (d : gmap string ProductMonitor.file) (f : option ProductMonitor.file) :
  has_ids (ProductMonitor.load_min_price_products f ∅) ∧
  (∀ st, ProductMonitor.init cj d = Ok st →
         has_ids (ProductMonitor.min_price_products st)).
Proof.
  split; [apply load_index_has_ids|].
  intros st Hinit. destruct (init_inv _ _ _ Hinit) as (_ & _ & -> & _).
  apply load_index_has_ids.
Qed.

Lemma loaded_index_has_ids_witness :
  let d : gmap string ProductMonitor.file :=
    {[ "min_price_history.json" :=
         ProductMonitor.stored
           (JObj {[ "A B" := JObj {[ "price" := JFloat 1 ]} ]}) ]} in
  (λ st, r ← ProductMonitor.min_price_products st !! "A B"; Some (contains "id" r))
    <$> @ProductMonitor.init plain_builtins (JObj ∅) d
  = Ok (Some (Ok true)).
Proof.
  intros d.
  destruct (@ProductMonitor.init plain_builtins (JObj ∅) d)
    as [st|e] eqn:Hinit; [|vm_compute in Hinit; discriminate Hinit].
  destruct (@loaded_index_has_ids plain_builtins (JObj ∅) d None) as [_ Hids].
  specialize (Hids st Hinit). unfold fmap, result_fmap. f_equal.
  destruct (ProductMonitor.min_price_products st !! "A B") as [r|] eqn:Hr.
  - simpl. f_equal. apply (Hids "A B" r Hr).
  - exfalso. apply (f_equal (fmap (λ st, ProductMonitor.min_price_products st !! "A B")))
      in Hinit. unfold fmap at 2, result_fmap in Hinit. rewrite Hr in Hinit.
    vm_compute in Hinit. discriminate Hinit.
Defined.

Lemma reloaded_idem pid c : reloaded pid (reloaded pid c) = reloaded pid c.
Proof. unfold reloaded. simpl. by rewrite two_decimals_idem. Qed.

Lemma init_after_save `{!PyBuiltins} st cj d st' :
  ProductMonitor.init cj (save st d) = Ok st' →
  ProductMonitor.product_cache st'
  = match ProductMonitor.fixed_sizes (ProductMonitor.conf st) with
    | Ok _ => map_imap (λ pid c, Some (reloaded pid c))
                       (ProductMonitor.product_cache st)
    | Raise _ => ∅
    end ∧
  ProductMonitor.conf st' = ProductMonitor.conf st ∧
  (has_ids (ProductMonitor.min_price_products st) →
   ProductMonitor.min_price_products st' = ProductMonitor.min_price_products st).
Proof.
  intros Hinit.
  destruct (init_inv _ _ _ Hinit) as (Hconf & Hcache & Hidx & _).
  destruct (save_files st d) as (Hs & Hc & Hi).
  assert (Hconf' : ProductMonitor.conf st' = ProductMonitor.conf st).
  { rewrite Hconf, Hs. unfold ProductMonitor.load_settings.
    by rewrite (read_saved_settings st). }
  split_and!.
  - rewrite Hcache, Hconf'.
    destruct (ProductMonitor.fixed_sizes (ProductMonitor.conf st)) as [[]|e] eqn:Hsz.
    + rewrite Hc. unfold ProductMonitor.load_product_cache.
      rewrite (read_saved_cache _ _ Hsz). apply (right_id ∅ (∪)).
    + by eapply load_product_cache_refused.
  - exact Hconf'.
  - intros Hids. rewrite Hidx, Hi. unfold ProductMonitor.load_min_price_products.
    by rewrite read_saved_index.
Qed.

(** X12. What one restart leaves, further restarts keep: after
    [closeEvent] and a new start, a second [closeEvent] and start give the
    same cache, the same index and the same settings, from any state and
    whatever else the directories hold; and with the same cookies the
    second start goes through as the first did. *)
Theorem second_restart_changes_nothing `{!PyBuiltins}
    (st st1 : ProductMonitor.monitor) (cj cj' : json)
    (d d' : gmap string ProductMonitor.file) :
  ProductMonitor.init cj (save st d) = Ok st1 →
  is_ok (ProductMonitor.init cj (save st1 d')) = true ∧
  ∀ st2, ProductMonitor.init cj' (save st1 d') = Ok st2 →
    ProductMonitor.product_cache st2 = ProductMonitor.product_cache st1 ∧
    ProductMonitor.min_price_products st2 = ProductMonitor.min_price_products st1 ∧
    ProductMonitor.conf st2 = ProductMonitor.conf st1.
Proof.
  intros Hinit1.
  destruct (init_after_save st cj d st1 Hinit1) as (Hc1 & Hs1 & _).
  split.
  - rewrite (init_same_settings cj (save st d) (save st1 d')); [by rewrite Hinit1|].
    destruct (save_files st1 d') as (-> & _).
    destruct (save_files st d) as (-> & _).
    unfold ProductMonitor.save_settings. by rewrite Hs1.
  - intros st2 Hinit2.
    destruct (init_after_save st1 cj' d' st2 Hinit2) as (Hc2 & Hs2 & Hi2).
    split_and!.
    + rewrite Hc2, Hc1, Hs1.
      destruct (ProductMonitor.fixed_sizes (ProductMonitor.conf st)); [|done].
      rewrite map_imap_compose.
      apply map_imap_ext. intros pid.
      destruct (ProductMonitor.product_cache st !! pid); [|done]. simpl.
      by rewrite reloaded_idem.
    + apply Hi2. destruct (init_inv _ _ _ Hinit1) as (_ & _ & -> & _).
      apply load_index_has_ids.
    + exact Hs2.
Qed.

Lemma second_restart_changes_nothing_witness :
  ∃ st1, @ProductMonitor.init plain_builtins (JObj ∅) (save sample_window ∅)
         = Ok st1 ∧
         ProductMonitor.product_cache
           <$> @ProductMonitor.init plain_builtins (JObj ∅) (save st1 ∅)
         = Ok (ProductMonitor.product_cache st1).
Proof.
  destruct (@ProductMonitor.init plain_builtins (JObj ∅) (save sample_window ∅))
    as [st1|e] eqn:Hinit1; [|vm_compute in Hinit1; discriminate Hinit1].
  exists st1. split; [reflexivity|].
  destruct (@second_restart_changes_nothing plain_builtins sample_window st1
              (JObj ∅) (JObj ∅) ∅ ∅ Hinit1) as [Hok Hsame].
  destruct (@ProductMonitor.init plain_builtins (JObj ∅) (save st1 ∅))
    as [st2|e]; [|discriminate Hok].
  destruct (Hsame st2 eq_refl) as (Hc & _).
  unfold fmap, result_fmap. by rewrite Hc.
Defined.

(** X13. The stores are read all or nothing: one entry of the cache file
    on which [add_product_card] raises, or one record of the index file on
    which the check for an [id] raises, leaves the whole store empty, the
    entries that read well included. *)
Theorem one_bad_entry_empties_store `{!PyBuiltins} (m : gmap string json)
    (k : string) (v : json) (e : exn) (s : ProductMonitor.settings)
    (cache : gmap string ProductMonitor.card) (idx : gmap string json) :
  m !! k = Some v →
  (ProductMonitor.add_product_card s v false = Raise e →
   ProductMonitor.load_product_cache s
     (Some (ProductMonitor.stored (JObj m))) cache
   = ∅) ∧
  (ProductMonitor.ensure_id k v = Raise e →
   ProductMonitor.load_min_price_products
     (Some (ProductMonitor.stored (JObj m))) idx = ∅).
Proof.
  intros Hk. split; intros Hraise.
  - unfold ProductMonitor.load_product_cache, ProductMonitor.read_product_cache.
    simpl. unfold ProductMonitor.for_items.
    by destruct (first_raise_some
                   (λ _ data, ProductMonitor.add_product_card s data false)
                   m k v e Hk Hraise) as [e' ->].
  - unfold ProductMonitor.load_min_price_products,
      ProductMonitor.read_min_price_products.
    simpl. unfold ProductMonitor.for_items.
    by destruct (first_raise_some ProductMonitor.ensure_id m k v e Hk Hraise)
      as [e' ->].
Qed.

Lemma one_bad_entry_empties_store_witness :
  let good := ProductMonitor.cache_entry "1" (card_of (sample "1" "A" 1000) false) in
  let m : gmap string json := <["2" := JInt 5]> {[ "1" := good ]} in
  is_ok (@ProductMonitor.add_product_card plain_builtins
           ProductMonitor.default_settings good false) = true ∧
  @ProductMonitor.load_product_cache plain_builtins
    ProductMonitor.default_settings
    (Some (ProductMonitor.stored (JObj m))) ∅ = ∅.
Proof.
  intros good m. split; [reflexivity|].
  apply (@one_bad_entry_empties_store plain_builtins m "2" (JInt 5) TypeError
           ProductMonitor.default_settings ∅ ∅);
    reflexivity.
Defined.

(** ** Further properties: the countdown and the pause *)

Lemma countdown_step st :
  ProductMonitor.is_paused st = false →
  (0 <= ProductMonitor.remaining_time st <= ProductMonitor.refresh_interval st)%Z →
  let st' := ProductMonitor.update_countdown true st in
  ProductMonitor.is_paused st' = false ∧
  ProductMonitor.refresh_interval st' = ProductMonitor.refresh_interval st ∧
  ProductMonitor.remaining_time st'
  = ((ProductMonitor.remaining_time st - 1)
     mod (ProductMonitor.refresh_interval st + 1))%Z.
Proof.
  intros Hp Hr. unfold ProductMonitor.update_countdown. rewrite Hp. simpl.
  split; [done|]. split; [done|].
  destruct (ProductMonitor.remaining_time st - 1 <? 0)%Z eqn:E.
  - apply Z.ltb_lt in E.
    assert (Hz : ProductMonitor.remaining_time st = 0%Z) by lia.
    rewrite Hz. simpl.
    apply (Z.mod_unique _ _ (-1)); lia.
  - apply Z.ltb_ge in E. symmetry. apply Z.mod_small. lia.
Qed.

(** X14. While the refresh timer runs and the window is not paused, the
    countdown goes down by one each second and starts again from the
    interval after it has reached zero: from a value between 0 and the
    interval, [n] ticks leave [(remaining - n) mod (interval + 1)], a value
    in the same range. Paused, or with the timer stopped, a tick changes
    nothing. *)
Theorem countdown_wraps_at_interval (st : ProductMonitor.monitor) (n : nat) :
  (ProductMonitor.is_paused st = false →
   (0 <= ProductMonitor.remaining_time st <= ProductMonitor.refresh_interval st)%Z →
   let st' := Nat.iter n (ProductMonitor.update_countdown true) st in
   ProductMonitor.remaining_time st'
   = ((ProductMonitor.remaining_time st - Z.of_nat n)
      mod (ProductMonitor.refresh_interval st + 1))%Z ∧
   (0 <= ProductMonitor.remaining_time st'
      <= ProductMonitor.refresh_interval st)%Z ∧
   ProductMonitor.refresh_interval st' = ProductMonitor.refresh_interval st) ∧
  (ProductMonitor.is_paused st = true →
   ProductMonitor.update_countdown true st = st) ∧
  ProductMonitor.update_countdown false st = st.
Proof.
  split; [|split].
  - intros Hp Hr.
    assert (Hiter : let st' := Nat.iter n (ProductMonitor.update_countdown true) st in
      ProductMonitor.is_paused st' = false ∧
      ProductMonitor.refresh_interval st' = ProductMonitor.refresh_interval st ∧
      ProductMonitor.remaining_time st'
      = ((ProductMonitor.remaining_time st - Z.of_nat n)
         mod (ProductMonitor.refresh_interval st + 1))%Z).
    { induction n as [|n IH].
      - simpl. split; [done|]. split; [done|].
        rewrite Z.sub_0_r. symmetry. apply Z.mod_small. lia.
      - cbn [Nat.iter]. destruct IH as (Hp' & Hi' & Hr').
        destruct (countdown_step _ Hp') as (Hp'' & Hi'' & Hr'').
        { rewrite Hi', Hr'.
          pose proof (Z.mod_pos_bound
            (ProductMonitor.remaining_time st - Z.of_nat n)
            (ProductMonitor.refresh_interval st + 1)). lia. }
        simpl. split; [done|]. split; [by rewrite Hi''|].
        rewrite Hr'', Hi', Hr'. rewrite Zminus_mod_idemp_l. f_equal. lia. }
    destruct Hiter as (_ & Hi & Hrem). simpl. split; [exact Hrem|].
    split; [|exact Hi]. rewrite Hrem.
    pose proof (Z.mod_pos_bound
      (ProductMonitor.remaining_time st - Z.of_nat n)
      (ProductMonitor.refresh_interval st + 1)). lia.
  - intros Hp. unfold ProductMonitor.update_countdown. by rewrite Hp.
  - unfold ProductMonitor.update_countdown. by rewrite andb_false_r.
Qed.

Lemma countdown_wraps_at_interval_witness :
  ProductMonitor.remaining_time
    (Nat.iter 7 (ProductMonitor.update_countdown true)
       (ProductMonitor.set_schedule sample_window 5 5 false))
  = 4%Z.
Proof.
  destruct (countdown_wraps_at_interval
              (ProductMonitor.set_schedule sample_window 5 5 false) 7)
    as [Hrun _].
  destruct Hrun as (Hrem & _); [reflexivity|simpl; lia|].
  exact Hrem.
Defined.

(** X15. After [toggle_pause] the refresh timer runs exactly when the
    window is not paused; a second toggle gives the pause flag back and,
    on resuming, the countdown starts from the interval. While the window
    is paused a refresh coming from the timer returns at once, also after
    [update_refresh_interval] has started the timer again, and the
    countdown does not move; a refresh from the button still goes
    ahead. *)
Theorem pause_stops_automatic_refresh (st : ProductMonitor.monitor)
    (w : WorkerThread.worker) (value : Z) (timer_active : bool) :
  let p1 := ProductMonitor.toggle_pause st in
  let p2 := ProductMonitor.toggle_pause p1.1 in
  p1.2 = negb (ProductMonitor.is_paused p1.1) ∧
  ProductMonitor.is_paused p1.1 = negb (ProductMonitor.is_paused st) ∧
  ProductMonitor.is_paused p2.1 = ProductMonitor.is_paused st ∧
  (ProductMonitor.is_paused st = true →
   ProductMonitor.remaining_time p1.1 = ProductMonitor.refresh_interval st) ∧
  (ProductMonitor.is_paused st = true →
   let q := ProductMonitor.update_refresh_interval value st in
   q.2 = true ∧ ProductMonitor.is_paused q.1 = true ∧
   ProductMonitor.refresh_interval q.1 = value ∧
   ProductMonitor.refresh_data true (app_of q.1 w) = None ∧
   ProductMonitor.refresh_data true (app_of st w) = None ∧
   ProductMonitor.update_countdown timer_active q.1 = q.1 ∧
   ∃ a', ProductMonitor.refresh_data false (app_of st w) = Some a' ∧
         ProductMonitor.worker_thread a' = WorkerThread.refresh_data w).
Proof.
  unfold ProductMonitor.toggle_pause.
  destruct (ProductMonitor.is_paused st) eqn:Hp; simpl; rewrite ?Hp; simpl.
  - split_and!; try done. intros _.
    unfold ProductMonitor.refresh_data, ProductMonitor.update_countdown. simpl.
    rewrite Hp. simpl. split_and!; try done. eauto.
  - split_and!; done.
Qed.

(** ** Further properties: settings, clearing and the cookie *)

(** X16. A cooldown or a column count changed in the window is saved at
    once: after the write the next start reads the settings of the window,
    with the cooldown in milliseconds (the seconds of the spin box times
    1000), and that cooldown is the delay of the next automatic load. The
    other settings, the cache and the index are not touched. *)
Theorem changed_setting_is_saved `{!PyBuiltins} (value : Z)
    (st : ProductMonitor.monitor) (cj : json)
    (d : gmap string ProductMonitor.file) :
  let r := ProductMonitor.update_cooldown value st in
  let c := ProductMonitor.update_columns value st in
  ProductMonitor.api_cooldown (ProductMonitor.conf r.1) = JInt (value * 1000) ∧
  ProductMonitor.auto_load_more r.1
  = [ProductMonitor.single_shot (JInt (value * 1000))] ∧
  ProductMonitor.load_settings (perform_all [] r.2 d !! "settings.json")
                               ProductMonitor.default_settings
  = ProductMonitor.conf r.1 ∧
  (∀ st', ProductMonitor.init cj (perform_all [] r.2 d) = Ok st' →
          ProductMonitor.conf st' = ProductMonitor.conf r.1) ∧
  ProductMonitor.columns_count (ProductMonitor.conf c.1) = JInt value ∧
  ProductMonitor.load_settings (perform_all [] c.2 d !! "settings.json")
                               ProductMonitor.default_settings
  = ProductMonitor.conf c.1 ∧
  (∀ st', ProductMonitor.init cj (perform_all [] c.2 d) = Ok st' →
          ProductMonitor.conf st' = ProductMonitor.conf c.1) ∧
  ProductMonitor.columns_count (ProductMonitor.conf r.1)
  = ProductMonitor.columns_count (ProductMonitor.conf st) ∧
  ProductMonitor.price_alert_threshold (ProductMonitor.conf r.1)
  = ProductMonitor.price_alert_threshold (ProductMonitor.conf st) ∧
  ProductMonitor.price_alert_enabled (ProductMonitor.conf r.1)
  = ProductMonitor.price_alert_enabled (ProductMonitor.conf st) ∧
  ProductMonitor.product_cache r.1 = ProductMonitor.product_cache st ∧
  ProductMonitor.min_price_products r.1 = ProductMonitor.min_price_products st.
Proof.
  simpl. split_and!; try done.
  - by rewrite lookup_insert_eq.
  - intros st' Hinit. destruct (init_inv _ _ _ Hinit) as (-> & _).
    by rewrite lookup_insert_eq.
  - by rewrite lookup_insert_eq.
  - intros st' Hinit. destruct (init_inv _ _ _ Hinit) as (-> & _).
    by rewrite lookup_insert_eq.
Qed.

(** X17. Clearing the lowest-price history, once confirmed, empties the
    index and writes the empty index at once: the next start has an empty
    index. Clearing the product list, once confirmed, empties the cache
    and sets the count to zero but leaves the index and the set of latest
    ids alone; it is the next [closeEvent] that makes the next start begin
    with an empty cache. Unconfirmed, both leave the window as it was. *)
Theorem clearing_history `{!PyBuiltins} (st : ProductMonitor.monitor)
    (cj : json) (d : gmap string ProductMonitor.file) :
  let r := ProductMonitor.clear_min_price_history true st in
  let c := ProductMonitor.clear_product_history true st in
  ProductMonitor.min_price_products r.1 = ∅ ∧
  ProductMonitor.product_cache r.1 = ProductMonitor.product_cache st ∧
  ProductMonitor.load_min_price_products
    (perform_all [] r.2 d !! "min_price_history.json") ∅ = ∅ ∧
  is_ok (ProductMonitor.init cj (perform_all [] r.2 d))
  = is_ok (ProductMonitor.init cj d) ∧
  (∀ st', ProductMonitor.init cj (perform_all [] r.2 d) = Ok st' →
          ProductMonitor.min_price_products st' = ∅) ∧
  ProductMonitor.product_cache c = ∅ ∧
  ProductMonitor.total_products_count c = 0 ∧
  ProductMonitor.min_price_products c = ProductMonitor.min_price_products st ∧
  ProductMonitor.last_refresh_ids c = ProductMonitor.last_refresh_ids st ∧
  (∀ s, ProductMonitor.load_product_cache s
          (save c d !! "product_cache.json") ∅ = ∅) ∧
  (∀ st', ProductMonitor.init cj (save c d) = Ok st' →
          ProductMonitor.product_cache st' = ∅) ∧
  ProductMonitor.clear_min_price_history false st = (st, []) ∧
  ProductMonitor.clear_product_history false st = st.
Proof.
  assert (Hcleared : ∀ s,
    ProductMonitor.load_product_cache s
      (save (ProductMonitor.clear_product_history true st) d
         !! "product_cache.json") ∅ = ∅).
  { intros s.
    destruct (save_files (ProductMonitor.clear_product_history true st) d)
      as (_ & -> & _).
    simpl. rewrite map_imap_empty.
    unfold ProductMonitor.load_product_cache, ProductMonitor.read_product_cache.
    simpl. unfold ProductMonitor.for_items, ProductMonitor.first_raise.
    rewrite map_to_list_empty. simpl. rewrite map_imap_empty.
    apply (right_id ∅ (∪)). }
  simpl. split_and!; try done.
  - rewrite lookup_insert_eq. unfold ProductMonitor.load_min_price_products.
    by rewrite (read_saved_index ∅ has_ids_empty).
  - apply init_same_settings. by rewrite lookup_insert_ne.
  - intros st' Hinit. destruct (init_inv _ _ _ Hinit) as (_ & _ & -> & _).
    rewrite lookup_insert_eq. unfold ProductMonitor.load_min_price_products.
    by rewrite (read_saved_index ∅ has_ids_empty).
  - intros st' Hinit. destruct (init_inv _ _ _ Hinit) as (_ & -> & _).
    apply Hcleared.
Qed.

(** X18. The cookie saved from the window is the [Cookie] header of every
    request after the next start; with no cookies file, or one that is not
    JSON, the header is the empty string. [load_cookies] lets through every
    other failure of reading the file. *)
Theorem saved_cookie_is_sent `{!PyBuiltins} (cookie_value : string)
    (post : WorkerThread.request → WorkerThread.response) (clock : nat → Q)
    (idx : gmap string json) (ticks : nat) (w : WorkerThread.worker) (e : exn) :
  (∃ doc jar,
     ProductMonitor.save_cookie cookie_value
     = ProductMonitor.write_file "cookies.json" doc ∧
     ProductMonitor.load_cookies (ProductMonitor.decoded doc) = Ok jar ∧
     WorkerThread.out_requests (WorkerThread.run post clock jar idx ticks w)
     = [request_of (JStr cookie_value) w]) ∧
  (∀ r jar, r = ProductMonitor.file_not_found ∨ r = ProductMonitor.json_decode_error →
            ProductMonitor.load_cookies r = Ok jar →
            WorkerThread.out_requests (WorkerThread.run post clock jar idx ticks w)
            = [request_of (JStr "") w]) ∧
  ProductMonitor.load_cookies (ProductMonitor.other_error e) = Raise e.
Proof.
  split_and!.
  - eexists _, _. split; [reflexivity|]. split; [reflexivity|].
    by apply run_request.
  - intros r jar [-> | ->] [= <-]; by apply run_request.
  - done.
Qed.

(** X19. Switching the alert off keeps the threshold and silences the
    check for every batch. Switching it on with an accepted value sets the
    threshold to that value, and the check then collects the products at
    or below it, or none when the value is 0 (which the dialog allows).
    A cancelled dialog leaves the alert off and the threshold as it was.
    The cache and the index are not touched, and nothing is written. *)
Theorem toggle_price_alert_sets_check (answer : Q * bool)
    (st : ProductMonitor.monitor) (batch : list product) :
  let r := ProductMonitor.toggle_price_alert answer st in
  let c := ProductMonitor.conf st in
  let c' := ProductMonitor.conf r.1 in
  (truthy (ProductMonitor.price_alert_enabled c) = true →
   ProductMonitor.price_alert_enabled c' = JBool false ∧
   ProductMonitor.price_alert_threshold c' = ProductMonitor.price_alert_threshold c ∧
   r.2 = None ∧
   ProductMonitor.check_price_alerts c' batch = Ok []) ∧
  (truthy (ProductMonitor.price_alert_enabled c) = false →
   is_Some (as_number (ProductMonitor.price_alert_threshold c)) →
   r.2 = None ∧
   (answer.2 = true →
    ProductMonitor.price_alert_enabled c' = JBool true ∧
    ProductMonitor.price_alert_threshold c' = JFloat answer.1 ∧
    ProductMonitor.check_price_alerts c' batch
    = Ok (if Qleb answer.1 0 then []
          else List.filter (λ p, Qleb (p_price p) answer.1) batch)) ∧
   (answer.2 = false →
    ProductMonitor.price_alert_enabled c' = JBool false ∧
    ProductMonitor.price_alert_threshold c'
    = ProductMonitor.price_alert_threshold c ∧
    ProductMonitor.check_price_alerts c' batch = Ok [])) ∧
  ProductMonitor.product_cache r.1 = ProductMonitor.product_cache st ∧
  ProductMonitor.min_price_products r.1 = ProductMonitor.min_price_products st ∧
  ProductMonitor.api_cooldown c' = ProductMonitor.api_cooldown c.
Proof.
  simpl. unfold ProductMonitor.toggle_price_alert.
  destruct answer as [t ok]. simpl.
  destruct (truthy (ProductMonitor.price_alert_enabled (ProductMonitor.conf st)))
    eqn:Hen; simpl.
  - split_and!; try done.
  - destruct (as_number (ProductMonitor.price_alert_threshold (ProductMonitor.conf st)))
      as [q|] eqn:Hq.
    + destruct ok; simpl; split_and!; try done.
      * intros _ _. split_and!; try done. intros _. split_and!; try done.
        unfold ProductMonitor.check_price_alerts, le_zero. simpl.
        destruct (Qleb t 0); [done|]. by apply alert_products_filter.
    + split_and!; try done; by intros _ [x Hx].
Qed.

Lemma toggle_price_alert_sets_check_witness :
  ProductMonitor.check_price_alerts
    (ProductMonitor.conf (ProductMonitor.toggle_price_alert (5%Q, true) sample_window).1)
    [sample "1" "A" 499; sample "2" "B" 501]
  = Ok [sample "1" "A" 499].
Proof.
  destruct (toggle_price_alert_sets_check (5%Q, true) sample_window
              [sample "1" "A" 499; sample "2" "B" 501])
    as (_ & Hon & _).
  destruct Hon as (_ & Hok & _); [reflexivity|by eexists|].
  destruct (Hok eq_refl) as (_ & _ & Hcheck). exact Hcheck.
Defined.

(** ** Further properties: the grid *)

Lemma Qleb_inject c n : Qleb (inject_Z c) (inject_Z n) = (c <=? n)%Z.
Proof. unfold Qleb, inject_Z. simpl. by rewrite !Z.mul_1_r. Qed.

Lemma cell_of row col c :
  (1 <= c)%Z → (0 <= col < c)%Z →
  ((row * c + col) / c = row ∧ (row * c + col) mod c = col)%Z.
Proof.
  intros Hc Hcol. split.
  - rewrite Z.add_comm, Z.div_add by lia. rewrite Z.div_small by lia. lia.
  - rewrite Z.add_comm, Z.mod_add by lia. apply Z.mod_small. lia.
Qed.

(** With [c] columns, filling from cell number [n] puts the [k]-th widget
    in cell number [n + k], cells being counted row by row. *)
Lemma place_cells c widgets : ∀ row col,
  (1 <= c)%Z → (0 <= col < c)%Z →
  ProductMonitor.place (JInt c) widgets row col
  = (imap (λ k w, (w, (((row * c + col + Z.of_nat k) / c)%Z,
                       ((row * c + col + Z.of_nat k) mod c)%Z))) widgets,
     (((row * c + col + Z.of_nat (length widgets)) / c)%Z,
      ((row * c + col + Z.of_nat (length widgets)) mod c)%Z),
     None).
Proof.
  induction widgets as [|w rest IH]; intros row col Hc Hcol.
  - simpl. rewrite Z.add_0_r.
    by destruct (cell_of row col c Hc Hcol) as [-> ->].
  - cbn [ProductMonitor.place as_number]. rewrite Qleb_inject.
    destruct (cell_of row col c Hc Hcol) as [Hd Hm].
    destruct (c <=? col + 1)%Z eqn:E.
    + apply Z.leb_le in E. rewrite IH by lia.
      cbn [imap length]. change (Z.of_nat 0) with 0%Z.
      rewrite (Z.add_0_r (row * c + col)), Hd, Hm.
      replace ((row + 1) * c + 0 + Z.of_nat (length rest))%Z
        with (row * c + col + Z.of_nat (S (length rest)))%Z by lia.
      do 3 f_equal. apply imap_ext. intros k x _. simpl.
      replace ((row + 1) * c + 0 + Z.of_nat k)%Z
        with (row * c + col + Z.of_nat (S k))%Z by lia. done.
    + apply Z.leb_gt in E. rewrite IH by lia.
      cbn [imap length]. change (Z.of_nat 0) with 0%Z.
      rewrite (Z.add_0_r (row * c + col)), Hd, Hm.
      replace (row * c + (col + 1) + Z.of_nat (length rest))%Z
        with (row * c + col + Z.of_nat (S (length rest)))%Z by lia.
      do 3 f_equal. apply imap_ext. intros k x _. simpl.
      replace (row * c + (col + 1) + Z.of_nat k)%Z
        with (row * c + col + Z.of_nat (S k))%Z by lia. done.
Qed.

Lemma filter_split_perm {A} (f : A → bool) (l : list A) :
  List.filter f l ++ List.filter (λ x, negb (f x)) l ≡ₚ l.
Proof.
  induction l as [|x l IH]; [done|]. simpl.
  destruct (f x); simpl.
  - by rewrite IH.
  - rewrite <- Permutation_middle. by rewrite IH.
Qed.

(** X20. With a column count [c] of at least one, the grid holds every card
    of the cache once: first the cards of the latest batch, then the
    others, each group in the order of the cache, the [k]-th of them in row
    [k / c] and column [k mod c]; so no two cards share a cell. With a
    column count that is not a number the method gives up after the first
    card. *)
Theorem grid_puts_latest_batch_first (cards : list (string * ProductMonitor.card))
    (recent_ids : gset string) (c : Z) (bad : json) :
  (1 <= c)%Z →
  ProductMonitor.refresh_layout_with_recent_first cards recent_ids (JInt c)
  = (imap (λ k w, (w, ((Z.of_nat k / c)%Z, (Z.of_nat k mod c)%Z)))
          (recent_first cards recent_ids), true) ∧
  recent_first cards recent_ids ≡ₚ snd <$> cards ∧
  (∀ i j : nat, (Z.of_nat i / c = Z.of_nat j / c)%Z →
                (Z.of_nat i mod c = Z.of_nat j mod c)%Z → i = j) ∧
  (as_number bad = None →
   (ProductMonitor.refresh_layout_with_recent_first cards recent_ids bad).2 = false
   ∨ cards = []).
Proof.
  intros Hc. split_and!.
  - unfold ProductMonitor.refresh_layout_with_recent_first, recent_first.
    rewrite place_cells by lia.
    set (recent := snd <$> List.filter
                     (λ kv : string * ProductMonitor.card,
                        bool_decide (kv.1 ∈ recent_ids)) cards).
    set (other := snd <$> List.filter
                    (λ kv : string * ProductMonitor.card,
                       negb (bool_decide (kv.1 ∈ recent_ids))) cards).
    pose proof (Z.mod_pos_bound (0 * c + 0 + Z.of_nat (length recent)) c) as Hb.
    rewrite place_cells by lia.
    f_equal. rewrite imap_app.
    apply (f_equal2 app); apply imap_ext; intros k x _; cbv beta.
    + replace (0 * c + 0 + Z.of_nat k)%Z with (Z.of_nat k) by lia. done.
    + replace ((0 * c + 0 + Z.of_nat (length recent)) / c * c
               + (0 * c + 0 + Z.of_nat (length recent)) mod c + Z.of_nat k)%Z
        with (Z.of_nat (length recent + k)); [done|].
      pose proof (Z.div_mod (0 * c + 0 + Z.of_nat (length recent)) c). lia.
  - unfold recent_first. rewrite <- fmap_app. by rewrite filter_split_perm.
  - intros i j Hd Hm.
    pose proof (Z.div_mod (Z.of_nat i) c). pose proof (Z.div_mod (Z.of_nat j) c).
    apply Nat2Z.inj. rewrite H, H0 by lia. by rewrite Hd, Hm.
  - intros Hbad. destruct cards as [|[pid w] rest]; [by right|]. left.
    unfold ProductMonitor.refresh_layout_with_recent_first. simpl.
    destruct (bool_decide (pid ∈ recent_ids)); simpl; rewrite Hbad; [done|].
    destruct (snd <$> List.filter _ rest); simpl; by rewrite ?Hbad.
Qed.

Lemma grid_puts_latest_batch_first_witness :
  let a := card_of (sample "1" "A" 1000) false in
  let b := card_of (sample "2" "B" 800) true in
  let c := card_of (sample "3" "C" 500) true in
  ProductMonitor.refresh_layout_with_recent_first
    [("1", a); ("2", b); ("3", c)] {[ "2"; "3" ]} (JInt 2)
  = ([(b, (0, 0)); (c, (0, 1)); (a, (1, 0))]%Z, true).
Proof.
  intros a b c.
  destruct (grid_puts_latest_batch_first [("1", a); ("2", b); ("3", c)]
              {[ "2"; "3" ]} 2 JNull) as (Hgrid & _); [lia|].
  rewrite Hgrid. vm_compute. reflexivity.
Defined.
